(** * cbauthimpl: service state, caches and credential lookup

    A shallow embedding of package [cbauthimpl] (the implementation behind
    the [cbauth] client library): the configuration snapshot [credsDB], the
    service object [Svc] with its staleness state, the three version-keyed
    caches, the calls to the authority and the TLS-change notifier.

    Go values are embedded as follows.
    - [string] is a byte string; [int] and [uint16] values are [Z] (no
      arithmetic is done on them, only comparisons).
    - a nil-able pointer, interface or func is an [option].
    - a slice is a [list].
    - a function that mutates [*Svc] is a function from the service state
      to a [result]: it returns a value and the new state, it panics, or it
      blocks on a channel that only another goroutine can make ready.
    - what the Go standard library computes ([net.ParseIP], URL parsing in
      [http.NewRequest], [md5]) is taken as the interface [GoStd]. *)

From stdpp Require Import base decidable strings list pretty.
From Stdlib Require Import ZArith String Ascii Lia.

Open Scope string_scope.
Open Scope Z_scope.

(** ** Errors *)

(** The three sentinel errors of the package, and every other error value
    (transport failures, [fmt.Errorf] results, the stale error supplied by
    the owner of the service), identified by its message. *)
Inductive error : Type :=
  | ErrNoAuth
  | ErrCallbackAlreadyRegistered
  | ErrUserNotFound
  | Errorf (msg : string).

#[global] Instance error_eq_dec : EqDecision error.
Proof. solve_decision. Defined.

(** ** The standard-library interface *)

Class GoStd : Type := {
  (** [net.IP] values that are not nil. *)
  IP : Type;
  (** [net.ParseIP]: [None] is the nil address of a string that is not an
      IP literal. *)
  net_ParseIP : string -> option IP;
  IP_IsLoopback : IP -> bool;
  IP_Equal : IP -> IP -> bool;
  IP_Equal_refl : forall ip : IP, IP_Equal ip ip = true;
  (** The error of [http.NewRequest method url], [None] when the request
      is built. *)
  http_NewRequest_error : string -> string -> option error;
  (** The request [verifyPasswordOnServer] builds only to carry a header
      ("Must not happen" otherwise). *)
  http_NewRequest_host : http_NewRequest_error "GET" "http://host/" = None;
  (** [md5.New], [Write], [Sum(nil)] as one function of the bytes. *)
  md5_Sum : string -> string
}.

(** [ip.IsLoopback()] on a possibly nil receiver: the nil address is not a
    loopback address. *)
Definition IsLoopback `{GoStd} (ip : option IP) : bool :=
  match ip with
  | Some a => IP_IsLoopback a
  | None => false
  end.

(** ** Nodes and the host matcher *)

Record Node : Type := {
  Host : string;
  User : string;
  Password : string;
  Ports : list Z;
  Local : bool
}.

Definition matchHost `{GoStd} (n : Node) (host : string) : bool :=
  let NodeHostIP := net_ParseIP (Host n) in
  let HostIP := net_ParseIP host in
  if IsLoopback NodeHostIP then true
  else if IsLoopback HostIP && Local n then true
  else
    match NodeHostIP, HostIP with
    | Some nip, Some hip => IP_Equal hip nip
    | _, _ => bool_decide (host = Host n)
    end.

(** The [range n.Ports] loop of [getMemcachedCreds]. *)
Fixpoint rangePorts (n : Node) (ps : list Z) (port : Z) : string * string :=
  match ps with
  | [] => ("", "")
  | p :: ps' =>
      if Z.eqb p port then (User n, Password n) else rangePorts n ps' port
  end.

Definition getMemcachedCreds `{GoStd} (n : Node) (host : string) (port : Z)
  : string * string :=
  if negb (matchHost n host) then ("", "")
  else rangePorts n (Ports n) port.

(** ** TLS settings *)

Record TLSConfig : Type := {
  MinVersion : Z;
  CipherSuites : list Z;
  CipherSuiteNames : list string;
  CipherSuiteOpenSSLNames : list string;
  PreferServerCipherSuites : bool
}.

#[global] Instance TLSConfig_eq_dec : EqDecision TLSConfig.
Proof. solve_decision. Defined.

Record tlsConfigImport : Type := {
  MinTLSVersion : string;
  Ciphers : list Z;
  CipherNames : list string;
  CipherOpenSSLNames : list string;
  CipherOrder : bool
}.

(** [tls.VersionTLS10], [tls.VersionTLS11], [tls.VersionTLS12]. *)
Definition VersionTLS10 : Z := 769.
Definition VersionTLS11 : Z := 770.
Definition VersionTLS12 : Z := 771.

(** [strings.ToLower] on the ASCII letters.  The three literals
    [minTLSVersion] compares with are ASCII, and no other rune lowers to
    one of their letters, so the comparison results are those of Go. *)
Definition lower_ascii (c : ascii) : ascii :=
  let n := nat_of_ascii c in
  if (Nat.leb 65 n && Nat.leb n 90)%bool then ascii_of_nat (n + 32) else c.

Fixpoint ToLower (s : string) : string :=
  match s with
  | EmptyString => EmptyString
  | String c s' => String (lower_ascii c) (ToLower s')
  end.

Definition minTLSVersion (str : string) : Z :=
  let l := ToLower str in
  if bool_decide (l = "tlsv1") then VersionTLS10
  else if bool_decide (l = "tlsv1.1") then VersionTLS11
  else if bool_decide (l = "tlsv1.2") then VersionTLS12
  else VersionTLS10.

(** [append([]T{}, xs...)] copies [xs] into a fresh slice that is never
    nil, so the slices of a [TLSConfig] held by a snapshot are lists and
    [reflect.DeepEqual] on two of them is equality. *)
Definition importTLSConfig (cfg : tlsConfigImport) : TLSConfig :=
  {| MinVersion := minTLSVersion (MinTLSVersion cfg);
     CipherSuites := [] ++ Ciphers cfg;
     CipherSuiteNames := [] ++ CipherNames cfg;
     CipherSuiteOpenSSLNames := [] ++ CipherOpenSSLNames cfg;
     PreferServerCipherSuites := CipherOrder cfg |}.

(** ** The configuration snapshot *)

Record credsDB : Type := {
  nodes : list Node;
  authCheckURL : string;
  permissionCheckURL : string;
  specialUser : string;
  specialPassword : string;
  permissionsVersion : string;
  authVersion : string;
  certVersion : Z;
  extractUserFromCertURL : string;
  clientCertAuthState : string;
  clientCertAuthVersion : string;
  tlsConfig : TLSConfig
}.

(** [Cache] is the message pushed by the authority. *)
Record Cache : Type := {
  Nodes : list Node;
  AuthCheckURL : string;
  PermissionCheckURL : string;
  SpecialUser : string;
  PermissionsVersion : string;
  AuthVersion : string;
  CertVersion : Z;
  ExtractUserFromCertURL : string;
  ClientCertAuthState : string;
  ClientCertAuthVersion : string;
  TLSConfig_ : tlsConfigImport
}.

(** The loop of [cacheToCredsDB]: the password of the first node flagged
    local, or the zero value of the field when the loop ends without a
    [break]. *)
Fixpoint localPassword (ns : list Node) : string :=
  match ns with
  | [] => ""
  | node :: ns' => if Local node then Password node else localPassword ns'
  end.

Definition cacheToCredsDB (c : Cache) : credsDB :=
  {| nodes := Nodes c;
     authCheckURL := AuthCheckURL c;
     permissionCheckURL := PermissionCheckURL c;
     specialUser := SpecialUser c;
     specialPassword := localPassword (Nodes c);
     permissionsVersion := PermissionsVersion c;
     authVersion := AuthVersion c;
     certVersion := CertVersion c;
     extractUserFromCertURL := ExtractUserFromCertURL c;
     clientCertAuthState := ClientCertAuthState c;
     clientCertAuthVersion := ClientCertAuthVersion c;
     tlsConfig := importTLSConfig (TLSConfig_ c) |}.

Definition verifySpecialCreds (db : credsDB) (user password : string) : bool :=
  match user with
  | String c _ =>
      bool_decide (c = "@"%char) && bool_decide (password = specialPassword db)
  | EmptyString => false
  end.

(** ** HTTP requests and responses *)

(** A header value is a string; the value [SetBasicAuth] builds,
    ["Basic " + base64(username + ":" + password)], is kept symbolic. *)
Inductive hvalue : Type :=
  | HString (s : string)
  | HBasic (username password : string).

#[global] Instance hvalue_eq_dec : EqDecision hvalue.
Proof. solve_decision. Defined.

(** [textproto.CanonicalMIMEHeaderKey], which [http.Header]'s [Get],
    [Set] and [Del] apply to the name they are given.  A name made of
    token characters only (RFC 7230) gets its first letter and every
    letter after a hyphen in upper case and every other letter in lower
    case; a name with any other byte is returned as it is. *)
Definition validHeaderFieldByte (c : ascii) : bool :=
  let n := nat_of_ascii c in
  (Nat.leb 48 n && Nat.leb n 57) || (Nat.leb 65 n && Nat.leb n 90)
  || (Nat.leb 97 n && Nat.leb n 122)
  || existsb (Ascii.eqb c) (list_ascii_of_string "!#$%&'*+-.^_`|~").

(** The second loop of [canonicalMIMEHeaderKey]; [upper] says whether
    the next letter starts a word. *)
Fixpoint canonicalMIMEHeaderKey (upper : bool) (s : string) : string :=
  match s with
  | EmptyString => EmptyString
  | String c s' =>
      let n := nat_of_ascii c in
      let c' :=
        if upper && (Nat.leb 97 n && Nat.leb n 122) then ascii_of_nat (n - 32)
        else if negb upper && (Nat.leb 65 n && Nat.leb n 90)
        then ascii_of_nat (n + 32)
        else c in
      String c' (canonicalMIMEHeaderKey (Ascii.eqb c' "-") s')
  end.

Definition CanonicalMIMEHeaderKey (s : string) : string :=
  if forallb validHeaderFieldByte (list_ascii_of_string s)
  then canonicalMIMEHeaderKey true s
  else s.

(** [http.Header] with one value per name: the map as the list of its
    keys and values.  [Header_index] is the map access [h[key]] followed
    by the first value (the empty string when there is none), and
    [Header_delete] is [delete(h, key)]; both compare keys as they are
    stored.  [Header_Get], [Header_Del] and [Header_Set] are the methods:
    they canonicalise the name first. *)
Definition Header : Type := list (string * hvalue).

Fixpoint Header_index (key : string) (h : Header) : hvalue :=
  match h with
  | [] => HString ""
  | (k, v) :: h' => if bool_decide (k = key) then v else Header_index key h'
  end.

Fixpoint Header_delete (key : string) (h : Header) : Header :=
  match h with
  | [] => []
  | (k, v) :: h' =>
      if bool_decide (k = key) then Header_delete key h'
      else (k, v) :: Header_delete key h'
  end.

Definition Header_Get (name : string) (h : Header) : hvalue :=
  Header_index (CanonicalMIMEHeaderKey name) h.

Definition Header_Del (name : string) (h : Header) : Header :=
  Header_delete (CanonicalMIMEHeaderKey name) h.

Definition Header_Set (name : string) (v : hvalue) (h : Header) : Header :=
  (Header_Del name h ++ [(CanonicalMIMEHeaderKey name, v)])%list.

Definition copyHeader (name : string) (from to : Header) : Header :=
  let val := Header_Get name from in
  if bool_decide (val = HString "") then to else Header_Set name val to.

(** An outgoing request: method, URL, the query parameters that
    [url.Values.Encode] writes (sorted by key), headers and body. *)
Record Request : Type := {
  Method : string;
  URL : string;
  RawQuery : list (string * string);
  Hdr : Header;
  Body : option string
}.

Definition SetBasicAuth (username password : string) (r : Request) : Request :=
  {| Method := Method r; URL := URL r; RawQuery := RawQuery r;
     Hdr := Header_Set "Authorization" (HBasic username password) (Hdr r);
     Body := Body r |}.

Definition withHeader (h : Header) (r : Request) : Request :=
  {| Method := Method r; URL := URL r; RawQuery := RawQuery r;
     Hdr := h; Body := Body r |}.

Definition withRawQuery (q : list (string * string)) (r : Request) : Request :=
  {| Method := Method r; URL := URL r; RawQuery := q;
     Hdr := Hdr r; Body := Body r |}.

(** [http.NewRequest]: the request, or the error of the standard
    library for this method and URL. *)
Definition NewRequest `{GoStd} (method url : string) (body : option string)
  : Request + error :=
  match http_NewRequest_error method url with
  | Some e => inr e
  | None =>
      inl {| Method := method; URL := url; RawQuery := [];
             Hdr := []; Body := body |}
  end.

(** A response body as [ioutil.ReadAll] followed by [json.Unmarshal] into
    [struct { User, Domain string }] sees it. *)
Inductive body : Type :=
  | BodyReadError (e : error)
  | BodyBadJSON (e : error)
  | BodyJSON (User Domain : string).

Record Response : Type := {
  StatusCode : Z;
  Status : string;
  RespBody : body
}.

Inductive DoResult : Type :=
  | DoError (e : error)
  | DoResponse (r : Response).

(** The HTTP client of the service.  [Transport] is the authority as seen
    through [httpClient.Do]: its answer to a request may depend on the
    requests made before.  [sent] records every request handed to [Do],
    oldest first; an outbound call is one more entry of [sent]. *)
Record Client : Type := {
  Transport : list Request -> Request -> DoResult;
  sent : list Request
}.

Definition Client_Do (c : Client) (req : Request) : DoResult * Client :=
  (Transport c (sent c) req,
   {| Transport := Transport c; sent := (sent c ++ [req])%list |}).

(** An incoming request, as far as [MaybeGetCredsFromCert] reads it. *)
Record Certificate : Type := { Raw : string }.

Record ConnectionState : Type := { PeerCertificates : list Certificate }.

Record InRequest : Type := { TLS : option ConnectionState }.

(** ** LRUCache *)

(** Modelled from the spec: the file that defines [LRUCache],
    [NewLRUCache], [Get] and [Set] is not among the sources.  The spec
    gives a fixed-capacity key-value cache; [Set] at capacity evicts the
    single least recently used entry before inserting; [Get] on a hit
    refreshes recency; there is no expiry.  Entries are kept most
    recently used first. *)
Record LRUCache (K V : Type) : Type := {
  maxSize : nat;
  entries : list (K * V)
}.

Arguments maxSize {K V} _.
Arguments entries {K V} _.

(** Modelled from the spec: [NewLRUCache(size)], an empty cache of fixed
    capacity. *)
Definition NewLRUCache (K V : Type) (size : nat) : LRUCache K V :=
  {| maxSize := size; entries := [] |}.

Section LRU.
Context {K V : Type} `{EqDecision K}.

Fixpoint lru_find (key : K) (l : list (K * V)) : option V :=
  match l with
  | [] => None
  | (k, v) :: l' => if bool_decide (k = key) then Some v else lru_find key l'
  end.

Fixpoint lru_remove (key : K) (l : list (K * V)) : list (K * V) :=
  match l with
  | [] => []
  | (k, v) :: l' =>
      if bool_decide (k = key) then lru_remove key l'
      else (k, v) :: lru_remove key l'
  end.

(** Modelled from the spec: [Get(key)] returns the value and whether it
    was found; a hit makes the entry the most recently used, a miss
    changes nothing. *)
Definition LRU_Get (key : K) (c : LRUCache K V) : option V * LRUCache K V :=
  match lru_find key (entries c) with
  | Some v =>
      (Some v,
       {| maxSize := maxSize c;
          entries := (key, v) :: lru_remove key (entries c) |})
  | None => (None, c)
  end.

(** Modelled from the spec: [Set(key, value)].  A key already present
    keeps its place in the map and takes the new value, as the most
    recently used entry; a new key, when the cache is at capacity, first
    evicts the least recently used entry (the last of the list). *)
Definition LRU_Set (key : K) (value : V) (c : LRUCache K V) : LRUCache K V :=
  match lru_find key (entries c) with
  | Some _ =>
      {| maxSize := maxSize c;
         entries := (key, value) :: lru_remove key (entries c) |}
  | None =>
      if Nat.leb (maxSize c) (List.length (entries c))
      then {| maxSize := maxSize c;
              entries := (key, value) :: removelast (entries c) |}
      else {| maxSize := maxSize c;
              entries := (key, value) :: entries c |}
  end.

(** What a [Get] would find, without touching recency. *)
Definition LRU_peek (key : K) (c : LRUCache K V) : option V :=
  lru_find key (entries c).
End LRU.

(** ** Cache keys, identities and credentials *)

(** The Go structs below share field names ([user], [domain], [version]);
    the fields carry the struct's initials here. *)
Record userPermission : Type := {
  up_version : string;
  up_user : string;
  up_domain : string;
  up_permission : string
}.

Record userPassword : Type := {
  pw_version : string;
  pw_user : string;
  pw_password : string
}.

Record userIdentity : Type := {
  id_user : string;
  id_domain : string
}.

Record clienCertHash : Type := {
  cch_hash : string;
  cch_version : string
}.

#[global] Instance userPermission_eq_dec : EqDecision userPermission.
Proof. solve_decision. Defined.

#[global] Instance userPassword_eq_dec : EqDecision userPassword.
Proof. solve_decision. Defined.

#[global] Instance userIdentity_eq_dec : EqDecision userIdentity.
Proof. solve_decision. Defined.

#[global] Instance clienCertHash_eq_dec : EqDecision clienCertHash.
Proof. solve_decision. Defined.

(** [CredsImpl].  Its field [s] points back to the one service of the
    model and is left out; [db] is the snapshot the credentials were
    resolved under. *)
Record CredsImpl : Type := {
  name : string;
  domain : string;
  password : string;
  creds_db : credsDB
}.

Definition Name (c : CredsImpl) : string := name c.

Definition Domain (c : CredsImpl) : string :=
  if bool_decide (domain c = "admin") || bool_decide (domain c = "ro_admin")
  then "builtin"
  else domain c.

(** ** The TLS-change notifier *)

(** A refresh callback, as the error its k-th run returns. *)
Definition TLSRefreshCallback : Type := nat -> option error.

(** [ch] is the channel of capacity one: [true] when a notification is
    waiting in it.  [requests] is not a field of the Go struct: it counts
    the calls of [notifyTLSChangeLocked], so that a request dropped by the
    non-blocking send can still be told from no request. *)
Record tlsNotifier : Type := {
  ch : bool;
  callback : option TLSRefreshCallback;
  requests : nat
}.

Definition newTLSNotifier : tlsNotifier :=
  {| ch := false; callback := None; requests := 0 |}.

(** The non-blocking send: a second notification is dropped while one
    waits. *)
Definition notifyTLSChangeLocked (n : tlsNotifier) : tlsNotifier :=
  {| ch := true; callback := callback n; requests := S (requests n) |}.

Definition notifyTLSChange (n : tlsNotifier) : tlsNotifier :=
  notifyTLSChangeLocked n.

Definition registerCallback (cb : option TLSRefreshCallback) (n : tlsNotifier)
  : option error * tlsNotifier :=
  match callback n with
  | Some _ => (Some ErrCallbackAlreadyRegistered, n)
  | None =>
      (None,
       notifyTLSChangeLocked
         {| ch := ch n; callback := cb; requests := requests n |})
  end.

Definition getCallback (n : tlsNotifier) : option TLSRefreshCallback :=
  callback n.

(** [maybeExecuteCallback] for the run number [k] of the callback: the
    error, and whether the callback ran. *)
Definition maybeExecuteCallback (n : tlsNotifier) (k : nat)
  : option error * bool :=
  match getCallback n with
  | Some cb => (cb k, true)
  | None => (None, false)
  end.

(** The state of the goroutine [loop]: whether the retry timer is armed,
    and how many times it has run the callback. *)
Record loopState : Type := {
  retry : bool;
  runs : nat
}.

(** Which case of the [select] fires. *)
Inductive wakeup : Type :=
  | RetryFired
  | Notified.

(** One iteration of [loop].  [None]: that case of the [select] is not
    ready (a nil timer channel, an empty [ch]). *)
Definition loop_iteration (w : wakeup) (ls : loopState) (n : tlsNotifier)
  : option (loopState * tlsNotifier) :=
  let selected :=
    match w with
    | RetryFired => if retry ls then Some (false, n) else None
    | Notified =>
        if ch n
        then Some (retry ls,
                   {| ch := false; callback := callback n;
                      requests := requests n |})
        else None
    end in
  match selected with
  | None => None
  | Some (armed, n') =>
      let '(err, ran) := maybeExecuteCallback n' (runs ls) in
      let runs' := if ran then S (runs ls) else runs ls in
      match err with
      | None => Some ({| retry := false; runs := runs' |}, n')
      | Some _ => Some ({| retry := true; runs := runs' |}, n')
      end
  end.

(** ** The service *)

(** [tls.ClientAuthType]. *)
Inductive ClientAuthType : Type :=
  | NoClientCert
  | RequestClientCert
  | RequireAnyClientCert
  | VerifyClientCertIfGiven
  | RequireAndVerifyClientCert.

(** [Svc].  [freshChan] is [true] while the wait handle exists (the
    channel is set to nil as it is closed).  A cache is [None] until its
    [sync.Once] has run.  [semaphore] is the number of tokens in the
    channel of capacity [semaphoreCap]. *)
Record Svc : Type := {
  db : option credsDB;
  staleErr : option error;
  freshChan : bool;
  upCache : option (LRUCache userPermission bool);
  authCache : option (LRUCache userPassword userIdentity);
  clientCertCache : option (LRUCache clienCertHash userIdentity);
  httpClient : Client;
  semaphore : nat;
  tlsNotifier_ : tlsNotifier
}.

Definition semaphoreCap : nat := 10.

Definition set_db (v : option credsDB) (s : Svc) : Svc :=
  {| db := v; staleErr := staleErr s; freshChan := freshChan s;
     upCache := upCache s; authCache := authCache s;
     clientCertCache := clientCertCache s; httpClient := httpClient s;
     semaphore := semaphore s; tlsNotifier_ := tlsNotifier_ s |}.

Definition set_staleErr (v : option error) (s : Svc) : Svc :=
  {| db := db s; staleErr := v; freshChan := freshChan s;
     upCache := upCache s; authCache := authCache s;
     clientCertCache := clientCertCache s; httpClient := httpClient s;
     semaphore := semaphore s; tlsNotifier_ := tlsNotifier_ s |}.

Definition set_freshChan (v : bool) (s : Svc) : Svc :=
  {| db := db s; staleErr := staleErr s; freshChan := v;
     upCache := upCache s; authCache := authCache s;
     clientCertCache := clientCertCache s; httpClient := httpClient s;
     semaphore := semaphore s; tlsNotifier_ := tlsNotifier_ s |}.

Definition set_upCache (v : option (LRUCache userPermission bool)) (s : Svc)
  : Svc :=
  {| db := db s; staleErr := staleErr s; freshChan := freshChan s;
     upCache := v; authCache := authCache s;
     clientCertCache := clientCertCache s; httpClient := httpClient s;
     semaphore := semaphore s; tlsNotifier_ := tlsNotifier_ s |}.

Definition set_authCache (v : option (LRUCache userPassword userIdentity))
  (s : Svc) : Svc :=
  {| db := db s; staleErr := staleErr s; freshChan := freshChan s;
     upCache := upCache s; authCache := v;
     clientCertCache := clientCertCache s; httpClient := httpClient s;
     semaphore := semaphore s; tlsNotifier_ := tlsNotifier_ s |}.

Definition set_clientCertCache
  (v : option (LRUCache clienCertHash userIdentity)) (s : Svc) : Svc :=
  {| db := db s; staleErr := staleErr s; freshChan := freshChan s;
     upCache := upCache s; authCache := authCache s;
     clientCertCache := v; httpClient := httpClient s;
     semaphore := semaphore s; tlsNotifier_ := tlsNotifier_ s |}.

Definition set_httpClient (v : Client) (s : Svc) : Svc :=
  {| db := db s; staleErr := staleErr s; freshChan := freshChan s;
     upCache := upCache s; authCache := authCache s;
     clientCertCache := clientCertCache s; httpClient := v;
     semaphore := semaphore s; tlsNotifier_ := tlsNotifier_ s |}.

Definition set_semaphore (v : nat) (s : Svc) : Svc :=
  {| db := db s; staleErr := staleErr s; freshChan := freshChan s;
     upCache := upCache s; authCache := authCache s;
     clientCertCache := clientCertCache s; httpClient := httpClient s;
     semaphore := v; tlsNotifier_ := tlsNotifier_ s |}.

Definition set_tlsNotifier (v : tlsNotifier) (s : Svc) : Svc :=
  {| db := db s; staleErr := staleErr s; freshChan := freshChan s;
     upCache := upCache s; authCache := authCache s;
     clientCertCache := clientCertCache s; httpClient := httpClient s;
     semaphore := semaphore s; tlsNotifier_ := v |}.

(** ** Computations on the service *)

Inductive result (A : Type) : Type :=
  | Ret (a : A) (s : Svc)
  | Panic (msg : string)
  | Block.

Arguments Ret {A} a s.
Arguments Panic {A} msg.
Arguments Block {A}.

Definition M (A : Type) : Type := Svc -> result A.

Definition ret {A : Type} (a : A) : M A := fun s => Ret a s.

Definition bind {A B : Type} (m : M A) (k : A -> M B) : M B :=
  fun s =>
    match m s with
    | Ret a s' => k a s'
    | Panic msg => Panic msg
    | Block => Block
    end.

Definition panic {A : Type} (msg : string) : M A := fun _ => Panic msg.

Definition gets {A : Type} (f : Svc -> A) : M A := fun s => Ret (f s) s.

Definition modify (f : Svc -> Svc) : M unit := fun s => Ret tt (f s).

Declare Scope svc_scope.
Delimit Scope svc_scope with svc.

Notation "x <- m ;; k" := (bind m (fun x => k))
  (at level 100, m at next level, right associativity) : svc_scope.
Notation "m ;;; k" := (bind m (fun _ => k))
  (at level 100, right associativity) : svc_scope.

Open Scope svc_scope.

(** *** Snapshot replacement *)

Definition updateDBLocked (d : option credsDB) (s : Svc) : Svc :=
  let s1 := set_db d s in
  if freshChan s1 then set_freshChan false s1 else s1.

Definition needRefreshTLS (s : Svc) (d : credsDB) : bool :=
  match db s with
  | None => true
  | Some old =>
      negb (Z.eqb (certVersion old) (certVersion d))
      || negb (bool_decide (clientCertAuthState old = clientCertAuthState d))
      || negb (bool_decide (tlsConfig old = tlsConfig d))
  end.

(** [UpdateDB].  The out-parameter, which the caller may pass as nil, is
    not part of the state; the returned error is always nil. *)
Definition UpdateDB (c : Cache) : M (option error) := fun s =>
  let d := cacheToCredsDB c in
  let tlsUpdated := needRefreshTLS s d in
  let s1 := updateDBLocked (Some d) s in
  let s2 :=
    if tlsUpdated
    then set_tlsNotifier (notifyTLSChange (tlsNotifier_ s1)) s1
    else s1 in
  Ret None s2.

Definition ResetSvc (e : option error) : M unit :=
  match e with
  | None => panic "staleErr must be non-nil"
  | Some _ => modify (fun s => updateDBLocked None (set_staleErr e s))
  end.

Definition staleError : M error := fun s =>
  match staleErr s with
  | None => Panic "impossible Svc state where staleErr is nil!"
  | Some e => Ret e s
  end.

(** [NewSVCForTest] with the transport that [SetTransport] installs.  A
    nonzero [period] creates the wait handle and arms [waitfn] with
    [graceTimeout] as its body. *)
Definition NewSVCForTest (period : Z) (e : option error)
  (rt : list Request -> Request -> DoResult) : Svc + string :=
  match e with
  | None => inr "staleErr must be non-nil"
  | Some _ =>
      inl {| db := None; staleErr := e;
             freshChan := negb (Z.eqb period 0);
             upCache := None; authCache := None; clientCertCache := None;
             httpClient := {| Transport := rt; sent := [] |};
             semaphore := 0%nat;
             tlsNotifier_ := newTLSNotifier |}
  end.

Definition graceTimeout (s : Svc) : Svc :=
  if freshChan s then set_freshChan false s else s.

Definition SetTransport (rt : list Request -> Request -> DoResult) (s : Svc)
  : Svc :=
  set_httpClient {| Transport := rt; sent := sent (httpClient s) |} s.

(** [fetchDB].  With no snapshot and a wait handle the caller receives
    from the channel, which only [UpdateDB], [ResetSvc] or the grace
    timer of another goroutine closes. *)
Definition fetchDB : M (option credsDB) := fun s =>
  match db s, freshChan s with
  | None, true => Block
  | d, _ => Ret d s
  end.

(** *** The semaphore and the HTTP client *)

Definition semaphore_wait : M unit := fun s =>
  if Nat.ltb (semaphore s) semaphoreCap
  then Ret tt (set_semaphore (S (semaphore s)) s)
  else Block.

Definition semaphore_signal : M unit := fun s =>
  match semaphore s with
  | O => Block
  | S k => Ret tt (set_semaphore k s)
  end.

(** [s.semaphore.wait(); defer s.semaphore.signal()] around a body. *)
Definition throttled {A : Type} (body : M A) : M A :=
  semaphore_wait ;;;
  r <- body ;;
  semaphore_signal ;;;
  ret r.

Definition Do (req : Request) : M DoResult := fun s =>
  let '(r, c') := Client_Do (httpClient s) req in
  Ret r (set_httpClient c' s).

(** *** Verification on the server *)

Definition tokenHeader : string := "ns-server-ui".

Definition executeReqAndGetCreds (d : credsDB) (req : Request)
  : M (option CredsImpl * option error) :=
  hresp <- Do req ;;
  match hresp with
  | DoError e => ret (None, Some e)
  | DoResponse r =>
      if Z.eqb (StatusCode r) 401 then ret (None, Some ErrNoAuth)
      else if negb (Z.eqb (StatusCode r) 200) then
        ret (None,
             Some (Errorf
               ("Expecting 200 or 401 from ns_server auth endpoint. Got: "
                ++ Status r)))
      else
        match RespBody r with
        | BodyReadError e => ret (None, Some e)
        | BodyBadJSON e => ret (None, Some e)
        | BodyJSON u dm =>
            ret (Some {| name := u; domain := dm; password := "";
                         creds_db := d |}, None)
        end
  end.

(** [VerifyOnServer].  The URL test reads [s.db] again rather than the
    fetched snapshot. *)
Definition VerifyOnServer `{GoStd} (reqHeaders : Header)
  : M (option CredsImpl * option error) :=
  fetched <- fetchDB ;;
  match fetched with
  | None => e <- staleError ;; ret (None, Some e)
  | Some d =>
      cur <- gets db ;;
      match cur with
      | None => panic "invalid memory address or nil pointer dereference"
      | Some d' =>
          if bool_decide (authCheckURL d' = "") then ret (None, Some ErrNoAuth)
          else
            throttled
              (match NewRequest "POST" (authCheckURL d) None with
               | inr _ => panic "http.NewRequest"
               | inl req =>
                   let h := copyHeader tokenHeader reqHeaders (Hdr req) in
                   let h := copyHeader "ns-server-auth-token" reqHeaders h in
                   let h := copyHeader "Cookie" reqHeaders h in
                   let h := copyHeader "Authorization" reqHeaders h in
                   executeReqAndGetCreds d (withHeader h req)
               end)
      end
  end.

Definition verifyPasswordOnServer `{GoStd} (user password : string)
  : M (option CredsImpl * option error) :=
  match NewRequest "GET" "http://host/" None with
  | inr _ => panic "Must not happen"
  | inl req => VerifyOnServer (Hdr (SetBasicAuth user password req))
  end.

(** *** Permissions *)

Definition checkPermissionOnServer `{GoStd} (d : credsDB)
  (user domain permission : string) : M (bool * option error) :=
  throttled
    (match NewRequest "GET" (permissionCheckURL d) None with
     | inr e => ret (false, Some e)
     | inl req =>
         let req := SetBasicAuth (specialUser d) (specialPassword d) req in
         let req :=
           withRawQuery
             [("domain", domain); ("permission", permission); ("user", user)]
             req in
         hresp <- Do req ;;
         match hresp with
         | DoError e => ret (false, Some e)
         | DoResponse r =>
             if Z.eqb (StatusCode r) 200 then ret (true, None)
             else if Z.eqb (StatusCode r) 401 then ret (false, None)
             else
               ret (false,
                    Some (Errorf ("Unexpected return code "
                                  ++ pretty (StatusCode r))))
         end
     end).

Definition nilDeref : string :=
  "invalid memory address or nil pointer dereference".

(** [s.upCacheOnce.Do(func() { s.upCache = NewLRUCache(1024) })]: the
    once has run exactly when the cache pointer is set. *)
Definition upCacheOnce_Do : M unit := fun s =>
  match upCache s with
  | Some _ => Ret tt s
  | None => Ret tt (set_upCache (Some (NewLRUCache _ _ 1024)) s)
  end.

Definition upCache_Get (key : userPermission) : M (option bool) := fun s =>
  match upCache s with
  | None => Panic nilDeref
  | Some c =>
      let '(v, c') := LRU_Get key c in Ret v (set_upCache (Some c') s)
  end.

Definition upCache_Set (key : userPermission) (v : bool) : M unit := fun s =>
  match upCache s with
  | None => Panic nilDeref
  | Some c => Ret tt (set_upCache (Some (LRU_Set key v c)) s)
  end.

Definition checkPermission `{GoStd} (user domain permission : string)
  : M (bool * option error) :=
  fetched <- fetchDB ;;
  match fetched with
  | None => e <- staleError ;; ret (false, Some e)
  | Some d =>
      upCacheOnce_Do ;;;
      let key := {| up_version := permissionsVersion d; up_user := user;
                    up_domain := domain; up_permission := permission |} in
      allowed <- upCache_Get key ;;
      match allowed with
      | Some a => ret (a, None)
      | None =>
          r <- checkPermissionOnServer d user domain permission ;;
          match r with
          | (_, Some e) => ret (false, Some e)
          | (allowedOnServer, None) =>
              upCache_Set key allowedOnServer ;;;
              ret (allowedOnServer, None)
          end
      end
  end.

Definition IsAllowed `{GoStd} (c : CredsImpl) (permission : string)
  : M (bool * option error) :=
  checkPermission (name c) (domain c) permission.

(** *** Passwords *)

Definition authCacheOnce_Do : M unit := fun s =>
  match authCache s with
  | Some _ => Ret tt s
  | None => Ret tt (set_authCache (Some (NewLRUCache _ _ 256)) s)
  end.

Definition authCache_Get (key : userPassword) : M (option userIdentity) :=
  fun s =>
    match authCache s with
    | None => Panic nilDeref
    | Some c =>
        let '(v, c') := LRU_Get key c in Ret v (set_authCache (Some c') s)
    end.

Definition authCache_Set (key : userPassword) (v : userIdentity) : M unit :=
  fun s =>
    match authCache s with
    | None => Panic nilDeref
    | Some c => Ret tt (set_authCache (Some (LRU_Set key v c)) s)
    end.

Definition VerifyPassword `{GoStd} (user password : string)
  : M (option CredsImpl * option error) :=
  fetched <- fetchDB ;;
  match fetched with
  | None => e <- staleError ;; ret (None, Some e)
  | Some d =>
      if verifySpecialCreds d user password then
        ret (Some {| name := user; domain := "admin"; password := password;
                     creds_db := d |}, None)
      else
        authCacheOnce_Do ;;;
        let key := {| pw_version := authVersion d; pw_user := user;
                      pw_password := password |} in
        id <- authCache_Get key ;;
        match id with
        | Some ident =>
            ret (Some {| name := id_user ident;
                         domain := id_domain ident;
                         password := password; creds_db := d |}, None)
        | None =>
            r <- verifyPasswordOnServer user password ;;
            match r with
            | (_, Some e) => ret (None, Some e)
            | (None, None) => panic nilDeref
            | (Some rv, None) =>
                (if bool_decide (domain rv = "admin")
                    || bool_decide (domain rv = "local")
                 then authCache_Set key {| id_user := name rv;
                                           id_domain := domain rv |}
                 else ret tt) ;;;
                ret (Some rv, None)
            end
        end
  end.

(** *** Service credentials *)

(** The [range db.nodes] loop of [GetCreds] over the named results
    [memcachedUser], [user] and [pwd]. *)
Fixpoint rangeNodes `{GoStd} (d : credsDB) (ns : list Node) (host : string)
  (port : Z) (memcachedUser pwd : string) : string * string * string :=
  match ns with
  | [] => (memcachedUser, "", pwd)
  | n :: ns' =>
      let '(memcachedUser', pwd') := getMemcachedCreds n host port in
      if negb (bool_decide (memcachedUser' = ""))
      then (memcachedUser', specialUser d, pwd')
      else rangeNodes d ns' host port memcachedUser' pwd'
  end.

Definition GetCreds `{GoStd} (host : string) (port : Z)
  : M (string * string * string * option error) :=
  fetched <- fetchDB ;;
  match fetched with
  | None => e <- staleError ;; ret ("", "", "", Some e)
  | Some d => ret (rangeNodes d (nodes d) host port "" "", None)
  end.

(** *** TLS accessors *)

Definition RegisterTLSRefreshCallback (cb : option TLSRefreshCallback)
  : M (option error) := fun s =>
  let '(e, n') := registerCallback cb (tlsNotifier_ s) in
  Ret e (set_tlsNotifier n' s).

Definition getAuthType (state : string) : ClientAuthType :=
  if bool_decide (state = "enable") then VerifyClientCertIfGiven
  else if bool_decide (state = "mandatory") then RequireAndVerifyClientCert
  else NoClientCert.

Definition GetClientCertAuthType : M (ClientAuthType * option error) :=
  fetched <- fetchDB ;;
  match fetched with
  | None => e <- staleError ;; ret (NoClientCert, Some e)
  | Some d => ret (getAuthType (clientCertAuthState d), None)
  end.

(** The zero value [TLSConfig{}]. *)
Definition TLSConfig_zero : TLSConfig :=
  {| MinVersion := 0; CipherSuites := []; CipherSuiteNames := [];
     CipherSuiteOpenSSLNames := []; PreferServerCipherSuites := false |}.

Definition GetTLSConfig : M (TLSConfig * option error) :=
  fetched <- fetchDB ;;
  match fetched with
  | None => e <- staleError ;; ret (TLSConfig_zero, Some e)
  | Some d => ret (tlsConfig d, None)
  end.

(** *** Client certificates *)

Definition clientCertCacheOnce_Do : M unit := fun s =>
  match clientCertCache s with
  | Some _ => Ret tt s
  | None => Ret tt (set_clientCertCache (Some (NewLRUCache _ _ 256)) s)
  end.

Definition clientCertCache_Get (key : clienCertHash)
  : M (option userIdentity) := fun s =>
  match clientCertCache s with
  | None => Panic nilDeref
  | Some c =>
      let '(v, c') := LRU_Get key c in
      Ret v (set_clientCertCache (Some c') s)
  end.

Definition clientCertCache_Set (key : clienCertHash) (v : userIdentity)
  : M unit := fun s =>
  match clientCertCache s with
  | None => Panic nilDeref
  | Some c => Ret tt (set_clientCertCache (Some (LRU_Set key v c)) s)
  end.

Definition getUserIdentityFromCert `{GoStd} (cert : Certificate) (d : credsDB)
  : M (option CredsImpl * option error) :=
  if bool_decide (authCheckURL d = "") then ret (None, Some ErrNoAuth)
  else
    throttled
      (match NewRequest "POST" (extractUserFromCertURL d) (Some (Raw cert)) with
       | inr e => ret (None, Some e)
       | inl req =>
           let req :=
             withHeader
               (Hdr req ++ [("Content-Type", HString "application/octet-stream")])%list
               req in
           let req := SetBasicAuth (specialUser d) (specialPassword d) req in
           executeReqAndGetCreds d req
       end).

Definition MaybeGetCredsFromCert `{GoStd} (req : InRequest)
  : M (option CredsImpl * option error) :=
  fetched <- fetchDB ;;
  match fetched with
  | None => e <- staleError ;; ret (None, Some e)
  | Some d =>
      match TLS req with
      | None => ret (None, None)
      | Some tls =>
          clientCertCacheOnce_Do ;;;
          let state := clientCertAuthState d in
          if bool_decide (state = "disable") || bool_decide (state = "")
          then ret (None, None)
          else if bool_decide (state = "enable")
                  && Nat.eqb (List.length (PeerCertificates tls)) 0
          then ret (None, None)
          else
            match PeerCertificates tls with
            | [] => panic "index out of range [0] with length 0"
            | cert :: _ =>
                let key := {| cch_hash := md5_Sum (Raw cert);
                              cch_version := clientCertAuthVersion d |} in
                val <- clientCertCache_Get key ;;
                match val with
                | Some ui =>
                    ret (Some {| name := id_user ui; domain := id_domain ui;
                                 password := ""; creds_db := d |}, None)
                | None =>
                    r <- getUserIdentityFromCert cert d ;;
                    match fst r with
                    | Some creds =>
                        clientCertCache_Set key
                          {| id_user := name creds;
                             id_domain := domain creds |} ;;;
                        ret (Some creds, None)
                    | None => ret (None, Some ErrUserNotFound)
                    end
                end
            end
      end
  end.

(** ** Observations *)

(** The outbound calls made so far. *)
Definition calls (s : Svc) : list Request := sent (httpClient s).

(** What the three caches hold under a key ([None] also before the cache
    exists). *)
Definition upCached (key : userPermission) (s : Svc) : option bool :=
  match upCache s with
  | Some c => LRU_peek key c
  | None => None
  end.

Definition authCached (key : userPassword) (s : Svc) : option userIdentity :=
  match authCache s with
  | Some c => LRU_peek key c
  | None => None
  end.

Definition certCached (key : clienCertHash) (s : Svc) : option userIdentity :=
  match clientCertCache s with
  | Some c => LRU_peek key c
  | None => None
  end.

(** The state [ResetSvc] leaves: no snapshot, no wait handle, and the
    stale error [e] on record. *)
Definition isStale (e : error) (s : Svc) : Prop :=
  db s = None /\ freshChan s = false /\ staleErr s = Some e.

Definition permKey (d : credsDB) (user domain permission : string)
  : userPermission :=
  {| up_version := permissionsVersion d; up_user := user;
     up_domain := domain; up_permission := permission |}.

Definition authKey (d : credsDB) (user password : string) : userPassword :=
  {| pw_version := authVersion d; pw_user := user; pw_password := password |}.

(** The request [checkPermissionOnServer] hands to the client, and the
    one [VerifyPassword] sends through [VerifyOnServer]; the lemmas
    [checkPermissionOnServer_run] and [verifyPasswordOnServer_run] prove
    that these are the requests made. *)
Definition permissionRequest (d : credsDB) (user domain permission : string)
  : Request :=
  {| Method := "GET"; URL := permissionCheckURL d;
     RawQuery := [("domain", domain); ("permission", permission);
                  ("user", user)];
     Hdr := [("Authorization", HBasic (specialUser d) (specialPassword d))];
     Body := None |}.

Definition passwordRequest (d : credsDB) (user password : string) : Request :=
  {| Method := "POST"; URL := authCheckURL d; RawQuery := [];
     Hdr := [("Authorization", HBasic user password)];
     Body := None |}.

(** The test [VerifyPassword] makes before it writes the auth cache. *)
Definition cachedDomain (dm : string) : bool :=
  bool_decide (dm = "admin") || bool_decide (dm = "local").

(** The client after one more call. *)
Definition called (req : Request) (s : Svc) : Svc :=
  set_httpClient {| Transport := Transport (httpClient s);
                    sent := (calls s ++ [req])%list |} s.

(** ** The operations a request handler calls *)

Inductive op : Type :=
  | OpVerifyPassword (user password : string)
  | OpVerifyOnServer (reqHeaders : Header)
  | OpCheckPermission (user domain permission : string)
  | OpMaybeGetCredsFromCert (req : InRequest)
  | OpGetCreds (host : string) (port : Z)
  | OpGetClientCertAuthType
  | OpGetTLSConfig.

Inductive answer : Type :=
  | ACreds (r : option CredsImpl * option error)
  | AAllowed (r : bool * option error)
  | AServiceCreds (r : string * string * string * option error)
  | AAuthType (r : ClientAuthType * option error)
  | ATLSConfig (r : TLSConfig * option error).

Definition run_op `{GoStd} (o : op) : M answer :=
  match o with
  | OpVerifyPassword u p => r <- VerifyPassword u p ;; ret (ACreds r)
  | OpVerifyOnServer h => r <- VerifyOnServer h ;; ret (ACreds r)
  | OpCheckPermission u dm p => r <- checkPermission u dm p ;; ret (AAllowed r)
  | OpMaybeGetCredsFromCert req =>
      r <- MaybeGetCredsFromCert req ;; ret (ACreds r)
  | OpGetCreds host port => r <- GetCreds host port ;; ret (AServiceCreds r)
  | OpGetClientCertAuthType => r <- GetClientCertAuthType ;; ret (AAuthType r)
  | OpGetTLSConfig => r <- GetTLSConfig ;; ret (ATLSConfig r)
  end.

Fixpoint run_ops `{GoStd} (os : list op) : M (list answer) :=
  match os with
  | [] => ret []
  | o :: os' => a <- run_op o ;; l <- run_ops os' ;; ret (a :: l)
  end.

(** The failure of an operation with error [e]: the zero value of its
    result together with [e]. *)
Definition failsWith (e : error) (o : op) : answer :=
  match o with
  | OpVerifyPassword _ _ => ACreds (None, Some e)
  | OpVerifyOnServer _ => ACreds (None, Some e)
  | OpCheckPermission _ _ _ => AAllowed (false, Some e)
  | OpMaybeGetCredsFromCert _ => ACreds (None, Some e)
  | OpGetCreds _ _ => AServiceCreds ("", "", "", Some e)
  | OpGetClientCertAuthType => AAuthType (NoClientCert, Some e)
  | OpGetTLSConfig => ATLSConfig (TLSConfig_zero, Some e)
  end.

(** [n] consecutive calls of [VerifyPassword] with the same credentials:
    the state after them, when none panics or blocks. *)
Fixpoint verifyAgain `{GoStd} (n : nat) (user password : string) (s : Svc)
  : option Svc :=
  match n with
  | O => Some s
  | S k =>
      match VerifyPassword user password s with
      | Ret _ s' => verifyAgain k user password s'
      | _ => None
      end
  end.

(** ** An instance of the standard-library interface

    Used to run the model on examples.  Hosts are names or dotted-decimal
    IPv4 literals (no IPv6 literal is parsed); a URL is refused when it
    holds an ASCII control character; the digest is the byte string
    itself, as the model only compares digests. *)
Module Example.

Definition digit (c : ascii) : option Z :=
  let n := Z.of_nat (nat_of_ascii c) in
  if (48 <=? n) && (n <=? 57) then Some (n - 48) else None.

Fixpoint digits (s : string) (acc : Z) : option Z :=
  match s with
  | EmptyString => Some acc
  | String c s' =>
      match digit c with
      | Some v => digits s' (10 * acc + v)
      | None => None
      end
  end.

(** One decimal field of an IPv4 literal: not empty, no leading zero,
    at most 255. *)
Definition octet (s : string) : option Z :=
  match s with
  | EmptyString => None
  | String "0" (String _ _) => None
  | _ =>
      match digits s 0 with
      | Some v => if v <=? 255 then Some v else None
      | None => None
      end
  end.

Fixpoint fields (s cur : string) : list string :=
  match s with
  | EmptyString => [cur]
  | String "." s' => cur :: fields s' EmptyString
  | String c s' => fields s' (cur ++ String c EmptyString)
  end.

Definition parseIPv4 (s : string) : option (list Z) :=
  match fields s EmptyString with
  | [a; b; c; d] =>
      match octet a, octet b, octet c, octet d with
      | Some a, Some b, Some c, Some d => Some [a; b; c; d]
      | _, _, _, _ => None
      end
  | _ => None
  end.

Definition isLoopback (ip : list Z) : bool :=
  match ip with
  | a :: _ => a =? 127
  | [] => false
  end.

Fixpoint hasControl (s : string) : bool :=
  match s with
  | EmptyString => false
  | String c s' =>
      let n := nat_of_ascii c in
      Nat.ltb n 32 || Nat.eqb n 127 || hasControl s'
  end.

Definition newRequestError (method url : string) : option error :=
  if hasControl url
  then Some (Errorf "net/url: invalid control character in URL")
  else None.

Definition equal_refl (ip : list Z) : bool_decide (ip = ip) = true :=
  bool_decide_eq_true_2 (ip = ip) eq_refl.

#[export] Instance std : GoStd := {|
  IP := list Z;
  net_ParseIP := parseIPv4;
  IP_IsLoopback := isLoopback;
  IP_Equal := fun a b => bool_decide (a = b);
  IP_Equal_refl := equal_refl;
  http_NewRequest_error := newRequestError;
  http_NewRequest_host := eq_refl;
  md5_Sum := fun raw => raw
|}.

End Example.

(** ** A running configuration

    The nodes of the package's service-password test, with [chi.local]
    flagged local, behind an authority that knows one administrator. *)
Module Scenario.

Definition beta : Node :=
  {| Host := "beta.local"; User := "_admin"; Password := "foobar";
     Ports := [9000; 12000]; Local := false |}.

Definition chi : Node :=
  {| Host := "chi.local"; User := "_admin"; Password := "barfoo";
     Ports := [9001; 12001]; Local := true |}.

Definition tlsImport : tlsConfigImport :=
  {| MinTLSVersion := "TLSv1.2"; Ciphers := [49199; 49200];
     CipherNames := ["TLS_ECDHE_RSA_WITH_AES_128_GCM_SHA256";
                     "TLS_ECDHE_RSA_WITH_AES_256_GCM_SHA384"];
     CipherOpenSSLNames := ["ECDHE-RSA-AES128-GCM-SHA256";
                            "ECDHE-RSA-AES256-GCM-SHA384"];
     CipherOrder := true |}.

Definition cache (version mode : string) : Cache :=
  {| Nodes := [beta; chi];
     AuthCheckURL := "http://127.0.0.1:9000/_auth";
     PermissionCheckURL := "http://127.0.0.1:9000/_permissions";
     SpecialUser := "@component";
     PermissionsVersion := version;
     AuthVersion := version;
     CertVersion := 1;
     ExtractUserFromCertURL := "http://127.0.0.1:9000/_extract";
     ClientCertAuthState := mode;
     ClientCertAuthVersion := version;
     TLSConfig_ := tlsImport |}.

Definition respond (code : Z) (b : body) : DoResult :=
  DoResponse {| StatusCode := code;
                Status := if code =? 200 then "200 OK" else "401 Unauthorized";
                RespBody := b |}.

(** The authority: it knows Administrator/asdasd in domain "admin" and
    grants every permission to that domain only. *)
Definition authority (_ : list Request) (req : Request) : DoResult :=
  if bool_decide (Method req = "POST") then
    if bool_decide (Header_Get "Authorization" (Hdr req)
                    = HBasic "Administrator" "asdasd")
    then respond 200 (BodyJSON "Administrator" "admin")
    else respond 401 (BodyJSON "" "")
  else
    if bool_decide (("domain", "admin") ∈ RawQuery req)
    then respond 200 (BodyJSON "" "")
    else respond 401 (BodyJSON "" "").

Definition stale : error := Errorf "CBAuth database is stale".

Definition created : Svc :=
  match NewSVCForTest 0 (Some stale) authority with
  | inl s => s
  | inr _ =>
      {| db := None; staleErr := None; freshChan := false;
         upCache := None; authCache := None; clientCertCache := None;
         httpClient := {| Transport := authority; sent := [] |};
         semaphore := 0%nat; tlsNotifier_ := newTLSNotifier |}
  end.

Definition after {A : Type} (m : M A) (s : Svc) : Svc :=
  match m s with
  | Ret _ s' => s'
  | _ => s
  end.

(** The service after the first push, in client-cert mode [mode]. *)
Definition fresh (mode : string) : Svc :=
  after (UpdateDB (cache "v1" mode)) created.

Definition snapshot (mode : string) : credsDB :=
  cacheToCredsDB (cache "v1" mode).

(** A push in which no node is flagged local. *)
Definition cacheNoLocal : Cache :=
  {| Nodes := [beta];
     AuthCheckURL := "http://127.0.0.1:9000/_auth";
     PermissionCheckURL := "http://127.0.0.1:9000/_permissions";
     SpecialUser := "@component";
     PermissionsVersion := "v1";
     AuthVersion := "v1";
     CertVersion := 1;
     ExtractUserFromCertURL := "http://127.0.0.1:9000/_extract";
     ClientCertAuthState := "disable";
     ClientCertAuthVersion := "v1";
     TLSConfig_ := tlsImport |}.

(** A push with no auth-check URL. *)
Definition cacheNoAuthURL (mode : string) : Cache :=
  {| Nodes := [beta; chi];
     AuthCheckURL := "";
     PermissionCheckURL := "http://127.0.0.1:9000/_permissions";
     SpecialUser := "@component";
     PermissionsVersion := "v1";
     AuthVersion := "v1";
     CertVersion := 1;
     ExtractUserFromCertURL := "http://127.0.0.1:9000/_extract";
     ClientCertAuthState := mode;
     ClientCertAuthVersion := "v1";
     TLSConfig_ := tlsImport |}.

(** A node whose user name is empty, followed by [beta]. *)
Definition unnamed : Node :=
  {| Host := "alpha.local"; User := ""; Password := "secret";
     Ports := [9000]; Local := false |}.

Definition cacheUnnamed : Cache :=
  {| Nodes := [unnamed; beta];
     AuthCheckURL := "http://127.0.0.1:9000/_auth";
     PermissionCheckURL := "http://127.0.0.1:9000/_permissions";
     SpecialUser := "@component";
     PermissionsVersion := "v1";
     AuthVersion := "v1";
     CertVersion := 1;
     ExtractUserFromCertURL := "http://127.0.0.1:9000/_extract";
     ClientCertAuthState := "disable";
     ClientCertAuthVersion := "v1";
     TLSConfig_ := tlsImport |}.

(** A callback that fails on its first run and succeeds afterwards. *)
Definition refresh : TLSRefreshCallback :=
  fun k => match k with O => Some (Errorf "not ready") | S _ => None end.

(** An authority that refuses every request. *)
Definition refusing (_ : list Request) (_ : Request) : DoResult :=
  respond 401 (BodyJSON "" "").

Definition refused : Svc := SetTransport refusing (fresh "disable").

Definition leaf : Certificate := {| Raw := "DER bytes of the leaf" |}.

(** A request over TLS with the given peer certificates, and one over
    plain HTTP. *)
Definition https (certs : list Certificate) : InRequest :=
  {| TLS := Some {| PeerCertificates := certs |} |}.

Definition http : InRequest := {| TLS := None |}.

End Scenario.

(** ** Frames and histories *)

(** What a verification operation leaves alone: the snapshot, the stale
    error, the wait handle, the semaphore count, the notifier and the
    transport. *)
Definition keepsService (s s' : Svc) : Prop :=
  db s' = db s /\ staleErr s' = staleErr s /\ freshChan s' = freshChan s
  /\ semaphore s' = semaphore s /\ tlsNotifier_ s' = tlsNotifier_ s
  /\ Transport (httpClient s') = Transport (httpClient s).

(** A computation that, whenever it returns, has kept the service and
    has made at most [k] outbound calls. *)
Definition preserves {A : Type} (k : nat) (m : M A) : Prop :=
  forall s a s',
    m s = Ret a s' ->
    keepsService s s'
    /\ exists extra : list Request,
         calls s' = (calls s ++ extra)%list /\ (List.length extra <= k)%nat.

(** What happens to a service: a request handler runs an operation to
    its end, the authority pushes a configuration, the push channel
    breaks, the grace timer fires, a callback is registered. *)
Inductive event : Type :=
  | EvOp (o : op)
  | EvUpdateDB (c : Cache)
  | EvResetSvc (e : error)
  | EvGraceTimeout
  | EvRegister (cb : option TLSRefreshCallback).

Definition returned {A : Type} (r : result A) : option Svc :=
  match r with
  | Ret _ s' => Some s'
  | _ => None
  end.

(** The service after an event; [None] when the call panics or blocks. *)
Definition fire `{GoStd} (ev : event) (s : Svc) : option Svc :=
  match ev with
  | EvOp o => returned (run_op o s)
  | EvUpdateDB c => returned (UpdateDB c s)
  | EvResetSvc e => returned (ResetSvc (Some e) s)
  | EvGraceTimeout => Some (graceTimeout s)
  | EvRegister cb => returned (RegisterTLSRefreshCallback cb s)
  end.

Fixpoint fireAll `{GoStd} (evs : list event) (s : Svc) : option Svc :=
  match evs with
  | [] => Some s
  | ev :: evs' =>
      match fire ev s with
      | Some s' => fireAll evs' s'
      | None => None
      end
  end.

(** The snapshot, the stale error and the wait handle as a history
    determines them: the last push not followed by a reset; the error of
    the last reset; a handle only until the first push, reset or
    timeout. *)
Fixpoint snapshotAfter (d : option credsDB) (evs : list event)
  : option credsDB :=
  match evs with
  | [] => d
  | EvUpdateDB c :: evs' => snapshotAfter (Some (cacheToCredsDB c)) evs'
  | EvResetSvc _ :: evs' => snapshotAfter None evs'
  | _ :: evs' => snapshotAfter d evs'
  end.

Fixpoint staleErrAfter (e : option error) (evs : list event) : option error :=
  match evs with
  | [] => e
  | EvResetSvc e' :: evs' => staleErrAfter (Some e') evs'
  | _ :: evs' => staleErrAfter e evs'
  end.

Fixpoint waitingAfter (w : bool) (evs : list event) : bool :=
  match evs with
  | [] => w
  | EvUpdateDB _ :: evs' => waitingAfter false evs'
  | EvResetSvc _ :: evs' => waitingAfter false evs'
  | EvGraceTimeout :: evs' => waitingAfter false evs'
  | _ :: evs' => waitingAfter w evs'
  end.

(** The request [getUserIdentityFromCert] hands to the client; the lemma
    [getUserIdentityFromCert_run] proves that it is the request made. *)
Definition certRequest (d : credsDB) (cert : Certificate) : Request :=
  {| Method := "POST"; URL := extractUserFromCertURL d; RawQuery := [];
     Hdr := [("Content-Type", HString "application/octet-stream");
             ("Authorization", HBasic (specialUser d) (specialPassword d))];
     Body := Some (Raw cert) |}.

Definition certKey `{GoStd} (d : credsDB) (cert : Certificate)
  : clienCertHash :=
  {| cch_hash := md5_Sum (Raw cert); cch_version := clientCertAuthVersion d |}.

(** The headers [VerifyOnServer] copies from the incoming request. *)
Definition forwardedHeaders : list string :=
  [tokenHeader; "ns-server-auth-token"; "Cookie"; "Authorization"].

(** [IsAuthTokenPresent], on the headers of the request. *)
Definition IsAuthTokenPresent (h : Header) : bool :=
  bool_decide (Header_Get tokenHeader h = HString "yes").

(** The request [VerifyOnServer] hands to the client; the lemma
    [VerifyOnServer_run] proves that it is the request made. *)
Definition verifyRequest (d : credsDB) (reqHeaders : Header) : Request :=
  {| Method := "POST"; URL := authCheckURL d; RawQuery := [];
     Hdr := copyHeader "Authorization" reqHeaders
              (copyHeader "Cookie" reqHeaders
                 (copyHeader "ns-server-auth-token" reqHeaders
                    (copyHeader tokenHeader reqHeaders [])));
     Body := None |}.

(** [k] more iterations of the notifier loop, each woken by the retry
    timer. *)
Fixpoint retryIterations (k : nat) (ls : loopState) (n : tlsNotifier)
  : option (loopState * tlsNotifier) :=
  match k with
  | O => Some (ls, n)
  | S k' =>
      match loop_iteration RetryFired ls n with
      | Some (ls', n') => retryIterations k' ls' n'
      | None => None
      end
  end.

(** ** More running configurations *)
Module Cases.

(** A service built with a grace period of one minute (in nanoseconds),
    before anything has been pushed. *)
Definition waiting : Svc :=
  match NewSVCForTest 60000000000 (Some Scenario.stale) Scenario.authority with
  | inl s => s
  | inr _ => Scenario.created
  end.

(** An authority that maps every certificate to the user "jane" of the
    domain "external". *)
Definition certAuthority (_ : list Request) (req : Request) : DoResult :=
  if bool_decide (URL req = "http://127.0.0.1:9000/_extract")
  then Scenario.respond 200 (BodyJSON "jane" "external")
  else Scenario.respond 401 (BodyJSON "" "").

Definition withCerts : Svc :=
  SetTransport certAuthority (Scenario.fresh "mandatory").

(** An authority that cannot be reached. *)
Definition down (_ : list Request) (_ : Request) : DoResult :=
  DoError (Errorf "connection refused").

Definition unreachable : Svc := SetTransport down (Scenario.fresh "disable").

(** A push whose permission-check URL ends in a DEL character. *)
Definition cacheBadURL : Cache :=
  {| Nodes := [Scenario.beta; Scenario.chi];
     AuthCheckURL := "http://127.0.0.1:9000/_auth";
     PermissionCheckURL :=
       String.append "http://127.0.0.1:9000/"
         (String (ascii_of_nat 127) EmptyString);
     SpecialUser := "@component";
     PermissionsVersion := "v1";
     AuthVersion := "v1";
     CertVersion := 1;
     ExtractUserFromCertURL := "http://127.0.0.1:9000/_extract";
     ClientCertAuthState := "disable";
     ClientCertAuthVersion := "v1";
     TLSConfig_ := Scenario.tlsImport |}.

Definition badURL : Svc := Scenario.after (UpdateDB cacheBadURL) Scenario.created.

(** The service after the administrator has logged in once, now facing
    an authority that refuses everything. *)
Definition loggedIn : Svc :=
  SetTransport Scenario.refusing
    (Scenario.after (@VerifyPassword Example.std "Administrator" "asdasd")
       (Scenario.fresh "disable")).

(** A service all of whose semaphore slots are held by calls in flight. *)
Definition busy : Svc := set_semaphore semaphoreCap (Scenario.fresh "disable").

(** The service after one permission check of the administrator. *)
Definition checked : Svc :=
  Scenario.after
    (@checkPermission Example.std "Administrator" "admin" "cluster.admin!write")
    (Scenario.fresh "disable").

End Cases.

(** * Properties *)

(** ** The cache *)

Section LRUFacts.
Context {K V : Type} `{EqDecision K}.
Implicit Types (l : list (K * V)) (c : LRUCache K V).

Lemma lru_find_remove_same key l : lru_find key (lru_remove key l) = None.
Proof.
  induction l as [|[k v] l IH]; simpl; [reflexivity|].
  case_bool_decide; simpl; [exact IH|].
  case_bool_decide; [contradiction|exact IH].
Qed.

Lemma lru_find_remove_other key key' l :
  key <> key' -> lru_find key' (lru_remove key l) = lru_find key' l.
Proof.
  intros Hne. induction l as [|[k v] l IH]; simpl; [reflexivity|].
  case_bool_decide as Hk; simpl.
  - subst k. case_bool_decide; [contradiction|exact IH].
  - rewrite IH. reflexivity.
Qed.

Lemma lru_find_removelast_None key l :
  lru_find key l = None -> lru_find key (removelast l) = None.
Proof.
  induction l as [|[k v] l IH]; simpl; [reflexivity|].
  case_bool_decide; [discriminate|]. intros Hl.
  destruct l as [|e l']; [reflexivity|].
  simpl. rewrite bool_decide_eq_false_2 by assumption.
  apply IH, Hl.
Qed.

(** Round trip: what was [Set] is found. *)
Lemma LRU_peek_Set_same key v c : LRU_peek key (LRU_Set key v c) = Some v.
Proof.
  unfold LRU_peek, LRU_Set.
  destruct (lru_find key (entries c)); [|destruct (Nat.leb _ _)]; simpl;
    rewrite bool_decide_eq_true_2; reflexivity.
Qed.

(** [Set] adds no entry under another key. *)
Lemma LRU_peek_Set_other_None key key' v c :
  key <> key' -> LRU_peek key' c = None ->
  LRU_peek key' (LRU_Set key v c) = None.
Proof.
  unfold LRU_peek, LRU_Set. intros Hne Hnone.
  destruct (lru_find key (entries c)); [|destruct (Nat.leb _ _)]; simpl;
    rewrite bool_decide_eq_false_2 by assumption.
  - rewrite lru_find_remove_other; assumption.
  - apply lru_find_removelast_None, Hnone.
  - exact Hnone.
Qed.

Lemma LRU_Get_fst key c : fst (LRU_Get key c) = LRU_peek key c.
Proof.
  unfold LRU_Get, LRU_peek. destruct (lru_find key (entries c)); reflexivity.
Qed.

(** A miss leaves the cache as it was. *)
Lemma LRU_Get_miss key c : LRU_peek key c = None -> LRU_Get key c = (None, c).
Proof. unfold LRU_Get, LRU_peek. intros ->. reflexivity. Qed.

Lemma LRU_Get_hit key v c :
  LRU_peek key c = Some v ->
  LRU_Get key c
  = (Some v, {| maxSize := maxSize c;
                entries := (key, v) :: lru_remove key (entries c) |}).
Proof. unfold LRU_Get, LRU_peek. intros ->. reflexivity. Qed.

(** [Get] moves entries, it neither adds nor drops one. *)
Lemma LRU_peek_Get key key' c :
  LRU_peek key' (snd (LRU_Get key c)) = LRU_peek key' c.
Proof.
  unfold LRU_Get, LRU_peek.
  destruct (lru_find key (entries c)) as [v|] eqn:Hf; [|reflexivity].
  simpl. case_bool_decide as Hk.
  - subst key'. symmetry. exact Hf.
  - apply lru_find_remove_other, Hk.
Qed.
(** [Get] after [Set] returns what was set. *)
Lemma LRU_Get_Set_same key v c : fst (LRU_Get key (LRU_Set key v c)) = Some v.
Proof. rewrite LRU_Get_fst. apply LRU_peek_Set_same. Qed.

Lemma lru_remove_length key l :
  (List.length (lru_remove key l) <= List.length l)%nat.
Proof.
  induction l as [|[k v] l IH]; simpl; [lia|].
  case_bool_decide; simpl; lia.
Qed.

Lemma lru_remove_length_found key v l :
  lru_find key l = Some v ->
  (S (List.length (lru_remove key l)) <= List.length l)%nat.
Proof.
  induction l as [|[k w] l IH]; simpl; [discriminate|].
  case_bool_decide; simpl.
  - intros _. pose proof (lru_remove_length key l). lia.
  - intros Hf. specialize (IH Hf). lia.
Qed.

(** A cache of positive capacity never grows beyond it. *)
Lemma LRU_Set_within_capacity key v c :
  (0 < maxSize c)%nat ->
  (List.length (entries c) <= maxSize c)%nat ->
  (List.length (entries (LRU_Set key v c)) <= maxSize c)%nat.
Proof.
  intros Hpos Hlen. unfold LRU_Set.
  destruct (lru_find key (entries c)) as [w|] eqn:Hf; simpl.
  - pose proof (lru_remove_length_found key w _ Hf). lia.
  - destruct (Nat.leb_spec (maxSize c) (List.length (entries c))); simpl.
    + destruct (entries c) as [|e l] eqn:He; [simpl in *; lia|].
      rewrite <- He in *.
      assert (Hne : entries c <> []) by (rewrite He; discriminate).
      pose proof (app_removelast_last e Hne) as Hsplit.
      apply (f_equal (@List.length _)) in Hsplit.
      rewrite List.length_app in Hsplit. simpl in Hsplit. lia.
    + lia.
Qed.
End LRUFacts.

(** ** Reading the snapshot *)

Lemma fetchDB_fresh (s : Svc) (d : credsDB) :
  db s = Some d -> fetchDB s = Ret (Some d) s.
Proof. unfold fetchDB. intros ->. reflexivity. Qed.

Lemma fetchDB_stale (s : Svc) :
  db s = None -> freshChan s = false -> fetchDB s = Ret None s.
Proof. unfold fetchDB. intros -> ->. reflexivity. Qed.

(** Takes an operation past its [fetchDB] when the snapshot [Hdb] names
    is current. *)
Ltac under_snapshot Hdb :=
  unfold bind; rewrite (fetchDB_fresh _ _ Hdb).

Lemma verifySpecialCreds_at (d : credsDB) (user password : string) :
  String.get 0 user = Some "@"%char ->
  password = specialPassword d ->
  verifySpecialCreds d user password = true.
Proof.
  intros Hat ->. destruct user as [|c rest]; [discriminate|].
  simpl in Hat. injection Hat as ->. unfold verifySpecialCreds.
  rewrite !bool_decide_eq_true_2; reflexivity.
Qed.

(** ** Special credentials *)

(** C1.  Under a current snapshot [d], credentials whose user name begins
    with '@' (so is not empty) and whose password is the special password
    of [d] are accepted by [VerifyPassword] as that user in domain
    "admin"; the service is left exactly as it was, so no outbound call
    was made and nothing entered the auth cache. *)
Theorem C1_special_creds_local_admin `{GoStd} (s : Svc) (d : credsDB)
  (user password : string) :
  db s = Some d ->
  String.get 0 user = Some "@"%char ->
  password = specialPassword d ->
  exists (creds : CredsImpl) (s' : Svc),
    VerifyPassword user password s = Ret (Some creds, None) s'
    /\ name creds = user
    /\ domain creds = "admin"
    /\ calls s' = calls s
    /\ authCache s' = authCache s
    /\ s' = s.
Proof.
  intros Hdb Hat Hpw.
  exists {| name := user; domain := "admin"; password := password;
            creds_db := d |}, s.
  unfold VerifyPassword. under_snapshot Hdb.
  rewrite (verifySpecialCreds_at d user password Hat Hpw).
  repeat split; reflexivity.
Qed.

(** The test scenario: "@component" with the local node's password. *)
Lemma C1_special_creds_local_admin_witness :
  exists (creds : CredsImpl) (s' : Svc),
    @VerifyPassword Example.std "@component" "barfoo" (Scenario.fresh "disable")
    = Ret (Some creds, None) s'
    /\ name creds = "@component"
    /\ domain creds = "admin"
    /\ calls s' = calls (Scenario.fresh "disable")
    /\ authCache s' = authCache (Scenario.fresh "disable")
    /\ s' = Scenario.fresh "disable".
Proof.
  apply (@C1_special_creds_local_admin Example.std (Scenario.fresh "disable")
           (Scenario.snapshot "disable") "@component" "barfoo");
    reflexivity.
Defined.

Lemma localPassword_no_local (ns : list Node) :
  (forall n, In n ns -> Local n = false) -> localPassword ns = "".
Proof.
  induction ns as [|n ns IH]; intros Hall; simpl; [reflexivity|].
  rewrite (Hall n) by (left; reflexivity).
  apply IH. intros m Hm. apply Hall. right. exact Hm.
Qed.

(** C9.  When no node of the pushed configuration is flagged local, the
    snapshot the push installs has the empty special password, the
    special-credential test accepts every user name beginning with '@'
    with the empty password, and [VerifyPassword] resolves such
    credentials to an "admin" identity. *)
Theorem C9_no_local_node_empty_special_password `{GoStd} (c : Cache)
  (s0 s : Svc) (rest : string) :
  (forall n, In n (Nodes c) -> Local n = false) ->
  UpdateDB c s0 = Ret None s ->
  specialPassword (cacheToCredsDB c) = ""
  /\ db s = Some (cacheToCredsDB c)
  /\ verifySpecialCreds (cacheToCredsDB c) (String "@" rest) "" = true
  /\ exists creds : CredsImpl,
       VerifyPassword (String "@" rest) "" s = Ret (Some creds, None) s
       /\ name creds = String "@" rest
       /\ domain creds = "admin".
Proof.
  intros Hnone Hupd.
  assert (Hpw : specialPassword (cacheToCredsDB c) = "")
    by (simpl; apply localPassword_no_local, Hnone).
  assert (Hdb : db s = Some (cacheToCredsDB c)).
  { unfold UpdateDB in Hupd. injection Hupd as <-.
    unfold updateDBLocked.
    destruct (needRefreshTLS _ _); destruct (freshChan _); reflexivity. }
  assert (Hok : verifySpecialCreds (cacheToCredsDB c) (String "@" rest) "" = true)
    by (apply verifySpecialCreds_at; [reflexivity|symmetry; exact Hpw]).
  repeat split; try assumption.
  eexists. unfold VerifyPassword. under_snapshot Hdb. rewrite Hok.
  repeat split; reflexivity.
Qed.

Lemma C9_no_local_node_empty_special_password_witness :
  specialPassword (cacheToCredsDB Scenario.cacheNoLocal) = ""
  /\ db (Scenario.after (UpdateDB Scenario.cacheNoLocal) Scenario.created)
     = Some (cacheToCredsDB Scenario.cacheNoLocal)
  /\ verifySpecialCreds (cacheToCredsDB Scenario.cacheNoLocal) "@anyone" "" = true
  /\ exists creds : CredsImpl,
       @VerifyPassword Example.std "@anyone" ""
         (Scenario.after (UpdateDB Scenario.cacheNoLocal) Scenario.created)
       = Ret (Some creds, None)
           (Scenario.after (UpdateDB Scenario.cacheNoLocal) Scenario.created)
       /\ name creds = "@anyone"
       /\ domain creds = "admin".
Proof.
  apply (@C9_no_local_node_empty_special_password Example.std
           Scenario.cacheNoLocal Scenario.created
           (Scenario.after (UpdateDB Scenario.cacheNoLocal) Scenario.created)
           "anyone").
  - intros n [<-|[]]. reflexivity.
  - reflexivity.
Defined.

(** ** No auth-check URL *)

(** C10, as the claim states it, fails for certificate extraction: with
    an empty auth-check URL, [MaybeGetCredsFromCert] on a cache miss does
    not fail with [ErrNoAuth]; it drops the error of
    [getUserIdentityFromCert] and reports [ErrUserNotFound]. *)
Lemma C10_extraction_reports_ErrUserNotFound :
  db (Scenario.after (UpdateDB (Scenario.cacheNoAuthURL "enable"))
        Scenario.created)
  = Some (cacheToCredsDB (Scenario.cacheNoAuthURL "enable"))
  /\ authCheckURL (cacheToCredsDB (Scenario.cacheNoAuthURL "enable")) = ""
  /\ (exists s' : Svc,
        @MaybeGetCredsFromCert Example.std (Scenario.https [Scenario.leaf])
          (Scenario.after (UpdateDB (Scenario.cacheNoAuthURL "enable"))
             Scenario.created)
        = Ret (None, Some ErrUserNotFound) s')
  /\ ~ (exists s' : Svc,
          @MaybeGetCredsFromCert Example.std (Scenario.https [Scenario.leaf])
            (Scenario.after (UpdateDB (Scenario.cacheNoAuthURL "enable"))
               Scenario.created)
          = Ret (None, Some ErrNoAuth) s').
Proof.
  assert (Hrun : @MaybeGetCredsFromCert Example.std
                   (Scenario.https [Scenario.leaf])
                   (Scenario.after (UpdateDB (Scenario.cacheNoAuthURL "enable"))
                      Scenario.created)
                 = Ret (None, Some ErrUserNotFound)
                     (Scenario.after
                        (@MaybeGetCredsFromCert Example.std
                           (Scenario.https [Scenario.leaf]))
                        (Scenario.after
                           (UpdateDB (Scenario.cacheNoAuthURL "enable"))
                           Scenario.created)))
    by (vm_compute; reflexivity).
  split; [reflexivity|]. split; [reflexivity|]. split.
  - eexists. exact Hrun.
  - intros (s' & Hs'). rewrite Hrun in Hs'. discriminate.
Qed.

(** C10, amended.  Under a current snapshot whose auth-check URL is
    empty:
    - [VerifyOnServer] returns [ErrNoAuth] and leaves the service exactly
      as it was: no request was handed to the HTTP client and no cache
      changed; the error is neither the stale error nor one of the
      transport;
    - [getUserIdentityFromCert] does the same;
    - certificate extraction on a cache miss, [MaybeGetCredsFromCert]
      for a TLS request with a leaf certificate in a mode that is
      neither "disable" nor empty, makes no outbound call and caches
      nothing either, but the error its caller gets is
      [ErrUserNotFound]. *)
Theorem C10_empty_auth_url_no_call `{GoStd} (s : Svc) (d : credsDB)
  (reqHeaders : Header) (req : InRequest) (tls : ConnectionState)
  (cert : Certificate) (rest : list Certificate) :
  db s = Some d ->
  authCheckURL d = "" ->
  VerifyOnServer reqHeaders s = Ret (None, Some ErrNoAuth) s
  /\ getUserIdentityFromCert cert d s = Ret (None, Some ErrNoAuth) s
  /\ (TLS req = Some tls ->
      PeerCertificates tls = cert :: rest ->
      clientCertAuthState d <> "disable" ->
      clientCertAuthState d <> "" ->
      certCached (certKey d cert) s = None ->
      exists s' : Svc,
        MaybeGetCredsFromCert req s = Ret (None, Some ErrUserNotFound) s'
        /\ calls s' = calls s
        /\ (forall key, certCached key s' = certCached key s)
        /\ upCache s' = upCache s
        /\ authCache s' = authCache s).
Proof.
  intros Hdb Hurl. split; [|split].
  - unfold VerifyOnServer, bind, gets.
    rewrite (fetchDB_fresh s d Hdb), Hdb, Hurl. reflexivity.
  - unfold getUserIdentityFromCert. rewrite Hurl. reflexivity.
  - intros Htls Hcerts Hd He Hmiss.
    assert (Hm1 : bool_decide (clientCertAuthState d = "disable")
                  || bool_decide (clientCertAuthState d = "") = false)
      by (rewrite !bool_decide_eq_false_2 by assumption; reflexivity).
    assert (Hm2 : bool_decide (clientCertAuthState d = "enable")
                  && Nat.eqb (List.length (cert :: rest)) 0 = false)
      by (simpl; apply andb_false_r).
    assert (Hhelper : forall s0 : Svc,
               getUserIdentityFromCert cert d s0
               = Ret (None, Some ErrNoAuth) s0)
      by (intros s0; unfold getUserIdentityFromCert; rewrite Hurl;
          reflexivity).
    unfold MaybeGetCredsFromCert. under_snapshot Hdb. rewrite Htls.
    unfold certCached in Hmiss.
    unfold clientCertCacheOnce_Do, clientCertCache_Get.
    destruct (clientCertCache s) as [c|] eqn:Hc; cbv beta iota zeta;
      rewrite Hm1, Hcerts, Hm2;
      change {| cch_hash := md5_Sum (Raw cert);
                cch_version := clientCertAuthVersion d |}
        with (certKey d cert).
    + rewrite Hc, (LRU_Get_miss _ c Hmiss), Hhelper.
      eexists. split; [reflexivity|]. split; [reflexivity|].
      split; [|split; reflexivity].
      intros key. unfold certCached. simpl. rewrite Hc. reflexivity.
    + cbn [clientCertCache set_clientCertCache].
      rewrite (LRU_Get_miss _ (NewLRUCache clienCertHash userIdentity 256)
                 eq_refl), Hhelper.
      eexists. split; [reflexivity|]. split; [reflexivity|].
      split; [|split; reflexivity].
      intros key. unfold certCached. simpl. rewrite Hc. reflexivity.
Qed.

Lemma C10_empty_auth_url_no_call_witness :
  @VerifyOnServer Example.std [("Authorization", HBasic "Administrator" "asdasd")]
    (Scenario.after (UpdateDB (Scenario.cacheNoAuthURL "enable")) Scenario.created)
  = Ret (None, Some ErrNoAuth)
      (Scenario.after (UpdateDB (Scenario.cacheNoAuthURL "enable")) Scenario.created)
  /\ @getUserIdentityFromCert Example.std Scenario.leaf
       (cacheToCredsDB (Scenario.cacheNoAuthURL "enable"))
       (Scenario.after (UpdateDB (Scenario.cacheNoAuthURL "enable")) Scenario.created)
     = Ret (None, Some ErrNoAuth)
         (Scenario.after (UpdateDB (Scenario.cacheNoAuthURL "enable")) Scenario.created)
  /\ exists s' : Svc,
       @MaybeGetCredsFromCert Example.std (Scenario.https [Scenario.leaf])
         (Scenario.after (UpdateDB (Scenario.cacheNoAuthURL "enable"))
            Scenario.created)
       = Ret (None, Some ErrUserNotFound) s'
       /\ calls s' = [].
Proof.
  destruct (@C10_empty_auth_url_no_call Example.std
              (Scenario.after (UpdateDB (Scenario.cacheNoAuthURL "enable"))
                 Scenario.created)
              (cacheToCredsDB (Scenario.cacheNoAuthURL "enable"))
              [("Authorization", HBasic "Administrator" "asdasd")]
              (Scenario.https [Scenario.leaf])
              {| PeerCertificates := [Scenario.leaf] |} Scenario.leaf []
              eq_refl eq_refl)
    as (Hverify & Hhelper & Hcert).
  split; [exact Hverify|]. split; [exact Hhelper|].
  destruct (Hcert eq_refl eq_refl ltac:(discriminate) ltac:(discriminate)
              eq_refl) as (s' & Hrun & Hcalls & _).
  exists s'. split; [exact Hrun|exact Hcalls].
Defined.

(** ** Staleness *)

Lemma ResetSvc_isStale (e : error) (s : Svc) :
  exists s1 : Svc, ResetSvc (Some e) s = Ret tt s1 /\ isStale e s1.
Proof.
  eexists. split; [reflexivity|].
  unfold isStale, updateDBLocked. simpl.
  destruct (freshChan s) eqn:Hch; simpl; repeat split; assumption || reflexivity.
Qed.

Lemma run_op_isStale `{GoStd} (e : error) (s : Svc) (o : op) :
  isStale e s -> run_op o s = Ret (failsWith e o) s.
Proof.
  intros (Hdb & Hch & Herr).
  destruct o; unfold run_op, bind; simpl;
    [ unfold VerifyPassword | unfold VerifyOnServer | unfold checkPermission
    | unfold MaybeGetCredsFromCert | unfold GetCreds
    | unfold GetClientCertAuthType | unfold GetTLSConfig ];
    unfold bind, staleError;
    rewrite (fetchDB_stale s Hdb Hch), Herr; reflexivity.
Qed.

Lemma run_ops_isStale `{GoStd} (e : error) (s : Svc) (os : list op) :
  isStale e s -> run_ops os s = Ret (map (failsWith e) os) s.
Proof.
  intros Hs. induction os as [|o os IH]; [reflexivity|].
  cbn [run_ops map]. unfold bind at 1.
  rewrite (run_op_isStale e s o Hs).
  unfold bind at 1. rewrite IH. reflexivity.
Qed.

(** C6.  [ResetSvc] with a nil error panics.  With an error [e] it
    returns, leaving no snapshot and [e] as the stale error; from then
    on every sequence of verification operations (password, server-side
    verification, permission check, certificate extraction, service
    credentials, the two TLS accessors) answers each call with the zero
    result and [e], without panicking or blocking and without changing
    the service; the next [UpdateDB] installs a snapshot again. *)
Theorem C6_reset_then_stale_error `{GoStd} (s : Svc) (e : error)
  (os : list op) (c : Cache) :
  ResetSvc None s = Panic "staleErr must be non-nil"
  /\ exists s1 : Svc,
       ResetSvc (Some e) s = Ret tt s1
       /\ db s1 = None
       /\ staleErr s1 = Some e
       /\ run_ops os s1 = Ret (map (failsWith e) os) s1
       /\ exists s2 : Svc,
            UpdateDB c s1 = Ret None s2 /\ db s2 = Some (cacheToCredsDB c).
Proof.
  split; [reflexivity|].
  destruct (ResetSvc_isStale e s) as (s1 & Hreset & Hstale).
  exists s1. split; [exact Hreset|].
  pose proof Hstale as (Hdb & Hch & Herr).
  repeat split; try assumption.
  - apply run_ops_isStale, Hstale.
  - eexists. split; [reflexivity|].
    unfold updateDBLocked. simpl. rewrite Hch.
    destruct (needRefreshTLS _ _); reflexivity.
Qed.

(** ** TLS-change notification *)

Lemma TLSConfig_differs (a b : TLSConfig) :
  a <> b <->
  MinVersion a <> MinVersion b
  \/ CipherSuites a <> CipherSuites b
  \/ CipherSuiteNames a <> CipherSuiteNames b
  \/ CipherSuiteOpenSSLNames a <> CipherSuiteOpenSSLNames b
  \/ PreferServerCipherSuites a <> PreferServerCipherSuites b.
Proof.
  split.
  - intros Hne. destruct a as [m1 c1 n1 o1 p1], b as [m2 c2 n2 o2 p2]. simpl.
    destruct (decide (m1 = m2)) as [->|]; [|tauto].
    destruct (decide (c1 = c2)) as [->|]; [|tauto].
    destruct (decide (n1 = n2)) as [->|]; [|tauto].
    destruct (decide (o1 = o2)) as [->|]; [|tauto].
    destruct (decide (p1 = p2)) as [->|]; [|tauto].
    contradiction Hne. reflexivity.
  - intros Hd ->. tauto.
Qed.

Lemma needRefreshTLS_true (s : Svc) (d : credsDB) :
  needRefreshTLS s d = true <->
  db s = None
  \/ exists old : credsDB,
       db s = Some old
       /\ (certVersion old <> certVersion d
           \/ clientCertAuthState old <> clientCertAuthState d
           \/ tlsConfig old <> tlsConfig d).
Proof.
  unfold needRefreshTLS. destruct (db s) as [old|]; [|split; auto].
  rewrite !orb_true_iff, !negb_true_iff, Z.eqb_neq, !bool_decide_eq_false.
  split.
  - intros Hd. right. exists old. split; [reflexivity|tauto].
  - intros [Hn|(old' & Heq & Hd)]; [discriminate|].
    injection Heq as <-. tauto.
Qed.

Lemma needRefreshTLS_same (s : Svc) (old d : credsDB) :
  db s = Some old ->
  certVersion d = certVersion old ->
  clientCertAuthState d = clientCertAuthState old ->
  tlsConfig d = tlsConfig old ->
  needRefreshTLS s d = false.
Proof.
  intros Hdb Hc Hm Ht. unfold needRefreshTLS. rewrite Hdb, Hc, Hm, Ht.
  rewrite Z.eqb_refl, !bool_decide_eq_true_2 by reflexivity. reflexivity.
Qed.

Lemma updateDBLocked_db (d : option credsDB) (s : Svc) :
  db (updateDBLocked d s) = d.
Proof. unfold updateDBLocked. simpl. destruct (freshChan s); reflexivity. Qed.

Lemma updateDBLocked_tlsNotifier (d : option credsDB) (s : Svc) :
  tlsNotifier_ (updateDBLocked d s) = tlsNotifier_ s.
Proof. unfold updateDBLocked. simpl. destruct (freshChan s); reflexivity. Qed.

(** C7.  [UpdateDB] always installs the pushed snapshot.  It requests a
    TLS-change notification exactly when there was no previous snapshot,
    or the certificate version differs, or the client-cert-auth mode
    differs, or some field of the TLS settings (minimum version, cipher
    suites, either list of cipher names, server cipher order) differs
    between the previous and the new snapshot; the request leaves a
    notification waiting in the channel, and without a request the
    notifier is untouched.  A further update whose three TLS-relevant
    fields equal those of the snapshot just installed requests nothing. *)
Theorem C7_update_notifies_iff_tls_changed (c c2 : Cache) (s : Svc) :
  exists s1 : Svc,
    UpdateDB c s = Ret None s1
    /\ db s1 = Some (cacheToCredsDB c)
    /\ (requests (tlsNotifier_ s1) = S (requests (tlsNotifier_ s))
        <-> db s = None
            \/ exists old : credsDB,
                 db s = Some old
                 /\ (certVersion old <> certVersion (cacheToCredsDB c)
                     \/ clientCertAuthState old
                        <> clientCertAuthState (cacheToCredsDB c)
                     \/ MinVersion (tlsConfig old)
                        <> MinVersion (tlsConfig (cacheToCredsDB c))
                     \/ CipherSuites (tlsConfig old)
                        <> CipherSuites (tlsConfig (cacheToCredsDB c))
                     \/ CipherSuiteNames (tlsConfig old)
                        <> CipherSuiteNames (tlsConfig (cacheToCredsDB c))
                     \/ CipherSuiteOpenSSLNames (tlsConfig old)
                        <> CipherSuiteOpenSSLNames (tlsConfig (cacheToCredsDB c))
                     \/ PreferServerCipherSuites (tlsConfig old)
                        <> PreferServerCipherSuites (tlsConfig (cacheToCredsDB c))))
    /\ (requests (tlsNotifier_ s1) = S (requests (tlsNotifier_ s))
        -> ch (tlsNotifier_ s1) = true)
    /\ (requests (tlsNotifier_ s1) <> S (requests (tlsNotifier_ s))
        -> tlsNotifier_ s1 = tlsNotifier_ s)
    /\ (certVersion (cacheToCredsDB c2) = certVersion (cacheToCredsDB c)
        -> clientCertAuthState (cacheToCredsDB c2)
           = clientCertAuthState (cacheToCredsDB c)
        -> tlsConfig (cacheToCredsDB c2) = tlsConfig (cacheToCredsDB c)
        -> exists s2 : Svc,
             UpdateDB c2 s1 = Ret None s2
             /\ db s2 = Some (cacheToCredsDB c2)
             /\ tlsNotifier_ s2 = tlsNotifier_ s1).
Proof.
  set (d := cacheToCredsDB c).
  set (s0 := updateDBLocked (Some d) s).
  assert (Hdb0 : db s0 = Some d) by apply updateDBLocked_db.
  assert (Hn0 : tlsNotifier_ s0 = tlsNotifier_ s)
    by apply updateDBLocked_tlsNotifier.
  pose proof (needRefreshTLS_true s d) as Hiff.
  unfold UpdateDB. fold d. fold s0.
  destruct (needRefreshTLS s d) eqn:Hneed.
  - exists (set_tlsNotifier (notifyTLSChange (tlsNotifier_ s0)) s0).
    split; [reflexivity|]. split; [exact Hdb0|].
    assert (Hreq : requests (tlsNotifier_
                     (set_tlsNotifier (notifyTLSChange (tlsNotifier_ s0)) s0))
                   = S (requests (tlsNotifier_ s)))
      by (simpl; rewrite Hn0; reflexivity).
    split; [|split; [|split]].
    + split; [intros _|intros _; exact Hreq].
      destruct (proj1 Hiff eq_refl) as [Hn|(old & Ho & Hd)]; [left; exact Hn|].
      right. exists old. split; [exact Ho|].
      destruct Hd as [Hd|[Hd|Hd]]; [tauto|tauto|].
      apply TLSConfig_differs in Hd. tauto.
    + intros _. reflexivity.
    + intros Hne. contradiction.
    + intros Hc Hm Ht. unfold UpdateDB.
      rewrite (needRefreshTLS_same _ d (cacheToCredsDB c2)) by assumption.
      eexists. split; [reflexivity|].
      rewrite updateDBLocked_db, updateDBLocked_tlsNotifier.
      split; reflexivity.
  - exists s0. split; [reflexivity|]. split; [exact Hdb0|].
    split; [|split; [|split]].
    + rewrite Hn0. split; [intros Habs; lia|].
      intros Hcond. exfalso.
      assert (Htrue : false = true); [|discriminate].
      apply Hiff. destruct Hcond as [Hn|(old & Ho & Hd)]; [left; exact Hn|].
      right. exists old. split; [exact Ho|].
      destruct Hd as [Hd|[Hd|Hd]]; [tauto|tauto|].
      right. right. apply TLSConfig_differs. exact Hd.
    + rewrite Hn0. intros Habs. lia.
    + intros _. exact Hn0.
    + intros Hc Hm Ht. unfold UpdateDB.
      rewrite (needRefreshTLS_same _ d (cacheToCredsDB c2)) by assumption.
      eexists. split; [reflexivity|].
      rewrite updateDBLocked_db, updateDBLocked_tlsNotifier.
      split; reflexivity.
Qed.

Lemma C7_update_notifies_iff_tls_changed_witness :
  exists s2 : Svc,
    UpdateDB (Scenario.cache "v2" "enable") (Scenario.fresh "enable")
    = Ret None s2
    /\ db s2 = Some (cacheToCredsDB (Scenario.cache "v2" "enable"))
    /\ tlsNotifier_ s2 = tlsNotifier_ (Scenario.fresh "enable").
Proof.
  destruct (C7_update_notifies_iff_tls_changed
              (Scenario.cache "v1" "enable") (Scenario.cache "v2" "enable")
              Scenario.created)
    as (s1 & Hupd & _ & _ & _ & _ & Hsame).
  injection Hupd as <-.
  apply Hsame; reflexivity.
Defined.

(** ** Callback registration *)

(** C8.  The notifier has room for one callback.  Registering while one
    is registered returns [ErrCallbackAlreadyRegistered] and changes
    nothing.  Registering while none is registered returns no error,
    stores the callback and requests a notification, which is then
    waiting in the channel; the next iteration of the delivery loop that
    takes it runs that callback once (its run number [runs ls]), and
    arms the retry timer exactly when that run fails. *)
Theorem C8_register_callback_once (n : tlsNotifier) (cb : TLSRefreshCallback)
  (ls : loopState) :
  (forall old : TLSRefreshCallback,
     callback n = Some old ->
     registerCallback (Some cb) n = (Some ErrCallbackAlreadyRegistered, n))
  /\ (callback n = None ->
      exists n1 : tlsNotifier,
        registerCallback (Some cb) n = (None, n1)
        /\ callback n1 = Some cb
        /\ ch n1 = true
        /\ requests n1 = S (requests n)
        /\ exists (ls' : loopState) (n2 : tlsNotifier),
             loop_iteration Notified ls n1 = Some (ls', n2)
             /\ maybeExecuteCallback n1 (runs ls) = (cb (runs ls), true)
             /\ runs ls' = S (runs ls)
             /\ retry ls' = bool_decide (cb (runs ls) <> None)
             /\ callback n2 = Some cb
             /\ ch n2 = false).
Proof.
  split.
  - intros old Hold. unfold registerCallback. rewrite Hold. reflexivity.
  - intros Hnone. unfold registerCallback. rewrite Hnone.
    eexists. split; [reflexivity|]. simpl.
    repeat split.
    unfold loop_iteration, maybeExecuteCallback, getCallback. simpl.
    destruct (cb (runs ls)) as [e|] eqn:Hrun; eexists _, _;
      (split; [reflexivity|]); simpl; repeat split.
Qed.

Lemma C8_register_callback_once_witness :
  registerCallback (Some Scenario.refresh)
    {| ch := false; callback := Some (fun _ => None); requests := 1 |}
  = (Some ErrCallbackAlreadyRegistered,
     {| ch := false; callback := Some (fun _ => None); requests := 1 |})
  /\ exists n1 : tlsNotifier,
       registerCallback (Some Scenario.refresh) newTLSNotifier = (None, n1)
       /\ callback n1 = Some Scenario.refresh
       /\ ch n1 = true
       /\ requests n1 = 1%nat
       /\ exists (ls' : loopState) (n2 : tlsNotifier),
            loop_iteration Notified {| retry := false; runs := 0 |} n1
            = Some (ls', n2)
            /\ maybeExecuteCallback n1 0
               = (Scenario.refresh 0%nat, true)
            /\ runs ls' = 1%nat
            /\ retry ls' = bool_decide (Scenario.refresh 0%nat <> None)
            /\ callback n2 = Some Scenario.refresh
            /\ ch n2 = false.
Proof.
  split.
  - apply (proj1 (C8_register_callback_once
                    {| ch := false; callback := Some (fun _ => None);
                       requests := 1 |}
                    Scenario.refresh {| retry := false; runs := 0 |})
             (fun _ => None)).
    reflexivity.
  - apply (proj2 (C8_register_callback_once newTLSNotifier Scenario.refresh
                    {| retry := false; runs := 0 |})).
    reflexivity.
Defined.

(** The wrapper on the service only threads the notifier. *)
Lemma RegisterTLSRefreshCallback_notifier (cb : option TLSRefreshCallback)
  (s : Svc) :
  RegisterTLSRefreshCallback cb s
  = Ret (fst (registerCallback cb (tlsNotifier_ s)))
        (set_tlsNotifier (snd (registerCallback cb (tlsNotifier_ s))) s).
Proof.
  unfold RegisterTLSRefreshCallback.
  destruct (registerCallback cb (tlsNotifier_ s)). reflexivity.
Qed.

(** ** Certificate extraction without a certificate *)

Lemma clientCertCacheOnce_Do_spec (s : Svc) :
  exists s' : Svc,
    clientCertCacheOnce_Do s = Ret tt s'
    /\ db s' = db s
    /\ calls s' = calls s
    /\ semaphore s' = semaphore s
    /\ (forall key, certCached key s' = certCached key s)
    /\ exists c, clientCertCache s' = Some c.
Proof.
  unfold clientCertCacheOnce_Do.
  destruct (clientCertCache s) as [c|] eqn:Hc.
  - exists s. do 5 (split; [reflexivity|]). exists c. exact Hc.
  - eexists. split; [reflexivity|]. do 3 (split; [reflexivity|]).
    split; [|eexists; reflexivity].
    intros key. unfold certCached. simpl. rewrite Hc. reflexivity.
Qed.

(** C2, as the claim states it, fails: in mode "mandatory" a TLS request
    that presents no peer certificate is not a no-op; the code indexes
    the empty certificate list. *)
Lemma C2_mandatory_without_certificate :
  @MaybeGetCredsFromCert Example.std (Scenario.https [])
    (Scenario.fresh "mandatory")
  = Panic "index out of range [0] with length 0"
  /\ ~ (exists s' : Svc,
          @MaybeGetCredsFromCert Example.std (Scenario.https [])
            (Scenario.fresh "mandatory")
          = Ret (None, None) s').
Proof.
  assert (Hrun : @MaybeGetCredsFromCert Example.std (Scenario.https [])
                   (Scenario.fresh "mandatory")
                 = Panic "index out of range [0] with length 0")
    by (vm_compute; reflexivity).
  split; [exact Hrun|].
  intros (s' & Hs'). rewrite Hrun in Hs'. discriminate.
Qed.

(** C2, amended.  Under a current snapshot [MaybeGetCredsFromCert]
    returns no identity and no error, makes no outbound call and leaves
    the contents of the certificate cache as they were
    - for a request that carries no TLS state (the service is then not
      touched at all);
    - for a TLS request, with or without peer certificates, when the
      mode is "disable" or empty;
    - for a TLS request that presents no peer certificate when the mode
      is "enable". *)
Theorem C2_cert_extraction_noop `{GoStd} (s : Svc) (d : credsDB)
  (req : InRequest) :
  db s = Some d ->
  (TLS req = None -> MaybeGetCredsFromCert req s = Ret (None, None) s)
  /\ (forall tls : ConnectionState,
        TLS req = Some tls ->
        clientCertAuthState d = "disable" \/ clientCertAuthState d = ""
        \/ (clientCertAuthState d = "enable" /\ PeerCertificates tls = []) ->
        exists s' : Svc,
          MaybeGetCredsFromCert req s = Ret (None, None) s'
          /\ calls s' = calls s
          /\ forall key, certCached key s' = certCached key s).
Proof.
  intros Hdb. split.
  - intros Htls. unfold MaybeGetCredsFromCert. under_snapshot Hdb.
    rewrite Htls. reflexivity.
  - intros tls Htls Hmode.
    destruct (clientCertCacheOnce_Do_spec s)
      as (s' & Honce & _ & Hcalls & _ & Hcached & _).
    exists s'. split; [|split; assumption].
    unfold MaybeGetCredsFromCert. under_snapshot Hdb.
    rewrite Htls, Honce.
    destruct Hmode as [Hm|[Hm|[Hm Hnil]]]; rewrite Hm; try reflexivity.
    rewrite Hnil. reflexivity.
Qed.

Lemma C2_cert_extraction_noop_witness :
  (@MaybeGetCredsFromCert Example.std Scenario.http (Scenario.fresh "mandatory")
   = Ret (None, None) (Scenario.fresh "mandatory"))
  /\ (exists s' : Svc,
        @MaybeGetCredsFromCert Example.std (Scenario.https [Scenario.leaf])
          (Scenario.fresh "disable")
        = Ret (None, None) s'
        /\ calls s' = calls (Scenario.fresh "disable")
        /\ forall key, certCached key s' = certCached key (Scenario.fresh "disable"))
  /\ (exists s' : Svc,
        @MaybeGetCredsFromCert Example.std (Scenario.https [])
          (Scenario.fresh "enable")
        = Ret (None, None) s'
        /\ calls s' = calls (Scenario.fresh "enable")
        /\ forall key, certCached key s' = certCached key (Scenario.fresh "enable")).
Proof.
  split; [|split].
  - apply (proj1 (@C2_cert_extraction_noop Example.std
                    (Scenario.fresh "mandatory") (Scenario.snapshot "mandatory")
                    Scenario.http eq_refl)).
    reflexivity.
  - apply (proj2 (@C2_cert_extraction_noop Example.std
                    (Scenario.fresh "disable") (Scenario.snapshot "disable")
                    (Scenario.https [Scenario.leaf]) eq_refl)
             {| PeerCertificates := [Scenario.leaf] |} eq_refl).
    left. reflexivity.
  - apply (proj2 (@C2_cert_extraction_noop Example.std
                    (Scenario.fresh "enable") (Scenario.snapshot "enable")
                    (Scenario.https []) eq_refl)
             {| PeerCertificates := [] |} eq_refl).
    right. right. split; reflexivity.
Defined.

(** ** Service credentials *)

Section ServiceCreds.
Context `{GoStd}.

Lemma matchHost_iff (n : Node) (host : string) :
  matchHost n host = true <->
  IsLoopback (net_ParseIP (Host n)) = true
  \/ (IsLoopback (net_ParseIP host) = true /\ Local n = true)
  \/ (exists nip hip : IP,
        net_ParseIP (Host n) = Some nip /\ net_ParseIP host = Some hip
        /\ IP_Equal hip nip = true)
  \/ (net_ParseIP (Host n) = None /\ net_ParseIP host = None
      /\ host = Host n).
Proof.
  unfold matchHost.
  destruct (IsLoopback (net_ParseIP (Host n))) eqn:Hln; [tauto|].
  destruct (IsLoopback (net_ParseIP host) && Local n) eqn:Hlh.
  { apply andb_true_iff in Hlh. tauto. }
  apply andb_false_iff in Hlh.
  destruct (net_ParseIP (Host n)) as [nip|] eqn:Hn;
    destruct (net_ParseIP host) as [hip|] eqn:Hh;
    rewrite ?bool_decide_eq_true.
  - split; [intros Heq; right; right; left; exists nip, hip; auto|].
    intros [Hd|[[Hl1 Hl2]|[(a & b & Ha & Hb & Hab)|(Hd & _)]]].
    + discriminate.
    + destruct Hlh; congruence.
    + congruence.
    + discriminate.
  - split; [intros ->; congruence|].
    intros [Hd|[[Hl1 Hl2]|[(a & b & Ha & Hb & Hab)|(Hd & _)]]].
    + discriminate.
    + destruct Hlh; congruence.
    + discriminate.
    + discriminate.
  - split; [intros ->; congruence|].
    intros [Hd|[[Hl1 Hl2]|[(a & b & Ha & Hb & Hab)|(_ & Hd & _)]]].
    + discriminate.
    + destruct Hlh; congruence.
    + discriminate.
    + discriminate.
  - split; [intros ->; tauto|].
    intros [Hd|[[Hl1 Hl2]|[(a & b & Ha & Hb & Hab)|(_ & _ & Heq)]]].
    + discriminate.
    + destruct Hlh; congruence.
    + discriminate.
    + exact Heq.
Qed.

(** A node matches its own host string. *)
Lemma matchHost_same (n : Node) : matchHost n (Host n) = true.
Proof.
  unfold matchHost.
  destruct (IsLoopback (net_ParseIP (Host n))); [reflexivity|].
  destruct (_ && _); [reflexivity|].
  destruct (net_ParseIP (Host n)) as [ip|].
  - apply IP_Equal_refl.
  - apply bool_decide_eq_true_2. reflexivity.
Qed.

Lemma rangePorts_In (n : Node) (ps : list Z) (port : Z) :
  In port ps -> rangePorts n ps port = (User n, Password n).
Proof.
  induction ps as [|p ps IH]; intros Hin; [destruct Hin|].
  simpl. destruct (Z.eqb_spec p port) as [_|Hne]; [reflexivity|].
  destruct Hin as [Heq|Hin]; [contradiction|]. apply IH, Hin.
Qed.

Lemma rangePorts_not_In (n : Node) (ps : list Z) (port : Z) :
  ~ In port ps -> rangePorts n ps port = ("", "").
Proof.
  induction ps as [|p ps IH]; intros Hnin; [reflexivity|].
  simpl. destruct (Z.eqb_spec p port) as [Heq|_].
  - contradiction Hnin. left. exact Heq.
  - apply IH. intros Hin. apply Hnin. right. exact Hin.
Qed.

Lemma getMemcachedCreds_match (n : Node) (host : string) (port : Z) :
  matchHost n host = true -> In port (Ports n) ->
  getMemcachedCreds n host port = (User n, Password n).
Proof.
  intros Hm Hp. unfold getMemcachedCreds. rewrite Hm. simpl.
  apply rangePorts_In, Hp.
Qed.

Lemma getMemcachedCreds_no_match (n : Node) (host : string) (port : Z) :
  matchHost n host = false \/ ~ In port (Ports n) ->
  getMemcachedCreds n host port = ("", "").
Proof.
  intros Hno. unfold getMemcachedCreds.
  destruct (matchHost n host); [|reflexivity]. simpl.
  destruct Hno as [Hm|Hp]; [discriminate|]. apply rangePorts_not_In, Hp.
Qed.

(** A node is passed over by the loop of [GetCreds] when it does not
    match, does not serve the port, or has an empty user name. *)
Lemma getMemcachedCreds_passed_over (n : Node) (host : string) (port : Z) :
  matchHost n host = false \/ ~ In port (Ports n) \/ User n = "" ->
  fst (getMemcachedCreds n host port) = "".
Proof.
  intros [Hm|Hrest].
  - rewrite getMemcachedCreds_no_match by (left; exact Hm). reflexivity.
  - destruct (matchHost n host) eqn:Hm.
    + destruct (in_dec Z.eq_dec port (Ports n)) as [Hin|Hnin].
      * rewrite getMemcachedCreds_match by assumption.
        destruct Hrest as [Hp|Hu]; [contradiction|exact Hu].
      * rewrite getMemcachedCreds_no_match by (right; exact Hnin).
        reflexivity.
    + rewrite getMemcachedCreds_no_match by (left; exact Hm).
      reflexivity.
Qed.

Lemma rangeNodes_first (d : credsDB) (pre post : list Node) (n : Node)
  (host : string) (port : Z) (mu pw : string) :
  (forall m, In m pre -> fst (getMemcachedCreds m host port) = "") ->
  matchHost n host = true -> In port (Ports n) -> User n <> "" ->
  rangeNodes d (pre ++ n :: post) host port mu pw
  = (User n, specialUser d, Password n).
Proof.
  intros Hpre Hm Hp Hu. revert mu pw.
  induction pre as [|m pre IH]; intros mu pw; simpl.
  - rewrite getMemcachedCreds_match by assumption.
    rewrite bool_decide_eq_false_2 by assumption. reflexivity.
  - pose proof (Hpre m (or_introl eq_refl)) as Hfst.
    destruct (getMemcachedCreds m host port) as [mu' pw']. simpl in Hfst.
    subst mu'. rewrite bool_decide_eq_true_2 by reflexivity. simpl.
    apply IH. intros k Hk. apply Hpre. right. exact Hk.
Qed.

Lemma rangeNodes_none (d : credsDB) (ns : list Node) (host : string)
  (port : Z) :
  (forall m, In m ns -> matchHost m host = false \/ ~ In port (Ports m)) ->
  rangeNodes d ns host port "" "" = ("", "", "").
Proof.
  induction ns as [|m ns IH]; intros Hno; simpl; [reflexivity|].
  rewrite getMemcachedCreds_no_match by (apply Hno; left; reflexivity).
  rewrite bool_decide_eq_true_2 by reflexivity. simpl.
  apply IH. intros k Hk. apply Hno. right. exact Hk.
Qed.
End ServiceCreds.

(** C3, as the claim states it, fails: the loop of [GetCreds] takes an
    empty memcached user for "this node did not answer".  Here the only
    node that matches "alpha.local" and serves port 9000 has the empty
    user name and the password "secret"; [GetCreds] passes it over and
    returns the empty password, not that node's. *)
Lemma C3_empty_user_passed_over :
  In Scenario.unnamed (Nodes Scenario.cacheUnnamed)
  /\ @matchHost Example.std Scenario.unnamed "alpha.local" = true
  /\ @matchHost Example.std Scenario.beta "alpha.local" = false
  /\ In 9000 (Ports Scenario.unnamed)
  /\ @GetCreds Example.std "alpha.local" 9000
       (Scenario.after (UpdateDB Scenario.cacheUnnamed) Scenario.created)
     = Ret ("", "", "", None)
         (Scenario.after (UpdateDB Scenario.cacheUnnamed) Scenario.created)
  /\ ~ (exists (user : string) (s' : Svc),
          @GetCreds Example.std "alpha.local" 9000
            (Scenario.after (UpdateDB Scenario.cacheUnnamed) Scenario.created)
          = Ret (User Scenario.unnamed, user, Password Scenario.unnamed, None)
              s').
Proof.
  assert (Hrun : @GetCreds Example.std "alpha.local" 9000
                   (Scenario.after (UpdateDB Scenario.cacheUnnamed)
                      Scenario.created)
                 = Ret ("", "", "", None)
                     (Scenario.after (UpdateDB Scenario.cacheUnnamed)
                        Scenario.created))
    by (vm_compute; reflexivity).
  split; [left; reflexivity|].
  split; [vm_compute; reflexivity|].
  split; [vm_compute; reflexivity|].
  split; [left; reflexivity|].
  split; [exact Hrun|].
  intros (user & s' & Hs'). rewrite Hrun in Hs'. discriminate.
Qed.

(** C3, amended.  Under a current snapshot:
    - a node matches a host iff the node's host is a loopback address,
      or the host is loopback and the node is flagged local, or both
      parse as IP addresses that are equal, or neither parses and the two
      strings are equal;
    - [GetCreds] returns the user and password of the first node, in
      list order, that matches the host, serves the port and has a
      non-empty user name (every node before it fails one of the three),
      together with the special user;
    - when no node both matches and serves the port, it returns empty
      strings and a nil error;
    - with the single node beta.local/_admin/foobar on ports 9000 and
      12000, "beta.local" with port 9000 gives _admin and foobar, and
      with port 7000 gives empty strings. *)
Theorem C3_get_creds_first_answering_node `{GoStd} (s : Svc) (d : credsDB)
  (host : string) (port : Z) :
  db s = Some d ->
  (forall n : Node,
     matchHost n host = true <->
     IsLoopback (net_ParseIP (Host n)) = true
     \/ (IsLoopback (net_ParseIP host) = true /\ Local n = true)
     \/ (exists nip hip : IP,
           net_ParseIP (Host n) = Some nip /\ net_ParseIP host = Some hip
           /\ IP_Equal hip nip = true)
     \/ (net_ParseIP (Host n) = None /\ net_ParseIP host = None
         /\ host = Host n))
  /\ (forall (pre post : list Node) (n : Node),
        nodes d = (pre ++ n :: post)%list ->
        (forall m, In m pre ->
           matchHost m host = false \/ ~ In port (Ports m) \/ User m = "") ->
        matchHost n host = true -> In port (Ports n) -> User n <> "" ->
        GetCreds host port s
        = Ret (User n, specialUser d, Password n, None) s)
  /\ ((forall m, In m (nodes d) ->
         matchHost m host = false \/ ~ In port (Ports m)) ->
      GetCreds host port s = Ret ("", "", "", None) s)
  /\ (nodes d = [ {| Host := "beta.local"; User := "_admin";
                     Password := "foobar"; Ports := [9000; 12000];
                     Local := false |} ] ->
      GetCreds "beta.local" 9000 s
      = Ret ("_admin", specialUser d, "foobar", None) s
      /\ GetCreds "beta.local" 7000 s = Ret ("", "", "", None) s).
Proof.
  intros Hdb.
  assert (Hget : forall h p,
             GetCreds h p s = Ret (rangeNodes d (nodes d) h p "" "", None) s).
  { intros h p. unfold GetCreds. under_snapshot Hdb. reflexivity. }
  split; [intros n; apply matchHost_iff|].
  split; [|split].
  - intros pre post n Hnodes Hpre Hm Hp Hu.
    rewrite Hget, Hnodes.
    rewrite (rangeNodes_first d pre post n host port); try assumption.
    + reflexivity.
    + intros m Hin. apply getMemcachedCreds_passed_over, Hpre, Hin.
  - intros Hno. rewrite Hget, rangeNodes_none by assumption. reflexivity.
  - intros Hnodes. rewrite !Hget, Hnodes.
    set (beta := {| Host := "beta.local"; User := "_admin";
                    Password := "foobar"; Ports := [9000; 12000];
                    Local := false |}).
    split.
    + rewrite (rangeNodes_first d [] [] beta "beta.local" 9000).
      * reflexivity.
      * intros m [].
      * apply (matchHost_same beta).
      * left. reflexivity.
      * discriminate.
    + rewrite rangeNodes_none; [reflexivity|].
      intros m [<-|[]]. right. simpl. intros [Hp|[Hp|[]]]; discriminate.
Qed.

Lemma C3_get_creds_first_answering_node_witness :
  @GetCreds Example.std "chi.local" 12001 (Scenario.fresh "disable")
  = Ret ("_admin", "@component", "barfoo", None) (Scenario.fresh "disable")
  /\ @GetCreds Example.std "unknown" 9000 (Scenario.fresh "disable")
     = Ret ("", "", "", None) (Scenario.fresh "disable")
  /\ @GetCreds Example.std "beta.local" 9000
       (Scenario.after (UpdateDB Scenario.cacheNoLocal) Scenario.created)
     = Ret ("_admin", "@component", "foobar", None)
         (Scenario.after (UpdateDB Scenario.cacheNoLocal) Scenario.created)
  /\ @GetCreds Example.std "beta.local" 7000
       (Scenario.after (UpdateDB Scenario.cacheNoLocal) Scenario.created)
     = Ret ("", "", "", None)
         (Scenario.after (UpdateDB Scenario.cacheNoLocal) Scenario.created).
Proof.
  split; [|split].
  - apply (proj1 (proj2 (@C3_get_creds_first_answering_node Example.std
                           (Scenario.fresh "disable")
                           (Scenario.snapshot "disable")
                           "chi.local" 12001 eq_refl))
             [Scenario.beta] [] Scenario.chi eq_refl).
    + intros m [<-|[]]. left. vm_compute. reflexivity.
    + vm_compute. reflexivity.
    + simpl. lia.
    + discriminate.
  - apply (proj1 (proj2 (proj2 (@C3_get_creds_first_answering_node Example.std
                                  (Scenario.fresh "disable")
                                  (Scenario.snapshot "disable")
                                  "unknown" 9000 eq_refl)))).
    intros m [<-|[<-|[]]]; left; vm_compute; reflexivity.
  - apply (proj2 (proj2 (proj2 (@C3_get_creds_first_answering_node Example.std
                                  (Scenario.after (UpdateDB Scenario.cacheNoLocal)
                                     Scenario.created)
                                  (cacheToCredsDB Scenario.cacheNoLocal)
                                  "beta.local" 9000 eq_refl)))).
    reflexivity.
Defined.

(** ** Permission checks *)

Lemma checkPermissionOnServer_run `{GoStd} (d : credsDB)
  (user domain permission : string) (s : Svc) :
  (semaphore s < semaphoreCap)%nat ->
  http_NewRequest_error "GET" (permissionCheckURL d) = None ->
  exists r : bool * option error,
    checkPermissionOnServer d user domain permission s
    = Ret r (called (permissionRequest d user domain permission) s)
    /\ match Transport (httpClient s) (calls s)
               (permissionRequest d user domain permission) with
       | DoError e => r = (false, Some e)
       | DoResponse resp =>
           (StatusCode resp = 200 -> r = (true, None))
           /\ (StatusCode resp = 401 -> r = (false, None))
           /\ (StatusCode resp <> 200 -> StatusCode resp <> 401 ->
               exists e, r = (false, Some e))
       end.
Proof.
  intros Hfree Hurl. apply Nat.ltb_lt in Hfree.
  unfold checkPermissionOnServer, throttled, bind, semaphore_wait, NewRequest.
  rewrite Hurl, Hfree. unfold Do, Client_Do, calls.
  change (withRawQuery _ _) with (permissionRequest d user domain permission).
  change (httpClient (set_semaphore _ s)) with (httpClient s).
  destruct (Transport (httpClient s) (sent (httpClient s))
              (permissionRequest d user domain permission)) as [e|resp].
  - eexists. split; reflexivity.
  - cbn -[Z.eqb pretty].
    destruct (Z.eqb_spec (StatusCode resp) 200) as [H200|H200].
    + eexists. split; [reflexivity|]. repeat split; intros; try reflexivity; lia.
    + destruct (Z.eqb_spec (StatusCode resp) 401) as [H401|H401].
      * eexists. split; [reflexivity|]. repeat split; intros; try reflexivity; lia.
      * eexists. split; [reflexivity|]. repeat split; intros; try lia.
        eexists. reflexivity.
Qed.

Lemma checkPermission_hit `{GoStd} (s : Svc) (d : credsDB)
  (user domain permission : string) (a : bool) :
  db s = Some d ->
  upCached (permKey d user domain permission) s = Some a ->
  exists s' : Svc,
    checkPermission user domain permission s = Ret (a, None) s'
    /\ calls s' = calls s
    /\ db s' = db s
    /\ semaphore s' = semaphore s
    /\ forall key, upCached key s' = upCached key s.
Proof.
  intros Hdb Hhit. unfold upCached in Hhit.
  destruct (upCache s) as [c|] eqn:Hc; [|discriminate].
  unfold checkPermission. under_snapshot Hdb.
  unfold upCacheOnce_Do, upCache_Get. rewrite Hc.
  change {| up_version := permissionsVersion d; up_user := user;
            up_domain := domain; up_permission := permission |}
    with (permKey d user domain permission).
  cbv beta iota. rewrite Hc, (LRU_Get_hit _ a c Hhit).
  eexists. split; [reflexivity|]. do 3 (split; [reflexivity|]).
  intros key. unfold upCached. rewrite Hc. simpl.
  pose proof (LRU_peek_Get (permKey d user domain permission) key c) as Hp.
  rewrite (LRU_Get_hit _ a c Hhit) in Hp. exact Hp.
Qed.

Lemma checkPermission_miss `{GoStd} (s : Svc) (d : credsDB)
  (user domain permission : string) :
  db s = Some d ->
  upCached (permKey d user domain permission) s = None ->
  (semaphore s < semaphoreCap)%nat ->
  http_NewRequest_error "GET" (permissionCheckURL d) = None ->
  exists (r : bool * option error) (s' : Svc),
    checkPermission user domain permission s = Ret r s'
    /\ calls s' = (calls s ++ [permissionRequest d user domain permission])%list
    /\ db s' = db s
    /\ semaphore s' = semaphore s
    /\ Transport (httpClient s') = Transport (httpClient s)
    /\ match Transport (httpClient s) (calls s)
               (permissionRequest d user domain permission) with
       | DoError e => r = (false, Some e)
       | DoResponse resp =>
           (StatusCode resp = 200 -> r = (true, None))
           /\ (StatusCode resp = 401 -> r = (false, None))
           /\ (StatusCode resp <> 200 -> StatusCode resp <> 401 ->
               exists e, r = (false, Some e))
       end
    /\ (forall allowed : bool,
          r = (allowed, None) ->
          upCached (permKey d user domain permission) s' = Some allowed)
    /\ (forall key : userPermission,
          key <> permKey d user domain permission ->
          upCached key s = None -> upCached key s' = None).
Proof.
  intros Hdb Hmiss Hfree Hurl.
  set (key := permKey d user domain permission) in *.
  set (c0 := match upCache s with
             | Some c => c
             | None => NewLRUCache userPermission bool 1024
             end).
  assert (Hpeek : forall k, LRU_peek k c0 = upCached k s).
  { intros k. unfold c0, upCached. destruct (upCache s); reflexivity. }
  assert (Honce : exists s1, upCacheOnce_Do s = Ret tt s1
                    /\ upCache s1 = Some c0 /\ set_upCache (Some c0) s1 = set_upCache (Some c0) s).
  { unfold upCacheOnce_Do, c0. destruct (upCache s) as [c|] eqn:Hc.
    - exists s. rewrite Hc. auto.
    - eexists. split; [reflexivity|]. split; reflexivity. }
  destruct Honce as (s1 & Honce & Hc1 & Hs1).
  destruct (checkPermissionOnServer_run d user domain permission
              (set_upCache (Some c0) s) Hfree Hurl) as (r & Hrun & Hr).
  unfold checkPermission. under_snapshot Hdb. rewrite Honce.
  change {| up_version := permissionsVersion d; up_user := user;
            up_domain := domain; up_permission := permission |} with key.
  unfold upCache_Get. cbv beta iota. rewrite Hc1.
  rewrite (LRU_Get_miss key c0) by (rewrite Hpeek; exact Hmiss).
  rewrite Hs1, Hrun.
  change (calls (set_upCache (Some c0) s)) with (calls s) in Hr.
  change (httpClient (set_upCache (Some c0) s)) with (httpClient s) in Hr.
  destruct r as [allowed [e|]].
  - exists (false, Some e). eexists. split; [reflexivity|].
    do 4 (split; [reflexivity|]).
    split; [|split].
    + destruct (Transport _ _ _) as [e'|resp].
      * injection Hr as _ <-. reflexivity.
      * destruct Hr as (H200 & H401 & Hother).
        repeat split; intros.
        -- specialize (H200 ltac:(assumption)). discriminate.
        -- specialize (H401 ltac:(assumption)). discriminate.
        -- destruct (Hother ltac:(assumption) ltac:(assumption)) as (e' & He').
           injection He' as _ <-. eexists. reflexivity.
    + intros a Ha. discriminate.
    + intros k Hk Hnone. unfold upCached. simpl. rewrite Hpeek. exact Hnone.
  - exists (allowed, None). eexists. unfold upCache_Set. simpl.
    split; [reflexivity|]. do 4 (split; [reflexivity|]).
    split; [exact Hr|]. split.
    + intros a Ha. injection Ha as <-. unfold upCached. simpl.
      apply LRU_peek_Set_same.
    + intros k Hk Hnone. unfold upCached. simpl.
      apply LRU_peek_Set_other_None; [congruence|].
      rewrite Hpeek. exact Hnone.
Qed.

Lemma UpdateDB_frame (c : Cache) (s s1 : Svc) :
  UpdateDB c s = Ret None s1 ->
  db s1 = Some (cacheToCredsDB c)
  /\ upCache s1 = upCache s
  /\ authCache s1 = authCache s
  /\ clientCertCache s1 = clientCertCache s
  /\ httpClient s1 = httpClient s
  /\ semaphore s1 = semaphore s.
Proof.
  unfold UpdateDB, updateDBLocked. intros Hupd. injection Hupd as <-.
  destruct (needRefreshTLS s (cacheToCredsDB c)); simpl;
    destruct (freshChan s); simpl; repeat split; reflexivity.
Qed.



(** ** Password verification on a cache miss *)

Lemma verifyPasswordOnServer_run `{GoStd} (d : credsDB)
  (user password : string) (s : Svc) :
  db s = Some d ->
  authCheckURL d <> "" ->
  (semaphore s < semaphoreCap)%nat ->
  http_NewRequest_error "POST" (authCheckURL d) = None ->
  exists r : option CredsImpl * option error,
    verifyPasswordOnServer user password s
    = Ret r (called (passwordRequest d user password) s)
    /\ match Transport (httpClient s) (calls s)
               (passwordRequest d user password) with
       | DoError e => r = (None, Some e)
       | DoResponse resp =>
           (StatusCode resp = 401 -> r = (None, Some ErrNoAuth))
           /\ (StatusCode resp = 200 ->
               match RespBody resp with
               | BodyReadError e => r = (None, Some e)
               | BodyBadJSON e => r = (None, Some e)
               | BodyJSON u dm =>
                   r = (Some {| name := u; domain := dm; password := "";
                                creds_db := d |}, None)
               end)
           /\ (StatusCode resp <> 200 -> exists e, r = (None, Some e))
       end.
Proof.
  intros Hdb Hurl Hfree Hreq. apply Nat.ltb_lt in Hfree.
  unfold verifyPasswordOnServer, NewRequest. rewrite http_NewRequest_host.
  unfold VerifyOnServer, bind, gets. rewrite (fetchDB_fresh s d Hdb), Hdb.
  rewrite bool_decide_eq_false_2 by exact Hurl.
  unfold throttled, bind, semaphore_wait, NewRequest. rewrite Hreq, Hfree.
  unfold executeReqAndGetCreds, bind, Do, Client_Do, calls.
  change (withHeader _ _) with (passwordRequest d user password).
  change (httpClient (set_semaphore _ s)) with (httpClient s).
  destruct (Transport (httpClient s) (sent (httpClient s))
              (passwordRequest d user password)) as [e|resp].
  - eexists. split; reflexivity.
  - destruct (Z.eqb_spec (StatusCode resp) 401) as [H401|H401].
    + eexists. split; [reflexivity|].
      repeat split; intros; try reflexivity; try lia. eexists. reflexivity.
    + destruct (Z.eqb_spec (StatusCode resp) 200) as [H200|H200]; simpl.
      * destruct (RespBody resp) as [e|e|u dm];
          (eexists; split; [reflexivity|]);
          (split; [intros; lia|split; [intros _; reflexivity|intros; lia]]).
      * eexists. split; [reflexivity|].
        split; [intros; lia|split; [intros; lia|]].
        intros _. eexists. reflexivity.
Qed.

Lemma VerifyPassword_miss `{GoStd} (s : Svc) (d : credsDB)
  (user password : string) :
  db s = Some d ->
  verifySpecialCreds d user password = false ->
  authCached (authKey d user password) s = None ->
  authCheckURL d <> "" ->
  (semaphore s < semaphoreCap)%nat ->
  http_NewRequest_error "POST" (authCheckURL d) = None ->
  exists (r : option CredsImpl * option error) (s' : Svc),
    VerifyPassword user password s = Ret r s'
    /\ calls s' = (calls s ++ [passwordRequest d user password])%list
    /\ db s' = db s
    /\ semaphore s' = semaphore s
    /\ Transport (httpClient s') = Transport (httpClient s)
    /\ match Transport (httpClient s) (calls s)
               (passwordRequest d user password) with
       | DoError e => r = (None, Some e)
       | DoResponse resp =>
           (StatusCode resp = 401 -> r = (None, Some ErrNoAuth))
           /\ (StatusCode resp = 200 ->
               match RespBody resp with
               | BodyReadError e => r = (None, Some e)
               | BodyBadJSON e => r = (None, Some e)
               | BodyJSON u dm =>
                   r = (Some {| name := u; domain := dm; password := "";
                                creds_db := d |}, None)
               end)
           /\ (StatusCode resp <> 200 -> exists e, r = (None, Some e))
       end
    /\ match r with
       | (Some rv, None) =>
           if cachedDomain (domain rv)
           then authCached (authKey d user password) s'
                = Some {| id_user := name rv; id_domain := domain rv |}
           else forall key, authCached key s' = authCached key s
       | _ => forall key, authCached key s' = authCached key s
       end.
Proof.
  intros Hdb Hspecial Hmiss Hurl Hfree Hreq.
  set (key := authKey d user password) in *.
  set (c0 := match authCache s with
             | Some c => c
             | None => NewLRUCache userPassword userIdentity 256
             end).
  assert (Hpeek : forall k, LRU_peek k c0 = authCached k s).
  { intros k. unfold c0, authCached. destruct (authCache s); reflexivity. }
  assert (Honce : exists s1, authCacheOnce_Do s = Ret tt s1
                    /\ authCache s1 = Some c0
                    /\ set_authCache (Some c0) s1 = set_authCache (Some c0) s).
  { unfold authCacheOnce_Do, c0. destruct (authCache s) as [c|] eqn:Hc.
    - exists s. rewrite Hc. auto.
    - eexists. split; [reflexivity|]. split; reflexivity. }
  destruct Honce as (s1 & Honce & Hc1 & Hs1).
  destruct (verifyPasswordOnServer_run d user password
              (set_authCache (Some c0) s) Hdb Hurl Hfree Hreq)
    as (r & Hrun & Hr).
  change (calls (set_authCache (Some c0) s)) with (calls s) in Hr.
  change (httpClient (set_authCache (Some c0) s)) with (httpClient s) in Hr.
  unfold VerifyPassword. under_snapshot Hdb. rewrite Hspecial, Honce.
  change {| pw_version := authVersion d; pw_user := user;
            pw_password := password |} with key.
  unfold authCache_Get. cbv beta iota. rewrite Hc1.
  rewrite (LRU_Get_miss key c0) by (rewrite Hpeek; exact Hmiss).
  rewrite Hs1, Hrun.
  assert (Hsame : forall k,
             authCached k (called (passwordRequest d user password)
                             (set_authCache (Some c0) s))
             = authCached k s)
    by (intros k; unfold authCached; simpl; apply Hpeek).
  assert (Hshape : (exists e, r = (None, Some e))
                   \/ (exists rv, r = (Some rv, None))).
  { destruct (Transport _ _ _) as [e|resp]; [left; eauto|].
    destruct Hr as (H401 & H200 & Hother).
    destruct (Z.eq_dec (StatusCode resp) 200) as [Heq|Hne].
    - specialize (H200 Heq). destruct (RespBody resp); eauto.
    - left. apply Hother, Hne. }
  destruct Hshape as [(e & ->)|(rv & ->)].
  - eexists _, _. split; [reflexivity|]. do 4 (split; [reflexivity|]).
    split; [exact Hr|exact Hsame].
  - unfold authCache_Set. fold (cachedDomain (domain rv)).
    destruct (cachedDomain (domain rv)) eqn:Hdom.
    + eexists _, _. simpl. split; [reflexivity|].
      do 4 (split; [reflexivity|]). split; [exact Hr|].
      rewrite Hdom. unfold authCached. simpl. apply LRU_peek_Set_same.
    + eexists _, _. simpl. split; [reflexivity|].
      do 4 (split; [reflexivity|]). split; [exact Hr|].
      rewrite Hdom. exact Hsame.
Qed.

Lemma VerifyPassword_refused `{GoStd} (s : Svc) (d : credsDB)
  (user password : string) :
  db s = Some d ->
  verifySpecialCreds d user password = false ->
  authCached (authKey d user password) s = None ->
  authCheckURL d <> "" ->
  (semaphore s < semaphoreCap)%nat ->
  http_NewRequest_error "POST" (authCheckURL d) = None ->
  (exists resp, Transport (httpClient s) (calls s)
                  (passwordRequest d user password) = DoResponse resp
                /\ StatusCode resp = 401) ->
  exists s' : Svc,
    VerifyPassword user password s = Ret (None, Some ErrNoAuth) s'
    /\ calls s' = (calls s ++ [passwordRequest d user password])%list
    /\ db s' = db s
    /\ semaphore s' = semaphore s
    /\ Transport (httpClient s') = Transport (httpClient s)
    /\ forall key, authCached key s' = authCached key s.
Proof.
  intros Hdb Hspecial Hmiss Hurl Hfree Hreq (resp & Hresp & H401).
  destruct (VerifyPassword_miss s d user password
              Hdb Hspecial Hmiss Hurl Hfree Hreq)
    as (r & s' & Hrun & Hcalls & Hdb' & Hsem' & Htr' & Hr & Hcache).
  rewrite Hresp in Hr. destruct Hr as (Hr & _). specialize (Hr H401).
  subst r. exists s'. repeat split; assumption.
Qed.

Lemma verifyAgain_refused `{GoStd} (d : credsDB) (user password : string)
  (n : nat) :
  verifySpecialCreds d user password = false ->
  authCheckURL d <> "" ->
  http_NewRequest_error "POST" (authCheckURL d) = None ->
  forall s : Svc,
    db s = Some d ->
    authCached (authKey d user password) s = None ->
    (semaphore s < semaphoreCap)%nat ->
    (forall h q, exists resp,
        Transport (httpClient s) h q = DoResponse resp
        /\ StatusCode resp = 401) ->
    exists sn : Svc,
      verifyAgain n user password s = Some sn
      /\ calls sn
         = (calls s ++ repeat (passwordRequest d user password) n)%list
      /\ forall key, authCached key sn = authCached key s.
Proof.
  intros Hspecial Hurl Hreq.
  induction n as [|n IH]; intros s Hdb Hmiss Hfree Hall.
  - exists s. simpl. rewrite app_nil_r. auto.
  - destruct (VerifyPassword_refused s d user password
                Hdb Hspecial Hmiss Hurl Hfree Hreq (Hall _ _))
      as (s' & Hrun & Hcalls & Hdb' & Hsem' & Htr' & Hcache).
    destruct (IH s') as (sn & Hagain & Hcallsn & Hcachen).
    + rewrite Hdb'. exact Hdb.
    + rewrite Hcache. exact Hmiss.
    + rewrite Hsem'. exact Hfree.
    + rewrite Htr'. exact Hall.
    + exists sn. simpl. rewrite Hrun. split; [exact Hagain|]. split.
      * rewrite Hcallsn, Hcalls, <- app_assoc. reflexivity.
      * intros key. rewrite Hcachen. apply Hcache.
Qed.

(** C5.  Under a current snapshot with an auth-check URL, for credentials
    that are not the special ones and miss the auth cache (a free slot of
    the semaphore, a URL that [http.NewRequest] accepts),
    [VerifyPassword] makes one outbound call, a POST to the auth-check
    URL carrying the given user and password.
    - When the authority answers 200 with a user and a domain, that
      identity is returned, and it is stored in the cache when the domain
      is "admin" or "local" and not otherwise; the cache holds an entry
      under the key afterwards only in that case.
    - When the authority answers 401, [ErrNoAuth] is returned, the cache
      holds what it held, and repeating the call makes an outbound call
      again.
    - While the authority answers 401 to everything, each of any number
      of repetitions makes its own outbound call. *)
Theorem C5_password_cache_admin_local_only `{GoStd} (s : Svc) (d : credsDB)
  (user password : string) :
  db s = Some d ->
  verifySpecialCreds d user password = false ->
  authCached (authKey d user password) s = None ->
  authCheckURL d <> "" ->
  (semaphore s < semaphoreCap)%nat ->
  http_NewRequest_error "POST" (authCheckURL d) = None ->
  (exists (r : option CredsImpl * option error) (s' : Svc),
     VerifyPassword user password s = Ret r s'
     /\ calls s' = (calls s ++ [passwordRequest d user password])%list
     /\ Header_Get "Authorization" (Hdr (passwordRequest d user password))
        = HBasic user password
     /\ (forall (resp : Response) (u dm : string),
           Transport (httpClient s) (calls s) (passwordRequest d user password)
           = DoResponse resp ->
           StatusCode resp = 200 ->
           RespBody resp = BodyJSON u dm ->
           r = (Some {| name := u; domain := dm; password := "";
                        creds_db := d |}, None)
           /\ (dm = "admin" \/ dm = "local" ->
               authCached (authKey d user password) s'
               = Some {| id_user := u; id_domain := dm |})
           /\ (dm <> "admin" -> dm <> "local" ->
               forall key, authCached key s' = authCached key s))
     /\ (forall ident : userIdentity,
           authCached (authKey d user password) s' = Some ident ->
           exists rv : CredsImpl,
             r = (Some rv, None)
             /\ (domain rv = "admin" \/ domain rv = "local")
             /\ ident = {| id_user := name rv; id_domain := domain rv |})
     /\ (forall resp : Response,
           Transport (httpClient s) (calls s) (passwordRequest d user password)
           = DoResponse resp ->
           StatusCode resp = 401 ->
           r = (None, Some ErrNoAuth)
           /\ (forall key, authCached key s' = authCached key s)
           /\ exists (r2 : option CredsImpl * option error) (s2 : Svc),
                VerifyPassword user password s' = Ret r2 s2
                /\ calls s2
                   = (calls s' ++ [passwordRequest d user password])%list))
  /\ ((forall h q, exists resp : Response,
         Transport (httpClient s) h q = DoResponse resp
         /\ StatusCode resp = 401) ->
      forall n : nat,
      exists sn : Svc,
        verifyAgain n user password s = Some sn
        /\ calls sn
           = (calls s ++ repeat (passwordRequest d user password) n)%list
        /\ forall key, authCached key sn = authCached key s).
Proof.
  intros Hdb Hspecial Hmiss Hurl Hfree Hreq. split.
  - destruct (VerifyPassword_miss s d user password
                Hdb Hspecial Hmiss Hurl Hfree Hreq)
      as (r & s' & Hrun & Hcalls & Hdb' & Hsem' & Htr' & Hr & Hcache).
    exists r, s'. split; [exact Hrun|]. split; [exact Hcalls|].
    split; [reflexivity|]. split; [|split].
    + intros resp u dm Hresp H200 Hbody.
      rewrite Hresp in Hr. destruct Hr as (_ & Hr & _).
      specialize (Hr H200). rewrite Hbody in Hr. subst r.
      split; [reflexivity|]. simpl in Hcache. unfold cachedDomain in Hcache.
      split.
      * intros Hdom.
        rewrite (proj2 (orb_true_iff _ _)) in Hcache; [exact Hcache|].
        rewrite !bool_decide_eq_true. exact Hdom.
      * intros Hna Hnl.
        rewrite (proj2 (orb_false_iff _ _)) in Hcache; [exact Hcache|].
        rewrite !bool_decide_eq_false. split; assumption.
    + intros ident Hident.
      destruct r as [[rv|] [e|]];
        try (rewrite Hcache, Hmiss in Hident; discriminate).
      destruct (cachedDomain (domain rv)) eqn:Hdom;
        [|rewrite Hcache, Hmiss in Hident; discriminate].
      exists rv. split; [reflexivity|]. split.
      * unfold cachedDomain in Hdom. apply orb_true_iff in Hdom.
        rewrite !bool_decide_eq_true in Hdom. exact Hdom.
      * rewrite Hcache in Hident. injection Hident as <-. reflexivity.
    + intros resp Hresp H401.
      rewrite Hresp in Hr. destruct Hr as (Hr & _). specialize (Hr H401).
      subst r. split; [reflexivity|]. split; [exact Hcache|].
      assert (Hmiss' : authCached (authKey d user password) s' = None)
        by (rewrite Hcache; exact Hmiss).
      rewrite Hdb in Hdb'. rewrite <- Hsem' in Hfree.
      destruct (VerifyPassword_miss s' d user password
                  Hdb' Hspecial Hmiss' Hurl Hfree Hreq)
        as (r2 & s2 & Hrun2 & Hcalls2 & _).
      exists r2, s2. split; assumption.
  - intros Hall n.
    apply (verifyAgain_refused d user password n Hspecial Hurl Hreq s
             Hdb Hmiss Hfree Hall).
Qed.

Lemma C5_password_cache_admin_local_only_witness :
  (exists s' : Svc,
     @VerifyPassword Example.std "Administrator" "asdasd"
       (Scenario.fresh "disable")
     = Ret (Some {| name := "Administrator"; domain := "admin";
                    password := "";
                    creds_db := Scenario.snapshot "disable" |}, None) s'
     /\ calls s'
        = [passwordRequest (Scenario.snapshot "disable") "Administrator"
             "asdasd"]
     /\ authCached (authKey (Scenario.snapshot "disable") "Administrator"
                      "asdasd") s'
        = Some {| id_user := "Administrator"; id_domain := "admin" |})
  /\ (exists s' : Svc,
        @VerifyPassword Example.std "Administrator" "wrong"
          (Scenario.fresh "disable")
        = Ret (None, Some ErrNoAuth) s'
        /\ (forall key, authCached key s'
                        = authCached key (Scenario.fresh "disable"))
        /\ exists (r2 : option CredsImpl * option error) (s2 : Svc),
             @VerifyPassword Example.std "Administrator" "wrong" s'
             = Ret r2 s2
             /\ calls s2
                = (calls s'
                   ++ [passwordRequest (Scenario.snapshot "disable")
                         "Administrator" "wrong"])%list)
  /\ (exists s3 : Svc,
        @verifyAgain Example.std 3 "Administrator" "wrong" Scenario.refused
        = Some s3
        /\ calls s3
           = repeat (passwordRequest (Scenario.snapshot "disable")
                       "Administrator" "wrong") 3).
Proof.
  split; [|split].
  - destruct (proj1 (@C5_password_cache_admin_local_only Example.std
                       (Scenario.fresh "disable") (Scenario.snapshot "disable")
                       "Administrator" "asdasd"
                       eq_refl eq_refl eq_refl ltac:(discriminate)
                       ltac:(vm_compute; lia) eq_refl))
      as (r & s' & Hrun & Hcalls & _ & H200 & _).
    destruct (H200 _ "Administrator" "admin" eq_refl eq_refl eq_refl)
      as (-> & Hcached & _).
    exists s'. split; [exact Hrun|]. split; [exact Hcalls|].
    apply Hcached. left. reflexivity.
  - destruct (proj1 (@C5_password_cache_admin_local_only Example.std
                       (Scenario.fresh "disable") (Scenario.snapshot "disable")
                       "Administrator" "wrong"
                       eq_refl eq_refl eq_refl ltac:(discriminate)
                       ltac:(vm_compute; lia) eq_refl))
      as (r & s' & Hrun & Hcalls & _ & _ & _ & H401).
    destruct (H401 _ eq_refl eq_refl) as (-> & Hsame & Hagain).
    exists s'. split; [exact Hrun|]. split; [exact Hsame|exact Hagain].
  - destruct (proj2 (@C5_password_cache_admin_local_only Example.std
                       Scenario.refused (Scenario.snapshot "disable")
                       "Administrator" "wrong"
                       eq_refl eq_refl eq_refl ltac:(discriminate)
                       ltac:(vm_compute; lia) eq_refl)
                (fun _ _ => ex_intro _ _ (conj eq_refl eq_refl)) 3%nat)
      as (s3 & Hagain & Hcalls & _).
    exists s3. split; [exact Hagain|exact Hcalls].
Defined.

(** * Further properties *)

(** ** What an operation leaves alone *)

Section Preservation.
Context `{GoStd}.

Lemma keepsService_refl (s : Svc) : keepsService s s.
Proof. repeat split. Qed.

Lemma keepsService_trans (s1 s2 s3 : Svc) :
  keepsService s1 s2 -> keepsService s2 s3 -> keepsService s1 s3.
Proof.
  unfold keepsService. intros (?&?&?&?&?&?) (?&?&?&?&?&?).
  repeat split; congruence.
Qed.

Lemma preserves_ret {A : Type} (k : nat) (a : A) : preserves k (ret a).
Proof.
  intros s a' s' Hrun. injection Hrun as <- <-.
  split; [apply keepsService_refl|]. exists []. rewrite app_nil_r.
  split; [reflexivity|simpl; lia].
Qed.

Lemma preserves_panic {A : Type} (k : nat) (msg : string) :
  preserves k (@panic A msg).
Proof. intros s a s' Hrun. discriminate. Qed.

Lemma preserves_bind {A B : Type} (k1 k2 : nat) (m : M A) (f : A -> M B) :
  preserves k1 m -> (forall a, preserves k2 (f a)) ->
  preserves (k1 + k2) (bind m f).
Proof.
  intros Hm Hf s b s' Hrun. unfold bind in Hrun.
  destruct (m s) as [a s1| |] eqn:Hms; try discriminate.
  destruct (Hm s a s1 Hms) as (Hk1 & e1 & Hc1 & Hl1).
  destruct (Hf a s1 b s' Hrun) as (Hk2 & e2 & Hc2 & Hl2).
  split; [eapply keepsService_trans; eassumption|].
  exists (e1 ++ e2)%list. rewrite Hc2, Hc1, <- app_assoc.
  split; [reflexivity|]. rewrite List.length_app. lia.
Qed.

Lemma preserves_weaken {A : Type} (k k' : nat) (m : M A) :
  (k <= k')%nat -> preserves k m -> preserves k' m.
Proof.
  intros Hle Hm s a s' Hrun.
  destruct (Hm s a s' Hrun) as (Hk & e & Hc & Hl).
  split; [exact Hk|]. exists e. split; [exact Hc|lia].
Qed.

(** A step that only rewrites one of the caches. *)
Lemma preserves_quiet {A : Type} (m : M A) :
  (forall s a s', m s = Ret a s' ->
     keepsService s s' /\ calls s' = calls s) ->
  preserves 0 m.
Proof.
  intros Hm s a s' Hrun. destruct (Hm s a s' Hrun) as (Hk & Hc).
  split; [exact Hk|]. exists []. rewrite app_nil_r. split; [exact Hc|simpl; lia].
Qed.

Lemma preserves_fetchDB : preserves 0 fetchDB.
Proof.
  apply preserves_quiet. intros s a s'. unfold fetchDB.
  destruct (db s); [|destruct (freshChan s)]; intros Hrun;
    try discriminate; injection Hrun as <- <-;
    (split; [apply keepsService_refl|reflexivity]).
Qed.

Lemma preserves_staleError : preserves 0 staleError.
Proof.
  apply preserves_quiet. intros s a s'. unfold staleError.
  destruct (staleErr s); intros Hrun; try discriminate.
  injection Hrun as <- <-. split; [apply keepsService_refl|reflexivity].
Qed.

Lemma preserves_gets {A : Type} (f : Svc -> A) : preserves 0 (gets f).
Proof.
  apply preserves_quiet. intros s a s' Hrun. injection Hrun as <- <-.
  split; [apply keepsService_refl|reflexivity].
Qed.

Ltac cache_step field :=
  apply preserves_quiet; intros s a s' Hrun;
  destruct (field s) as [c|] eqn:Hc; try discriminate;
  repeat match type of Hrun with
         | context [LRU_Get ?k ?c] => destruct (LRU_Get k c)
         end;
  injection Hrun as <- <-; (split; [repeat split|reflexivity]).

Lemma preserves_upCacheOnce_Do : preserves 0 upCacheOnce_Do.
Proof. unfold upCacheOnce_Do. cache_step upCache. Qed.

Lemma preserves_upCache_Get key : preserves 0 (upCache_Get key).
Proof. unfold upCache_Get. cache_step upCache. Qed.

Lemma preserves_upCache_Set key v : preserves 0 (upCache_Set key v).
Proof. unfold upCache_Set. cache_step upCache. Qed.

Lemma preserves_authCacheOnce_Do : preserves 0 authCacheOnce_Do.
Proof. unfold authCacheOnce_Do. cache_step authCache. Qed.

Lemma preserves_authCache_Get key : preserves 0 (authCache_Get key).
Proof. unfold authCache_Get. cache_step authCache. Qed.

Lemma preserves_authCache_Set key v : preserves 0 (authCache_Set key v).
Proof. unfold authCache_Set. cache_step authCache. Qed.

Lemma preserves_clientCertCacheOnce_Do : preserves 0 clientCertCacheOnce_Do.
Proof. unfold clientCertCacheOnce_Do. cache_step clientCertCache. Qed.

Lemma preserves_clientCertCache_Get key : preserves 0 (clientCertCache_Get key).
Proof. unfold clientCertCache_Get. cache_step clientCertCache. Qed.

Lemma preserves_clientCertCache_Set key v :
  preserves 0 (clientCertCache_Set key v).
Proof. unfold clientCertCache_Set. cache_step clientCertCache. Qed.

Lemma preserves_Do (req : Request) : preserves 1 (Do req).
Proof.
  intros s a s' Hrun. unfold Do, Client_Do in Hrun. injection Hrun as <- <-.
  split; [repeat split|]. exists [req]. split; [reflexivity|simpl; lia].
Qed.

(** The semaphore is given back on every path that returns. *)
Lemma preserves_throttled {A : Type} (k : nat) (body : M A) :
  preserves k body -> preserves k (throttled body).
Proof.
  intros Hbody s a s' Hrun.
  unfold throttled, bind, semaphore_wait in Hrun.
  destruct (Nat.ltb (semaphore s) semaphoreCap); [|discriminate].
  destruct (body (set_semaphore (S (semaphore s)) s)) as [r s2| |] eqn:Hb;
    try discriminate.
  destruct (Hbody _ _ _ Hb) as ((Hdb & Hse & Hfc & Hsem & Htn & Htr) & e & Hc & Hl).
  unfold semaphore_signal in Hrun. rewrite Hsem in Hrun. simpl in Hrun.
  injection Hrun as <- <-.
  split; [repeat split; assumption|]. exists e. split; assumption.
Qed.

Ltac leaf := solve [apply preserves_ret | apply preserves_panic].

Lemma preserves_executeReqAndGetCreds d req :
  preserves 1 (executeReqAndGetCreds d req).
Proof.
  unfold executeReqAndGetCreds.
  apply (preserves_bind 1 0); [apply preserves_Do|].
  intros [e|r]; [leaf|].
  destruct (Z.eqb _ _); [leaf|]. destruct (negb _); [leaf|].
  destruct (RespBody r); leaf.
Qed.

Lemma preserves_VerifyOnServer reqHeaders :
  preserves 1 (VerifyOnServer reqHeaders).
Proof.
  unfold VerifyOnServer.
  apply (preserves_bind 0 1); [apply preserves_fetchDB|].
  intros [d|].
  - apply (preserves_bind 0 1); [apply preserves_gets|].
    intros [d'|]; [|leaf]. destruct (bool_decide _); [leaf|].
    apply preserves_throttled. destruct (NewRequest _ _ _) as [rq|err]; [|leaf].
    apply preserves_executeReqAndGetCreds.
  - apply (preserves_bind 0 1); [apply preserves_staleError|]. intros e. leaf.
Qed.

Lemma preserves_verifyPasswordOnServer user password :
  preserves 1 (verifyPasswordOnServer user password).
Proof.
  unfold verifyPasswordOnServer. destruct (NewRequest _ _ _) as [rq|err]; [|leaf].
  apply preserves_VerifyOnServer.
Qed.

Lemma preserves_checkPermissionOnServer d user domain permission :
  preserves 1 (checkPermissionOnServer d user domain permission).
Proof.
  unfold checkPermissionOnServer. apply preserves_throttled.
  destruct (NewRequest _ _ _) as [rq|err]; [|leaf].
  apply (preserves_bind 1 0); [apply preserves_Do|].
  intros [e|r]; [leaf|].
  destruct (Z.eqb _ _); [leaf|]. destruct (Z.eqb _ _); leaf.
Qed.

Lemma preserves_checkPermission user domain permission :
  preserves 1 (checkPermission user domain permission).
Proof.
  unfold checkPermission.
  apply (preserves_bind 0 1); [apply preserves_fetchDB|].
  intros [d|].
  - apply (preserves_bind 0 1); [apply preserves_upCacheOnce_Do|]. intros _.
    apply (preserves_bind 0 1); [apply preserves_upCache_Get|].
    intros [a|]; [leaf|].
    apply (preserves_bind 1 0); [apply preserves_checkPermissionOnServer|].
    intros [allowed [e|]]; [leaf|].
    apply (preserves_bind 0 0); [apply preserves_upCache_Set|]. intros _. leaf.
  - apply (preserves_bind 0 1); [apply preserves_staleError|]. intros e. leaf.
Qed.

Lemma preserves_VerifyPassword user password :
  preserves 1 (VerifyPassword user password).
Proof.
  unfold VerifyPassword.
  apply (preserves_bind 0 1); [apply preserves_fetchDB|].
  intros [d|].
  - destruct (verifySpecialCreds _ _ _); [leaf|].
    apply (preserves_bind 0 1); [apply preserves_authCacheOnce_Do|]. intros _.
    apply (preserves_bind 0 1); [apply preserves_authCache_Get|].
    intros [ident|]; [leaf|].
    apply (preserves_bind 1 0); [apply preserves_verifyPasswordOnServer|].
    intros [[rv|] [e|]]; try leaf.
    apply (preserves_bind 0 0); [|intros _; leaf].
    destruct (_ || _); [apply preserves_authCache_Set|leaf].
  - apply (preserves_bind 0 1); [apply preserves_staleError|]. intros e. leaf.
Qed.

Lemma preserves_GetCreds host port : preserves 0 (GetCreds host port).
Proof.
  unfold GetCreds.
  apply (preserves_bind 0 0); [apply preserves_fetchDB|].
  intros [d|]; [leaf|].
  apply (preserves_bind 0 0); [apply preserves_staleError|]. intros e. leaf.
Qed.

Lemma preserves_GetClientCertAuthType : preserves 0 GetClientCertAuthType.
Proof.
  unfold GetClientCertAuthType.
  apply (preserves_bind 0 0); [apply preserves_fetchDB|].
  intros [d|]; [leaf|].
  apply (preserves_bind 0 0); [apply preserves_staleError|]. intros e. leaf.
Qed.

Lemma preserves_GetTLSConfig : preserves 0 GetTLSConfig.
Proof.
  unfold GetTLSConfig.
  apply (preserves_bind 0 0); [apply preserves_fetchDB|].
  intros [d|]; [leaf|].
  apply (preserves_bind 0 0); [apply preserves_staleError|]. intros e. leaf.
Qed.

Lemma preserves_getUserIdentityFromCert cert d :
  preserves 1 (getUserIdentityFromCert cert d).
Proof.
  unfold getUserIdentityFromCert. destruct (bool_decide _); [leaf|].
  apply preserves_throttled. destruct (NewRequest _ _ _) as [rq|err]; [|leaf].
  apply preserves_executeReqAndGetCreds.
Qed.

Lemma preserves_MaybeGetCredsFromCert req :
  preserves 1 (MaybeGetCredsFromCert req).
Proof.
  unfold MaybeGetCredsFromCert.
  apply (preserves_bind 0 1); [apply preserves_fetchDB|].
  intros [d|].
  - destruct (TLS req) as [tls|]; [|leaf].
    apply (preserves_bind 0 1); [apply preserves_clientCertCacheOnce_Do|].
    intros _. destruct (_ || _); [leaf|]. destruct (_ && _); [leaf|].
    destruct (PeerCertificates tls) as [|cert certs]; [leaf|].
    apply (preserves_bind 0 1); [apply preserves_clientCertCache_Get|].
    intros [ui|]; [leaf|].
    apply (preserves_bind 1 0); [apply preserves_getUserIdentityFromCert|].
    intros [[creds|] e]; simpl; [|leaf].
    apply (preserves_bind 0 0); [apply preserves_clientCertCache_Set|].
    intros _. leaf.
  - apply (preserves_bind 0 1); [apply preserves_staleError|]. intros e. leaf.
Qed.

Lemma preserves_run_op (o : op) : preserves 1 (run_op o).
Proof.
  destruct o; unfold run_op.
  - apply (preserves_bind 1 0); [apply preserves_VerifyPassword|]. intros r. leaf.
  - apply (preserves_bind 1 0); [apply preserves_VerifyOnServer|]. intros r. leaf.
  - apply (preserves_bind 1 0); [apply preserves_checkPermission|]. intros r. leaf.
  - apply (preserves_bind 1 0); [apply preserves_MaybeGetCredsFromCert|].
    intros r. leaf.
  - apply (preserves_bind 0 1); [apply preserves_GetCreds|]. intros r. leaf.
  - apply (preserves_bind 0 1); [apply preserves_GetClientCertAuthType|].
    intros r. leaf.
  - apply (preserves_bind 0 1); [apply preserves_GetTLSConfig|]. intros r. leaf.
Qed.
End Preservation.

(** X1.  A verification operation that returns has not touched the
    snapshot, the stale error, the wait handle, the notifier or the
    transport; it has given back the semaphore slot it took; and it has
    made no outbound call or exactly one. *)
Theorem X1_operations_keep_service `{GoStd} (o : op) (s s' : Svc)
  (a : answer) :
  run_op o s = Ret a s' ->
  db s' = db s
  /\ staleErr s' = staleErr s
  /\ freshChan s' = freshChan s
  /\ semaphore s' = semaphore s
  /\ tlsNotifier_ s' = tlsNotifier_ s
  /\ Transport (httpClient s') = Transport (httpClient s)
  /\ (calls s' = calls s
      \/ exists req : Request, calls s' = (calls s ++ [req])%list).
Proof.
  intros Hrun.
  destruct (preserves_run_op o s a s' Hrun)
    as ((Hdb & Hse & Hfc & Hsem & Htn & Htr) & extra & Hcalls & Hlen).
  repeat (split; [assumption|]).
  destruct extra as [|req [|req' extra]]; simpl in Hlen.
  - left. rewrite Hcalls, app_nil_r. reflexivity.
  - right. exists req. exact Hcalls.
  - lia.
Qed.

Lemma X1_operations_keep_service_witness :
  db (Scenario.after
        (@run_op Example.std
           (OpCheckPermission "Administrator" "admin" "cluster.admin.settings!write"))
        (Scenario.fresh "disable"))
  = db (Scenario.fresh "disable")
  /\ semaphore (Scenario.after
        (@run_op Example.std
           (OpCheckPermission "Administrator" "admin" "cluster.admin.settings!write"))
        (Scenario.fresh "disable"))
     = semaphore (Scenario.fresh "disable").
Proof.
  destruct (@X1_operations_keep_service Example.std
              (OpCheckPermission "Administrator" "admin"
                 "cluster.admin.settings!write")
              (Scenario.fresh "disable")
              (Scenario.after
                 (@run_op Example.std
                    (OpCheckPermission "Administrator" "admin"
                       "cluster.admin.settings!write"))
                 (Scenario.fresh "disable"))
              (AAllowed (true, None)) eq_refl)
    as (Hdb & _ & _ & Hsem & _).
  split; assumption.
Defined.

(** ** The staleness state machine *)

Lemma updateDBLocked_freshChan (d : option credsDB) (s : Svc) :
  freshChan (updateDBLocked d s) = false.
Proof.
  unfold updateDBLocked. simpl. destruct (freshChan s) eqn:Hfc; simpl;
    [reflexivity|exact Hfc].
Qed.

Lemma updateDBLocked_rest (d : option credsDB) (s : Svc) :
  staleErr (updateDBLocked d s) = staleErr s
  /\ semaphore (updateDBLocked d s) = semaphore s
  /\ upCache (updateDBLocked d s) = upCache s
  /\ authCache (updateDBLocked d s) = authCache s
  /\ clientCertCache (updateDBLocked d s) = clientCertCache s
  /\ httpClient (updateDBLocked d s) = httpClient s.
Proof.
  unfold updateDBLocked. simpl. destruct (freshChan s); repeat split.
Qed.

Lemma graceTimeout_state (s : Svc) :
  db (graceTimeout s) = db s
  /\ staleErr (graceTimeout s) = staleErr s
  /\ freshChan (graceTimeout s) = false
  /\ semaphore (graceTimeout s) = semaphore s.
Proof.
  unfold graceTimeout. destruct (freshChan s) eqn:Hfc; repeat split;
    assumption.
Qed.

Lemma fire_state `{GoStd} (ev : event) (s s' : Svc) :
  fire ev s = Some s' ->
  db s' = snapshotAfter (db s) [ev]
  /\ staleErr s' = staleErrAfter (staleErr s) [ev]
  /\ freshChan s' = waitingAfter (freshChan s) [ev]
  /\ semaphore s' = semaphore s.
Proof.
  destruct ev as [o|c|e| |cb]; simpl.
  - destruct (run_op o s) as [a s1| |] eqn:Hrun; try discriminate.
    intros Hs. injection Hs as <-.
    destruct (preserves_run_op o s a s1 Hrun)
      as ((Hdb & Hse & Hfc & Hsem & _) & _).
    repeat split; assumption.
  - intros Hs. injection Hs as <-.
    destruct (needRefreshTLS s (cacheToCredsDB c)); simpl;
      rewrite updateDBLocked_db, updateDBLocked_freshChan;
      destruct (updateDBLocked_rest (Some (cacheToCredsDB c)) s)
        as (Hse & Hsem & _);
      repeat split; assumption.
  - intros Hs. injection Hs as <-.
    rewrite updateDBLocked_db, updateDBLocked_freshChan.
    destruct (updateDBLocked_rest None (set_staleErr (Some e) s))
      as (Hse & Hsem & _).
    repeat split; assumption.
  - intros Hs. injection Hs as <-.
    destruct (graceTimeout_state s) as (Hdb & Hse & Hfc & Hsem).
    repeat split; assumption.
  - unfold RegisterTLSRefreshCallback.
    destruct (registerCallback cb (tlsNotifier_ s)) as [e n']. simpl.
    intros Hs. injection Hs as <-. repeat split.
Qed.

Lemma fireAll_state `{GoStd} (evs : list event) (s s' : Svc) :
  fireAll evs s = Some s' ->
  db s' = snapshotAfter (db s) evs
  /\ staleErr s' = staleErrAfter (staleErr s) evs
  /\ freshChan s' = waitingAfter (freshChan s) evs
  /\ semaphore s' = semaphore s.
Proof.
  revert s. induction evs as [|ev evs IH]; intros s; simpl.
  - intros Hs. injection Hs as <-. repeat split.
  - destruct (fire ev s) as [s1|] eqn:Hfire; [|discriminate].
    intros Hall. destruct (IH s1 Hall) as (Hdb & Hse & Hfc & Hsem).
    destruct (fire_state ev s s1 Hfire) as (Hdb1 & Hse1 & Hfc1 & Hsem1).
    rewrite Hdb, Hse, Hfc, Hsem, Hdb1, Hse1, Hfc1, Hsem1.
    destruct ev; repeat split.
Qed.

Lemma staleErrAfter_set (e : error) (evs : list event) :
  exists e' : error, staleErrAfter (Some e) evs = Some e'.
Proof.
  revert e. induction evs as [|ev evs IH]; intros e; simpl; [eauto|].
  destruct ev; apply IH.
Qed.

(** X2.  From a service built by [NewSVCForTest], after any history of
    pushes, resets, grace timeouts, registrations and completed
    operations: the snapshot is that of the last push unless a reset
    came after it; the stale error is that of the last reset, or the
    constructor's; the wait handle exists only while the period was
    nonzero and no push, reset or timeout has happened; no semaphore
    slot is held; and [staleError] returns instead of panicking. *)
Theorem X2_staleness_state_machine `{GoStd} (period : Z) (e : error)
  (rt : list Request -> Request -> DoResult) (evs : list event)
  (s0 s : Svc) :
  NewSVCForTest period (Some e) rt = inl s0 ->
  fireAll evs s0 = Some s ->
  db s = snapshotAfter None evs
  /\ staleErr s = staleErrAfter (Some e) evs
  /\ freshChan s = waitingAfter (negb (Z.eqb period 0)) evs
  /\ semaphore s = 0%nat
  /\ exists e' : error, staleError s = Ret e' s.
Proof.
  intros Hnew Hall. injection Hnew as <-.
  destruct (fireAll_state evs _ s Hall) as (Hdb & Hse & Hfc & Hsem).
  simpl in Hdb, Hse, Hfc, Hsem.
  repeat (split; [assumption|]).
  destruct (staleErrAfter_set e evs) as (e' & He').
  exists e'. unfold staleError. rewrite Hse, He'. reflexivity.
Qed.

Lemma X2_staleness_state_machine_witness :
  db (Scenario.after (ResetSvc (Some (Errorf "disconnected")))
        (Scenario.fresh "disable")) = None
  /\ staleErr (Scenario.after (ResetSvc (Some (Errorf "disconnected")))
                 (Scenario.fresh "disable"))
     = Some (Errorf "disconnected").
Proof.
  destruct (@X2_staleness_state_machine Example.std 0 Scenario.stale
              Scenario.authority
              [EvUpdateDB (Scenario.cache "v1" "disable");
               EvResetSvc (Errorf "disconnected")]
              Scenario.created
              (Scenario.after (ResetSvc (Some (Errorf "disconnected")))
                 (Scenario.fresh "disable"))
              eq_refl eq_refl)
    as (Hdb & Hse & _).
  split; assumption.
Defined.

Lemma run_op_waiting `{GoStd} (o : op) (s : Svc) :
  db s = None -> freshChan s = true -> run_op o s = Block.
Proof.
  intros Hdb Hfc.
  assert (Hfetch : fetchDB s = Block)
    by (unfold fetchDB; rewrite Hdb, Hfc; reflexivity).
  destruct o; unfold run_op, bind; simpl;
    [ unfold VerifyPassword | unfold VerifyOnServer | unfold checkPermission
    | unfold MaybeGetCredsFromCert | unfold GetCreds
    | unfold GetClientCertAuthType | unfold GetTLSConfig ];
    unfold bind; rewrite Hfetch; reflexivity.
Qed.

(** X3.  [NewSVCForTest] refuses a nil stale error.  A service built
    with a nonzero period has no snapshot and a wait handle: every
    operation on it blocks, making no call; once the grace timer has
    fired, every sequence of operations answers each call with the zero
    result and the constructor's error.  A service built with period
    zero answers that way at once. *)
Theorem X3_grace_period `{GoStd} (period : Z) (e : error)
  (rt : list Request -> Request -> DoResult) (s0 : Svc) (os : list op) :
  NewSVCForTest period (Some e) rt = inl s0 ->
  NewSVCForTest period None rt = inr "staleErr must be non-nil"
  /\ (period <> 0 -> forall o : op, run_op o s0 = Block)
  /\ (period = 0 -> run_ops os s0 = Ret (map (failsWith e) os) s0)
  /\ run_ops os (graceTimeout s0)
     = Ret (map (failsWith e) os) (graceTimeout s0).
Proof.
  intros Hnew. injection Hnew as <-. split; [reflexivity|].
  split; [|split].
  - intros Hp o. apply run_op_waiting; [reflexivity|]. simpl.
    apply negb_true_iff, Z.eqb_neq, Hp.
  - intros ->. apply run_ops_isStale. repeat split.
  - apply run_ops_isStale.
    destruct (graceTimeout_state
                {| db := None; staleErr := Some e;
                   freshChan := negb (Z.eqb period 0);
                   upCache := None; authCache := None;
                   clientCertCache := None;
                   httpClient := {| Transport := rt; sent := [] |};
                   semaphore := 0%nat; tlsNotifier_ := newTLSNotifier |})
      as (Hdb & Hse & Hfc & _).
    repeat split; assumption.
Qed.

Lemma X3_grace_period_witness :
  (forall o : op, @run_op Example.std o Cases.waiting = Block)
  /\ @run_ops Example.std [OpVerifyPassword "asd" "bsd"; OpGetTLSConfig]
       (graceTimeout Cases.waiting)
     = Ret [ACreds (None, Some Scenario.stale);
            ATLSConfig (TLSConfig_zero, Some Scenario.stale)]
         (graceTimeout Cases.waiting)
  /\ @run_ops Example.std [OpVerifyPassword "asd" "bsd"; OpGetTLSConfig]
       Scenario.created
     = Ret [ACreds (None, Some Scenario.stale);
            ATLSConfig (TLSConfig_zero, Some Scenario.stale)]
         Scenario.created.
Proof.
  split; [|split].
  - apply (proj1 (proj2 (@X3_grace_period Example.std 60000000000
                           Scenario.stale Scenario.authority Cases.waiting
                           [] eq_refl))).
    discriminate.
  - apply (proj2 (proj2 (proj2 (@X3_grace_period Example.std 60000000000
                                  Scenario.stale Scenario.authority
                                  Cases.waiting
                                  [OpVerifyPassword "asd" "bsd"; OpGetTLSConfig]
                                  eq_refl)))).
  - apply (proj1 (proj2 (proj2 (@X3_grace_period Example.std 0 Scenario.stale
                                  Scenario.authority Scenario.created
                                  [OpVerifyPassword "asd" "bsd"; OpGetTLSConfig]
                                  eq_refl)))).
    reflexivity.
Defined.

(** ** Client certificates *)

Lemma getUserIdentityFromCert_run `{GoStd} (d : credsDB) (cert : Certificate)
  (s : Svc) :
  authCheckURL d <> "" ->
  (semaphore s < semaphoreCap)%nat ->
  http_NewRequest_error "POST" (extractUserFromCertURL d) = None ->
  exists r : option CredsImpl * option error,
    getUserIdentityFromCert cert d s = Ret r (called (certRequest d cert) s)
    /\ match Transport (httpClient s) (calls s) (certRequest d cert) with
       | DoError e => r = (None, Some e)
       | DoResponse resp =>
           (StatusCode resp = 401 -> r = (None, Some ErrNoAuth))
           /\ (StatusCode resp = 200 ->
               match RespBody resp with
               | BodyReadError e => r = (None, Some e)
               | BodyBadJSON e => r = (None, Some e)
               | BodyJSON u dm =>
                   r = (Some {| name := u; domain := dm; password := "";
                                creds_db := d |}, None)
               end)
           /\ (StatusCode resp <> 200 -> exists e, r = (None, Some e))
       end.
Proof.
  intros Hurl Hfree Hreq. apply Nat.ltb_lt in Hfree.
  unfold getUserIdentityFromCert.
  rewrite bool_decide_eq_false_2 by exact Hurl.
  unfold throttled, bind, semaphore_wait, NewRequest. rewrite Hreq, Hfree.
  unfold executeReqAndGetCreds, bind, Do, Client_Do, calls.
  change (SetBasicAuth _ _ _) with (certRequest d cert).
  change (httpClient (set_semaphore _ s)) with (httpClient s).
  destruct (Transport (httpClient s) (sent (httpClient s))
              (certRequest d cert)) as [e|resp].
  - eexists. split; reflexivity.
  - destruct (Z.eqb_spec (StatusCode resp) 401) as [H401|H401].
    + eexists. split; [reflexivity|].
      repeat split; intros; try reflexivity; try lia. eexists. reflexivity.
    + destruct (Z.eqb_spec (StatusCode resp) 200) as [H200|H200]; simpl.
      * destruct (RespBody resp) as [e|e|u dm];
          (eexists; split; [reflexivity|]);
          (split; [intros; lia|split; [intros _; reflexivity|intros; lia]]).
      * eexists. split; [reflexivity|].
        split; [intros; lia|split; [intros; lia|]].
        intros _. eexists. reflexivity.
Qed.

(** The mode test of [MaybeGetCredsFromCert] lets a request with a
    certificate through unless the mode is "disable" or empty. *)
Lemma cert_mode_passes (state : string) (cert : Certificate)
  (rest : list Certificate) :
  state <> "disable" -> state <> "" ->
  bool_decide (state = "disable") || bool_decide (state = "") = false
  /\ bool_decide (state = "enable")
     && Nat.eqb (List.length (cert :: rest)) 0 = false.
Proof.
  intros Hd He. split.
  - rewrite !bool_decide_eq_false_2 by assumption. reflexivity.
  - simpl. apply andb_false_r.
Qed.

Lemma MaybeGetCredsFromCert_hit `{GoStd} (s : Svc) (d : credsDB)
  (req : InRequest) (tls : ConnectionState) (cert : Certificate)
  (rest : list Certificate) (ui : userIdentity) :
  db s = Some d ->
  TLS req = Some tls ->
  PeerCertificates tls = cert :: rest ->
  clientCertAuthState d <> "disable" ->
  clientCertAuthState d <> "" ->
  certCached (certKey d cert) s = Some ui ->
  exists s' : Svc,
    MaybeGetCredsFromCert req s
    = Ret (Some {| name := id_user ui; domain := id_domain ui;
                   password := ""; creds_db := d |}, None) s'
    /\ calls s' = calls s
    /\ forall key, certCached key s' = certCached key s.
Proof.
  intros Hdb Htls Hcerts Hd He Hhit. unfold certCached in Hhit.
  destruct (clientCertCache s) as [c|] eqn:Hc; [|discriminate].
  destruct (cert_mode_passes _ cert rest Hd He) as (Hm1 & Hm2).
  unfold MaybeGetCredsFromCert. under_snapshot Hdb.
  rewrite Htls. unfold clientCertCacheOnce_Do. rewrite Hc.
  cbv beta iota zeta. rewrite Hm1, Hcerts, Hm2.
  unfold clientCertCache_Get. rewrite Hc.
  change {| cch_hash := md5_Sum (Raw cert);
            cch_version := clientCertAuthVersion d |} with (certKey d cert).
  rewrite (LRU_Get_hit _ ui c Hhit).
  eexists. split; [reflexivity|]. split; [reflexivity|].
  intros key. unfold certCached. rewrite Hc. simpl.
  pose proof (LRU_peek_Get (certKey d cert) key c) as Hp.
  rewrite (LRU_Get_hit _ ui c Hhit) in Hp. exact Hp.
Qed.

Lemma MaybeGetCredsFromCert_miss `{GoStd} (s : Svc) (d : credsDB)
  (req : InRequest) (tls : ConnectionState) (cert : Certificate)
  (rest : list Certificate) :
  db s = Some d ->
  TLS req = Some tls ->
  PeerCertificates tls = cert :: rest ->
  clientCertAuthState d <> "disable" ->
  clientCertAuthState d <> "" ->
  certCached (certKey d cert) s = None ->
  authCheckURL d <> "" ->
  (semaphore s < semaphoreCap)%nat ->
  http_NewRequest_error "POST" (extractUserFromCertURL d) = None ->
  exists (r : option CredsImpl * option error) (s' : Svc),
    MaybeGetCredsFromCert req s = Ret r s'
    /\ calls s' = (calls s ++ [certRequest d cert])%list
    /\ db s' = db s
    /\ semaphore s' = semaphore s
    /\ Transport (httpClient s') = Transport (httpClient s)
    /\ ((exists (resp : Response) (u dm : string),
           Transport (httpClient s) (calls s) (certRequest d cert)
           = DoResponse resp
           /\ StatusCode resp = 200
           /\ RespBody resp = BodyJSON u dm
           /\ r = (Some {| name := u; domain := dm; password := "";
                           creds_db := d |}, None)
           /\ certCached (certKey d cert) s'
              = Some {| id_user := u; id_domain := dm |})
        \/ ((forall (resp : Response) (u dm : string),
               Transport (httpClient s) (calls s) (certRequest d cert)
               = DoResponse resp ->
               StatusCode resp = 200 ->
               RespBody resp <> BodyJSON u dm)
            /\ r = (None, Some ErrUserNotFound)
            /\ forall key, certCached key s' = certCached key s)).
Proof.
  intros Hdb Htls Hcerts Hd He Hmiss Hurl Hfree Hreq.
  set (key := certKey d cert) in *.
  set (c0 := match clientCertCache s with
             | Some c => c
             | None => NewLRUCache clienCertHash userIdentity 256
             end).
  assert (Hpeek : forall k, LRU_peek k c0 = certCached k s).
  { intros k. unfold c0, certCached. destruct (clientCertCache s); reflexivity. }
  assert (Honce : exists s1, clientCertCacheOnce_Do s = Ret tt s1
                    /\ clientCertCache s1 = Some c0
                    /\ set_clientCertCache (Some c0) s1
                       = set_clientCertCache (Some c0) s).
  { unfold clientCertCacheOnce_Do, c0.
    destruct (clientCertCache s) as [c|] eqn:Hc.
    - exists s. rewrite Hc. auto.
    - eexists. split; [reflexivity|]. split; reflexivity. }
  destruct Honce as (s1 & Honce & Hc1 & Hs1).
  destruct (getUserIdentityFromCert_run d cert
              (set_clientCertCache (Some c0) s) Hurl Hfree Hreq)
    as (r & Hrun & Hr).
  change (calls (set_clientCertCache (Some c0) s)) with (calls s) in Hr.
  change (httpClient (set_clientCertCache (Some c0) s))
    with (httpClient s) in Hr.
  destruct (cert_mode_passes _ cert rest Hd He) as (Hm1 & Hm2).
  unfold MaybeGetCredsFromCert. under_snapshot Hdb.
  rewrite Htls, Honce. cbv beta iota zeta. rewrite Hm1, Hcerts, Hm2.
  change {| cch_hash := md5_Sum (Raw cert);
            cch_version := clientCertAuthVersion d |} with key.
  unfold clientCertCache_Get. rewrite Hc1.
  rewrite (LRU_Get_miss key c0) by (rewrite Hpeek; exact Hmiss).
  rewrite Hs1, Hrun.
  assert (Hsame : forall k,
             certCached k (called (certRequest d cert)
                             (set_clientCertCache (Some c0) s))
             = certCached k s)
    by (intros k; unfold certCached; simpl; apply Hpeek).
  destruct r as [[creds|] e]; simpl.
  - (* an identity came back *)
    eexists _, _. unfold clientCertCache_Set. simpl.
    split; [reflexivity|]. do 4 (split; [reflexivity|]).
    left.
    destruct (Transport (httpClient s) (calls s) (certRequest d cert))
      as [e'|resp]; [discriminate|].
    destruct Hr as (H401 & H200 & Hother).
    destruct (Z.eq_dec (StatusCode resp) 200) as [Heq|Hne];
      [|destruct (Hother Hne); discriminate].
    specialize (H200 Heq).
    destruct (RespBody resp) as [e'|e'|u dm] eqn:Hbody; try discriminate.
    injection H200 as -> ->.
    exists resp, u, dm. repeat split; try assumption.
    unfold certCached. simpl. apply LRU_peek_Set_same.
  - eexists _, _. split; [reflexivity|]. do 4 (split; [reflexivity|]).
    right. split; [|split; [reflexivity|exact Hsame]].
    intros resp u dm Hresp H200 Hbody. rewrite Hresp in Hr.
    destruct Hr as (_ & Hr & _). specialize (Hr H200).
    rewrite Hbody in Hr. discriminate.
Qed.

(** X4.  Under a current snapshot whose mode is neither "disable" nor
    empty and whose auth-check URL is not empty, with a free slot of the
    semaphore and an extraction URL that [http.NewRequest] accepts, a TLS
    request whose leaf certificate misses the certificate cache makes
    exactly one outbound call, whatever the authority answers: a POST of
    the raw certificate to the extraction URL under the special
    credentials.  When the answer is status 200 with a user and a
    domain, that identity is returned and cached under (digest,
    client-cert-auth version) whatever the domain is, and the same
    request repeated is answered from the cache with no outbound call. *)
Theorem X4_cert_identity_cached `{GoStd} (s : Svc) (d : credsDB)
  (req : InRequest) (tls : ConnectionState) (cert : Certificate)
  (rest : list Certificate) :
  db s = Some d ->
  TLS req = Some tls ->
  PeerCertificates tls = cert :: rest ->
  clientCertAuthState d <> "disable" ->
  clientCertAuthState d <> "" ->
  certCached (certKey d cert) s = None ->
  authCheckURL d <> "" ->
  (semaphore s < semaphoreCap)%nat ->
  http_NewRequest_error "POST" (extractUserFromCertURL d) = None ->
  exists (out : Request) (r : option CredsImpl * option error) (s' : Svc),
    MaybeGetCredsFromCert req s = Ret r s'
    /\ calls s' = (calls s ++ [out])%list
    /\ Method out = "POST"
    /\ URL out = extractUserFromCertURL d
    /\ Body out = Some (Raw cert)
    /\ Header_Get "Authorization" (Hdr out)
       = HBasic (specialUser d) (specialPassword d)
    /\ forall (resp : Response) (u dm : string),
         Transport (httpClient s) (calls s) out = DoResponse resp ->
         StatusCode resp = 200 ->
         RespBody resp = BodyJSON u dm ->
         r = (Some {| name := u; domain := dm; password := "";
                      creds_db := d |}, None)
         /\ certCached (certKey d cert) s'
            = Some {| id_user := u; id_domain := dm |}
         /\ exists s2 : Svc,
              MaybeGetCredsFromCert req s'
              = Ret (Some {| name := u; domain := dm; password := "";
                             creds_db := d |}, None) s2
              /\ calls s2 = calls s'.
Proof.
  intros Hdb Htls Hcerts Hd He Hmiss Hurl Hfree Hreq.
  destruct (MaybeGetCredsFromCert_miss s d req tls cert rest
              Hdb Htls Hcerts Hd He Hmiss Hurl Hfree Hreq)
    as (r & s' & Hrun & Hcalls & Hdb' & _ & _ & Hcase).
  exists (certRequest d cert), r, s'.
  split; [exact Hrun|]. split; [exact Hcalls|].
  do 4 (split; [reflexivity|]).
  intros resp u dm Hresp H200 Hbody.
  destruct Hcase as [(resp' & u' & dm' & Hresp' & _ & Hbody' & Hr & Hcached)
                    |(Hnot & _)].
  - rewrite Hresp in Hresp'. injection Hresp' as <-.
    rewrite Hbody in Hbody'. injection Hbody' as <- <-.
    split; [exact Hr|]. split; [exact Hcached|].
    rewrite Hdb in Hdb'.
    destruct (MaybeGetCredsFromCert_hit s' d req tls cert rest _
                Hdb' Htls Hcerts Hd He Hcached) as (s2 & Hrun2 & Hcalls2 & _).
    exists s2. split; assumption.
  - exfalso. exact (Hnot resp u dm Hresp H200 Hbody).
Qed.

Lemma X4_cert_identity_cached_witness :
  exists s' : Svc,
    @MaybeGetCredsFromCert Example.std (Scenario.https [Scenario.leaf])
      Cases.withCerts
    = Ret (Some {| name := "jane"; domain := "external"; password := "";
                   creds_db := Scenario.snapshot "mandatory" |}, None) s'
    /\ List.length (calls s') = 1%nat
    /\ exists s2 : Svc,
         @MaybeGetCredsFromCert Example.std (Scenario.https [Scenario.leaf]) s'
         = Ret (Some {| name := "jane"; domain := "external"; password := "";
                        creds_db := Scenario.snapshot "mandatory" |}, None) s2
         /\ calls s2 = calls s'.
Proof.
  destruct (@X4_cert_identity_cached Example.std Cases.withCerts
              (Scenario.snapshot "mandatory") (Scenario.https [Scenario.leaf])
              {| PeerCertificates := [Scenario.leaf] |} Scenario.leaf []
              eq_refl eq_refl eq_refl ltac:(discriminate) ltac:(discriminate)
              eq_refl ltac:(discriminate) ltac:(vm_compute; lia) eq_refl)
    as (out & r & s' & Hrun & Hcalls & _ & Hurl & _ & _ & Hok).
  assert (Hans : Transport (httpClient Cases.withCerts) (calls Cases.withCerts)
                   out
                 = DoResponse {| StatusCode := 200; Status := "200 OK";
                                 RespBody := BodyJSON "jane" "external" |}).
  { change (Transport (httpClient Cases.withCerts) (calls Cases.withCerts) out)
      with (Cases.certAuthority [] out).
    unfold Cases.certAuthority. rewrite Hurl. reflexivity. }
  destruct (Hok _ "jane" "external" Hans eq_refl eq_refl)
    as (Hr & _ & Hagain).
  subst r. exists s'. split; [exact Hrun|].
  split; [rewrite Hcalls; reflexivity|exact Hagain].
Defined.

(** X5.  In the same situation, when the authority does not answer 200
    with a user and a domain (a transport error, status 401 or any other
    status, an unreadable or malformed body), the caller gets
    [ErrUserNotFound] whatever the failure was, nothing is cached, and
    the same request repeated makes an outbound call again. *)
Theorem X5_cert_failure_not_cached `{GoStd} (s : Svc) (d : credsDB)
  (req : InRequest) (tls : ConnectionState) (cert : Certificate)
  (rest : list Certificate) :
  db s = Some d ->
  TLS req = Some tls ->
  PeerCertificates tls = cert :: rest ->
  clientCertAuthState d <> "disable" ->
  clientCertAuthState d <> "" ->
  certCached (certKey d cert) s = None ->
  authCheckURL d <> "" ->
  (semaphore s < semaphoreCap)%nat ->
  http_NewRequest_error "POST" (extractUserFromCertURL d) = None ->
  (forall (resp : Response) (u dm : string),
     Transport (httpClient s) (calls s) (certRequest d cert) = DoResponse resp ->
     StatusCode resp = 200 -> RespBody resp <> BodyJSON u dm) ->
  exists s' : Svc,
    MaybeGetCredsFromCert req s = Ret (None, Some ErrUserNotFound) s'
    /\ calls s' = (calls s ++ [certRequest d cert])%list
    /\ (forall key, certCached key s' = certCached key s)
    /\ exists (r2 : option CredsImpl * option error) (s2 : Svc),
         MaybeGetCredsFromCert req s' = Ret r2 s2
         /\ calls s2 = (calls s' ++ [certRequest d cert])%list.
Proof.
  intros Hdb Htls Hcerts Hd He Hmiss Hurl Hfree Hreq Hfail.
  destruct (MaybeGetCredsFromCert_miss s d req tls cert rest
              Hdb Htls Hcerts Hd He Hmiss Hurl Hfree Hreq)
    as (r & s' & Hrun & Hcalls & Hdb' & Hsem' & _ & Hcase).
  destruct Hcase as [(resp & u & dm & Hresp & H200 & Hbody & _)
                    |(_ & -> & Hsame)].
  - exfalso. exact (Hfail resp u dm Hresp H200 Hbody).
  - exists s'. split; [exact Hrun|]. split; [exact Hcalls|].
    split; [exact Hsame|].
    rewrite Hdb in Hdb'. rewrite <- Hsem' in Hfree.
    assert (Hmiss' : certCached (certKey d cert) s' = None)
      by (rewrite Hsame; exact Hmiss).
    destruct (MaybeGetCredsFromCert_miss s' d req tls cert rest
                Hdb' Htls Hcerts Hd He Hmiss' Hurl Hfree Hreq)
      as (r2 & s2 & Hrun2 & Hcalls2 & _).
    exists r2, s2. split; assumption.
Qed.

Lemma X5_cert_failure_not_cached_witness :
  exists s' : Svc,
    @MaybeGetCredsFromCert Example.std (Scenario.https [Scenario.leaf])
      (Scenario.fresh "enable")
    = Ret (None, Some ErrUserNotFound) s'
    /\ calls s' = [certRequest (Scenario.snapshot "enable") Scenario.leaf]
    /\ forall key, certCached key s' = certCached key (Scenario.fresh "enable").
Proof.
  destruct (@X5_cert_failure_not_cached Example.std (Scenario.fresh "enable")
              (Scenario.snapshot "enable") (Scenario.https [Scenario.leaf])
              {| PeerCertificates := [Scenario.leaf] |} Scenario.leaf []
              eq_refl eq_refl eq_refl ltac:(discriminate) ltac:(discriminate)
              eq_refl ltac:(discriminate) ltac:(vm_compute; lia) eq_refl)
    as (s' & Hrun & Hcalls & Hsame & _).
  - intros resp u dm Hresp H200. vm_compute in Hresp.
    injection Hresp as <-. discriminate.
  - exists s'. split; [exact Hrun|]. split; [exact Hcalls|exact Hsame].
Defined.

(** ** Failures of the permission check *)

Lemma checkPermission_miss_failed `{GoStd} (s : Svc) (d : credsDB)
  (user domain permission : string) :
  db s = Some d ->
  upCached (permKey d user domain permission) s = None ->
  (semaphore s < semaphoreCap)%nat ->
  (forall e : error,
     http_NewRequest_error "GET" (permissionCheckURL d) = Some e ->
     exists s' : Svc,
       checkPermission user domain permission s = Ret (false, Some e) s'
       /\ calls s' = calls s
       /\ forall key, upCached key s' = upCached key s)
  /\ (http_NewRequest_error "GET" (permissionCheckURL d) = None ->
      (forall e : error,
         Transport (httpClient s) (calls s)
           (permissionRequest d user domain permission) = DoError e ->
         exists s' : Svc,
           checkPermission user domain permission s = Ret (false, Some e) s'
           /\ calls s'
              = (calls s ++ [permissionRequest d user domain permission])%list
           /\ db s' = db s /\ semaphore s' = semaphore s
           /\ forall key, upCached key s' = upCached key s)
      /\ (forall resp : Response,
            Transport (httpClient s) (calls s)
              (permissionRequest d user domain permission) = DoResponse resp ->
            StatusCode resp <> 200 -> StatusCode resp <> 401 ->
            exists s' : Svc,
              checkPermission user domain permission s
              = Ret (false,
                     Some (Errorf ("Unexpected return code "
                                   ++ pretty (StatusCode resp)))) s'
              /\ calls s'
                 = (calls s ++ [permissionRequest d user domain permission])%list
              /\ db s' = db s /\ semaphore s' = semaphore s
              /\ forall key, upCached key s' = upCached key s)).
Proof.
  intros Hdb Hmiss Hfree. apply Nat.ltb_lt in Hfree.
  set (key := permKey d user domain permission) in *.
  set (c0 := match upCache s with
             | Some c => c
             | None => NewLRUCache userPermission bool 1024
             end).
  assert (Hpeek : forall k, LRU_peek k c0 = upCached k s).
  { intros k. unfold c0, upCached. destruct (upCache s); reflexivity. }
  assert (Honce : exists s1, upCacheOnce_Do s = Ret tt s1
                    /\ upCache s1 = Some c0
                    /\ set_upCache (Some c0) s1 = set_upCache (Some c0) s).
  { unfold upCacheOnce_Do, c0. destruct (upCache s) as [c|] eqn:Hc.
    - exists s. rewrite Hc. auto.
    - eexists. split; [reflexivity|]. split; reflexivity. }
  destruct Honce as (s1 & Honce & Hc1 & Hs1).
  assert (Hstart : checkPermission user domain permission s
                   = bind (checkPermissionOnServer d user domain permission)
                       (fun r =>
                          match r with
                          | (_, Some e) => ret (false, Some e)
                          | (allowedOnServer, None) =>
                              bind (upCache_Set key allowedOnServer)
                                (fun _ => ret (allowedOnServer, None))
                          end)
                       (set_upCache (Some c0) s)).
  { unfold checkPermission. under_snapshot Hdb. rewrite Honce.
    change {| up_version := permissionsVersion d; up_user := user;
              up_domain := domain; up_permission := permission |} with key.
    unfold upCache_Get. cbv beta iota. rewrite Hc1.
    rewrite (LRU_Get_miss key c0) by (rewrite Hpeek; exact Hmiss).
    rewrite Hs1. reflexivity. }
  rewrite Hstart.
  unfold bind at 1.
  unfold checkPermissionOnServer, throttled, bind, semaphore_wait, NewRequest.
  change (semaphore (set_upCache (Some c0) s)) with (semaphore s).
  rewrite Hfree.
  split.
  - intros e He. rewrite He. eexists. split; [reflexivity|].
    split; [reflexivity|]. intros k. unfold upCached. simpl. apply Hpeek.
  - intros Hok. rewrite Hok. unfold Do, Client_Do, calls.
    change (withRawQuery _ _) with (permissionRequest d user domain permission).
    change (httpClient (set_semaphore _ (set_upCache _ s)))
      with (httpClient s).
    split.
    + intros e He. unfold calls in He. rewrite He.
      eexists. split; [reflexivity|]. do 3 (split; [reflexivity|]).
      intros k. unfold upCached. simpl. apply Hpeek.
    + intros resp Hresp H200 H401. unfold calls in Hresp. rewrite Hresp.
      apply Z.eqb_neq in H200, H401. cbv beta iota. rewrite H200, H401.
      eexists. split; [reflexivity|]. do 3 (split; [reflexivity|]).
      intros k. unfold upCached. simpl. apply Hpeek.
Qed.

(** X7.  A permission check that misses the cache and does not end in a
    verdict stores nothing: when the request cannot be built the error is
    returned with no outbound call; when the transport fails its error
    is returned as it is; when the status is neither 200 nor 401 the
    error names the status code.  In each case the answer is [false],
    the cache holds what it held, and after a transport failure or an
    unexpected status the same check repeated calls the authority again. *)
Theorem X7_permission_errors_not_cached `{GoStd} (s : Svc) (d : credsDB)
  (user domain permission : string) :
  db s = Some d ->
  upCached (permKey d user domain permission) s = None ->
  (semaphore s < semaphoreCap)%nat ->
  (forall e : error,
     http_NewRequest_error "GET" (permissionCheckURL d) = Some e ->
     exists s' : Svc,
       checkPermission user domain permission s = Ret (false, Some e) s'
       /\ calls s' = calls s
       /\ forall key, upCached key s' = upCached key s)
  /\ (http_NewRequest_error "GET" (permissionCheckURL d) = None ->
      forall (e : error),
        (Transport (httpClient s) (calls s)
           (permissionRequest d user domain permission) = DoError e
         \/ exists resp : Response,
              Transport (httpClient s) (calls s)
                (permissionRequest d user domain permission) = DoResponse resp
              /\ StatusCode resp <> 200 /\ StatusCode resp <> 401
              /\ e = Errorf ("Unexpected return code "
                             ++ pretty (StatusCode resp))) ->
        exists s' : Svc,
          checkPermission user domain permission s = Ret (false, Some e) s'
          /\ calls s'
             = (calls s ++ [permissionRequest d user domain permission])%list
          /\ (forall key, upCached key s' = upCached key s)
          /\ exists (r2 : bool * option error) (s2 : Svc),
               checkPermission user domain permission s' = Ret r2 s2
               /\ calls s2
                  = (calls s'
                     ++ [permissionRequest d user domain permission])%list).
Proof.
  intros Hdb Hmiss Hfree.
  destruct (checkPermission_miss_failed s d user domain permission
              Hdb Hmiss Hfree) as (Hbuild & Hsent).
  split; [exact Hbuild|].
  intros Hok e Hfail. destruct (Hsent Hok) as (Herr & Hstatus).
  assert (Hrun : exists s' : Svc,
             checkPermission user domain permission s = Ret (false, Some e) s'
             /\ calls s'
                = (calls s ++ [permissionRequest d user domain permission])%list
             /\ db s' = db s /\ semaphore s' = semaphore s
             /\ forall key, upCached key s' = upCached key s).
  { destruct Hfail as [He|(resp & Hresp & H200 & H401 & ->)].
    - apply Herr, He.
    - apply (Hstatus resp Hresp H200 H401). }
  destruct Hrun as (s' & Hrun & Hcalls & Hdb' & Hsem' & Hsame).
  exists s'. split; [exact Hrun|]. split; [exact Hcalls|].
  split; [exact Hsame|].
  rewrite Hdb in Hdb'. rewrite <- Hsem' in Hfree.
  assert (Hmiss' : upCached (permKey d user domain permission) s' = None)
    by (rewrite Hsame; exact Hmiss).
  destruct (checkPermission_miss s' d user domain permission
              Hdb' Hmiss' Hfree Hok) as (r2 & s2 & Hrun2 & Hcalls2 & _).
  exists r2, s2. split; assumption.
Qed.

Lemma X7_permission_errors_not_cached_witness :
  (exists s' : Svc,
     @checkPermission Example.std "u" "local" "p" Cases.badURL
     = Ret (false,
            Some (Errorf "net/url: invalid control character in URL")) s'
     /\ calls s' = calls Cases.badURL)
  /\ (exists s' : Svc,
        @checkPermission Example.std "u" "local" "p" Cases.unreachable
        = Ret (false, Some (Errorf "connection refused")) s'
        /\ forall key, upCached key s' = upCached key Cases.unreachable).
Proof.
  split.
  - destruct (proj1 (@X7_permission_errors_not_cached Example.std Cases.badURL
                       (cacheToCredsDB Cases.cacheBadURL) "u" "local" "p"
                       eq_refl eq_refl ltac:(vm_compute; lia))
                (Errorf "net/url: invalid control character in URL") eq_refl)
      as (s' & Hrun & Hcalls & _).
    exists s'. split; assumption.
  - destruct (proj2 (@X7_permission_errors_not_cached Example.std
                       Cases.unreachable (Scenario.snapshot "disable")
                       "u" "local" "p"
                       eq_refl eq_refl ltac:(vm_compute; lia))
                eq_refl (Errorf "connection refused") (or_introl eq_refl))
      as (s' & Hrun & _ & Hsame & _).
    exists s'. split; assumption.
Defined.

(** ** Cached identities *)

Lemma VerifyPassword_hit `{GoStd} (s : Svc) (d : credsDB)
  (user password : string) (ident : userIdentity) :
  db s = Some d ->
  verifySpecialCreds d user password = false ->
  authCached (authKey d user password) s = Some ident ->
  exists s' : Svc,
    VerifyPassword user password s
    = Ret (Some {| name := id_user ident; domain := id_domain ident;
                   password := password; creds_db := d |}, None) s'
    /\ calls s' = calls s
    /\ forall key, authCached key s' = authCached key s.
Proof.
  intros Hdb Hspecial Hhit. unfold authCached in Hhit.
  destruct (authCache s) as [c|] eqn:Hc; [|discriminate].
  unfold VerifyPassword. under_snapshot Hdb. rewrite Hspecial.
  unfold authCacheOnce_Do, authCache_Get. rewrite Hc.
  change {| pw_version := authVersion d; pw_user := user;
            pw_password := password |} with (authKey d user password).
  cbv beta iota. rewrite Hc, (LRU_Get_hit _ ident c Hhit).
  eexists. split; [reflexivity|]. split; [reflexivity|].
  intros key. unfold authCached. rewrite Hc. simpl.
  pose proof (LRU_peek_Get (authKey d user password) key c) as Hp.
  rewrite (LRU_Get_hit _ ident c Hhit) in Hp. exact Hp.
Qed.

(** X6.  Credentials that are not the special ones and are found in the
    auth cache under (auth version, user, password) are resolved from
    the cache: the cached user and domain are returned together with the
    password the caller gave, and no outbound call is made, whatever the
    authority would answer now.  The entry keeps serving after a push
    that leaves the auth version as it was; after a push that changes
    the auth version, and under which the cache holds nothing for these
    credentials, the authority is called again. *)
Theorem X6_cached_identity_served `{GoStd} (s : Svc) (d : credsDB)
  (user password : string) (ident : userIdentity) :
  db s = Some d ->
  verifySpecialCreds d user password = false ->
  authCached (authKey d user password) s = Some ident ->
  (exists s' : Svc,
     VerifyPassword user password s
     = Ret (Some {| name := id_user ident; domain := id_domain ident;
                    password := password; creds_db := d |}, None) s'
     /\ calls s' = calls s)
  /\ (forall (c1 : Cache) (s1 : Svc),
        UpdateDB c1 s = Ret None s1 ->
        AuthVersion c1 = authVersion d ->
        verifySpecialCreds (cacheToCredsDB c1) user password = false ->
        exists s2 : Svc,
          VerifyPassword user password s1
          = Ret (Some {| name := id_user ident; domain := id_domain ident;
                         password := password;
                         creds_db := cacheToCredsDB c1 |}, None) s2
          /\ calls s2 = calls s1)
  /\ (forall (c2 : Cache) (s1 : Svc),
        UpdateDB c2 s = Ret None s1 ->
        AuthVersion c2 <> authVersion d ->
        verifySpecialCreds (cacheToCredsDB c2) user password = false ->
        authCached (authKey (cacheToCredsDB c2) user password) s = None ->
        AuthCheckURL c2 <> "" ->
        (semaphore s < semaphoreCap)%nat ->
        http_NewRequest_error "POST" (AuthCheckURL c2) = None ->
        exists (r2 : option CredsImpl * option error) (s2 : Svc),
          VerifyPassword user password s1 = Ret r2 s2
          /\ calls s2
             = (calls s1
                ++ [passwordRequest (cacheToCredsDB c2) user password])%list).
Proof.
  intros Hdb Hspecial Hhit. split; [|split].
  - destruct (VerifyPassword_hit s d user password ident Hdb Hspecial Hhit)
      as (s' & Hrun & Hcalls & _).
    exists s'. split; assumption.
  - intros c1 s1 Hupd Hsame Hspecial1.
    destruct (UpdateDB_frame c1 s s1 Hupd) as (Hdb1 & _ & Hac1 & _).
    assert (Hkey : authKey (cacheToCredsDB c1) user password
                   = authKey d user password)
      by (unfold authKey; simpl; rewrite Hsame; reflexivity).
    assert (Hhit1 : authCached (authKey (cacheToCredsDB c1) user password) s1
                    = Some ident)
      by (rewrite Hkey; unfold authCached in *; rewrite Hac1; exact Hhit).
    destruct (VerifyPassword_hit s1 _ user password ident Hdb1 Hspecial1 Hhit1)
      as (s2 & Hrun & Hcalls & _).
    exists s2. split; assumption.
  - intros c2 s1 Hupd Hbump Hspecial2 Hfresh Hurl Hfree Hreq.
    destruct (UpdateDB_frame c2 s s1 Hupd)
      as (Hdb1 & _ & Hac1 & _ & _ & Hsem1).
    assert (Hmiss1 : authCached (authKey (cacheToCredsDB c2) user password) s1
                     = None)
      by (unfold authCached in *; rewrite Hac1; exact Hfresh).
    rewrite <- Hsem1 in Hfree.
    destruct (VerifyPassword_miss s1 _ user password
                Hdb1 Hspecial2 Hmiss1 Hurl Hfree Hreq)
      as (r2 & s2 & Hrun & Hcalls & _).
    exists r2, s2. split; assumption.
Qed.

Lemma X6_cached_identity_served_witness :
  exists s' : Svc,
    @VerifyPassword Example.std "Administrator" "asdasd" Cases.loggedIn
    = Ret (Some {| name := "Administrator"; domain := "admin";
                   password := "asdasd";
                   creds_db := Scenario.snapshot "disable" |}, None) s'
    /\ calls s' = calls Cases.loggedIn.
Proof.
  apply (proj1 (@X6_cached_identity_served Example.std Cases.loggedIn
                  (Scenario.snapshot "disable") "Administrator" "asdasd"
                  {| id_user := "Administrator"; id_domain := "admin" |}
                  eq_refl eq_refl eq_refl)).
Defined.

(** ** Forwarded headers *)

Lemma Header_index_Set (k name : string) (v : hvalue) (h : Header) :
  Header_index name (Header_Set k v h)
  = if bool_decide (CanonicalMIMEHeaderKey k = name) then v
    else Header_index name h.
Proof.
  unfold Header_Set, Header_Del.
  generalize (CanonicalMIMEHeaderKey k) as ck. intros ck.
  induction h as [|[k' v'] h IH]; simpl.
  - reflexivity.
  - destruct (bool_decide (k' = ck)) eqn:Hk'.
    + apply bool_decide_eq_true in Hk'. subst k'. rewrite IH.
      destruct (bool_decide (ck = name)); reflexivity.
    + simpl. destruct (bool_decide (k' = name)) eqn:Hn; [|exact IH].
      apply bool_decide_eq_true in Hn. subst k'.
      apply bool_decide_eq_false in Hk'.
      rewrite (bool_decide_eq_false_2 (ck = name)) by congruence.
      reflexivity.
Qed.

Lemma Header_Get_Set (k name : string) (v : hvalue) (h : Header) :
  Header_Get name (Header_Set k v h)
  = if bool_decide (CanonicalMIMEHeaderKey k = CanonicalMIMEHeaderKey name)
    then v
    else Header_Get name h.
Proof. unfold Header_Get. apply Header_index_Set. Qed.

Lemma Header_Get_copyHeader (k name : string) (from to : Header) :
  Header_Get name (copyHeader k from to)
  = if bool_decide (CanonicalMIMEHeaderKey k = CanonicalMIMEHeaderKey name)
       && negb (bool_decide (Header_Get k from = HString ""))
    then Header_Get k from
    else Header_Get name to.
Proof.
  unfold copyHeader.
  destruct (bool_decide (Header_Get k from = HString "")) eqn:Hval; simpl.
  - rewrite andb_false_r. reflexivity.
  - rewrite Header_Get_Set, andb_true_r. reflexivity.
Qed.

Lemma In_Header_delete (k key : string) (v : hvalue) (h : Header) :
  In (k, v) (Header_delete key h) -> In (k, v) h.
Proof.
  induction h as [|[k' v'] h IH]; simpl; [tauto|].
  destruct (bool_decide (k' = key)); simpl; tauto.
Qed.

Lemma In_copyHeader (k name : string) (v : hvalue) (from to : Header) :
  In (k, v) (copyHeader name from to) ->
  (k = CanonicalMIMEHeaderKey name /\ v = Header_Get name from
   /\ v <> HString "")
  \/ In (k, v) to.
Proof.
  unfold copyHeader.
  destruct (bool_decide (Header_Get name from = HString "")) eqn:Hval;
    [tauto|].
  apply bool_decide_eq_false in Hval.
  unfold Header_Set, Header_Del. intros Hin. apply in_app_or in Hin.
  destruct Hin as [Hin|[Heq|[]]].
  - right. exact (In_Header_delete _ _ _ _ Hin).
  - left. injection Heq as <- <-. repeat split. exact Hval.
Qed.

Ltac in_forwarded := apply list_elem_of_In; simpl; tauto.

Lemma verifyRequest_headers (d : credsDB) (reqHeaders : Header)
  (name : string) :
  Header_Get name (Hdr (verifyRequest d reqHeaders))
  = if bool_decide (CanonicalMIMEHeaderKey name
                    ∈ map CanonicalMIMEHeaderKey forwardedHeaders)
    then Header_Get name reqHeaders
    else HString "".
Proof.
  unfold verifyRequest, forwardedHeaders, tokenHeader. cbn [Hdr map].
  rewrite !Header_Get_copyHeader. unfold Header_Get.
  change (CanonicalMIMEHeaderKey "Authorization") with "Authorization".
  change (CanonicalMIMEHeaderKey "Cookie") with "Cookie".
  change (CanonicalMIMEHeaderKey "ns-server-auth-token")
    with "Ns-Server-Auth-Token".
  change (CanonicalMIMEHeaderKey "ns-server-ui") with "Ns-Server-Ui".
  generalize (CanonicalMIMEHeaderKey name) as cn. intros cn.
  cbn [Header_index].
  destruct (decide (cn = "Authorization")) as [->|Ha].
  { rewrite (bool_decide_eq_true_2 (_ ∈ _)) by in_forwarded.
    rewrite (bool_decide_eq_true_2 (_ = _)) by reflexivity. simpl.
    destruct (bool_decide (Header_index "Authorization" reqHeaders
                           = HString "")) eqn:Hv; simpl; [|reflexivity].
    apply bool_decide_eq_true in Hv. symmetry. exact Hv. }
  rewrite (bool_decide_eq_false_2 ("Authorization" = cn)) by congruence.
  simpl.
  destruct (decide (cn = "Cookie")) as [->|Hc].
  { rewrite (bool_decide_eq_true_2 (_ ∈ _)) by in_forwarded.
    rewrite (bool_decide_eq_true_2 (_ = _)) by reflexivity. simpl.
    destruct (bool_decide (Header_index "Cookie" reqHeaders = HString ""))
      eqn:Hv; simpl; [|reflexivity].
    apply bool_decide_eq_true in Hv. symmetry. exact Hv. }
  rewrite (bool_decide_eq_false_2 ("Cookie" = cn)) by congruence. simpl.
  destruct (decide (cn = "Ns-Server-Auth-Token")) as [->|Ht].
  { rewrite (bool_decide_eq_true_2 (_ ∈ _)) by in_forwarded.
    rewrite (bool_decide_eq_true_2 (_ = _)) by reflexivity. simpl.
    destruct (bool_decide (Header_index "Ns-Server-Auth-Token" reqHeaders
                           = HString "")) eqn:Hv; simpl; [|reflexivity].
    apply bool_decide_eq_true in Hv. symmetry. exact Hv. }
  rewrite (bool_decide_eq_false_2 ("Ns-Server-Auth-Token" = cn))
    by congruence. simpl.
  destruct (decide (cn = "Ns-Server-Ui")) as [->|Hu].
  { rewrite (bool_decide_eq_true_2 (_ ∈ _)) by in_forwarded.
    rewrite (bool_decide_eq_true_2 (_ = _)) by reflexivity. simpl.
    destruct (bool_decide (Header_index "Ns-Server-Ui" reqHeaders
                           = HString "")) eqn:Hv; simpl; [|reflexivity].
    apply bool_decide_eq_true in Hv. symmetry. exact Hv. }
  rewrite (bool_decide_eq_false_2 ("Ns-Server-Ui" = cn)) by congruence.
  simpl. rewrite (bool_decide_eq_false_2 (_ ∈ _)); [reflexivity|].
  rewrite list_elem_of_In. simpl. intuition congruence.
Qed.

(** The keys of the outgoing header map: only canonical names of the
    four forwarded headers, each with the value the incoming request has
    under that name. *)
Lemma verifyRequest_keys (d : credsDB) (reqHeaders : Header) (k : string)
  (v : hvalue) :
  In (k, v) (Hdr (verifyRequest d reqHeaders)) ->
  k ∈ map CanonicalMIMEHeaderKey forwardedHeaders
  /\ v = Header_Get k reqHeaders
  /\ v <> HString "".
Proof.
  unfold verifyRequest, forwardedHeaders, tokenHeader. cbn [Hdr map].
  intros Hin.
  repeat (apply In_copyHeader in Hin;
          destruct Hin as [(-> & -> & Hv)|Hin];
          [split; [in_forwarded|split; [reflexivity|exact Hv]]|]).
  destruct Hin.
Qed.

Lemma VerifyOnServer_run `{GoStd} (d : credsDB) (reqHeaders : Header)
  (s : Svc) :
  db s = Some d ->
  authCheckURL d <> "" ->
  (semaphore s < semaphoreCap)%nat ->
  http_NewRequest_error "POST" (authCheckURL d) = None ->
  exists r : option CredsImpl * option error,
    VerifyOnServer reqHeaders s
    = Ret r (called (verifyRequest d reqHeaders) s)
    /\ match Transport (httpClient s) (calls s)
               (verifyRequest d reqHeaders) with
       | DoError e => r = (None, Some e)
       | DoResponse resp =>
           (StatusCode resp = 401 -> r = (None, Some ErrNoAuth))
           /\ (StatusCode resp = 200 ->
               match RespBody resp with
               | BodyReadError e => r = (None, Some e)
               | BodyBadJSON e => r = (None, Some e)
               | BodyJSON u dm =>
                   r = (Some {| name := u; domain := dm; password := "";
                                creds_db := d |}, None)
               end)
           /\ (StatusCode resp <> 200 -> StatusCode resp <> 401 ->
               r = (None,
                    Some (Errorf
                      ("Expecting 200 or 401 from ns_server auth endpoint. Got: "
                       ++ Status resp))))
       end.
Proof.
  intros Hdb Hurl Hfree Hreq. apply Nat.ltb_lt in Hfree.
  unfold VerifyOnServer, bind, gets. rewrite (fetchDB_fresh s d Hdb), Hdb.
  rewrite bool_decide_eq_false_2 by exact Hurl.
  unfold throttled, bind, semaphore_wait, NewRequest. rewrite Hreq, Hfree.
  unfold executeReqAndGetCreds, bind, Do, Client_Do, calls.
  change (withHeader _ _) with (verifyRequest d reqHeaders).
  change (httpClient (set_semaphore _ s)) with (httpClient s).
  destruct (Transport (httpClient s) (sent (httpClient s))
              (verifyRequest d reqHeaders)) as [e|resp].
  - eexists. split; reflexivity.
  - destruct (Z.eqb_spec (StatusCode resp) 401) as [H401|H401].
    + eexists. split; [reflexivity|].
      repeat split; intros; try reflexivity; lia.
    + destruct (Z.eqb_spec (StatusCode resp) 200) as [H200|H200]; simpl.
      * destruct (RespBody resp) as [e|e|u dm];
          (eexists; split; [reflexivity|]);
          (split; [intros; lia|split; [intros _; reflexivity|intros; lia]]).
      * eexists. split; [reflexivity|].
        split; [intros; lia|split; [intros; lia|]].
        intros _ _. reflexivity.
Qed.

(** X8.  Under a current snapshot with an auth-check URL, [VerifyOnServer]
    makes exactly one outbound call, a POST to that URL without body or
    query.  Header names are read and written in canonical form, as
    [http.Header] does.  Of the caller's headers the request carries the
    four it forwards (ns-server-ui, ns-server-auth-token, Cookie,
    Authorization), each with the caller's value, and nothing else: a
    name reads on the request as it reads on the caller's headers when
    its canonical form is one of the four and as empty otherwise, the
    header map of the request holds no key besides the canonical forms
    of the four, and [IsAuthTokenPresent] says the same of the request
    as of the caller's headers.  A transport error is returned as it is,
    status 401 gives [ErrNoAuth], and another status that is not 200
    gives an error that quotes the status line. *)
Theorem X8_verify_forwards_four_headers `{GoStd} (s : Svc) (d : credsDB)
  (reqHeaders : Header) :
  db s = Some d ->
  authCheckURL d <> "" ->
  (semaphore s < semaphoreCap)%nat ->
  http_NewRequest_error "POST" (authCheckURL d) = None ->
  exists (req : Request) (r : option CredsImpl * option error) (s' : Svc),
    VerifyOnServer reqHeaders s = Ret r s'
    /\ calls s' = (calls s ++ [req])%list
    /\ Method req = "POST" /\ URL req = authCheckURL d
    /\ Body req = None /\ RawQuery req = []
    /\ (forall name : string,
          Header_Get name (Hdr req)
          = if bool_decide (CanonicalMIMEHeaderKey name
                            ∈ map CanonicalMIMEHeaderKey forwardedHeaders)
            then Header_Get name reqHeaders
            else HString "")
    /\ (forall (k : string) (v : hvalue),
          In (k, v) (Hdr req) ->
          k ∈ map CanonicalMIMEHeaderKey forwardedHeaders
          /\ v = Header_Get k reqHeaders /\ v <> HString "")
    /\ IsAuthTokenPresent (Hdr req) = IsAuthTokenPresent reqHeaders
    /\ (forall e : error,
          Transport (httpClient s) (calls s) req = DoError e ->
          r = (None, Some e))
    /\ (forall resp : Response,
          Transport (httpClient s) (calls s) req = DoResponse resp ->
          (StatusCode resp = 401 -> r = (None, Some ErrNoAuth))
          /\ (StatusCode resp <> 200 -> StatusCode resp <> 401 ->
              r = (None,
                   Some (Errorf
                     ("Expecting 200 or 401 from ns_server auth endpoint. Got: "
                      ++ Status resp))))).
Proof.
  intros Hdb Hurl Hfree Hreq.
  destruct (VerifyOnServer_run d reqHeaders s Hdb Hurl Hfree Hreq)
    as (r & Hrun & Hr).
  exists (verifyRequest d reqHeaders), r,
    (called (verifyRequest d reqHeaders) s).
  split; [exact Hrun|]. split; [reflexivity|].
  do 4 (split; [reflexivity|]).
  split; [apply verifyRequest_headers|].
  split; [apply verifyRequest_keys|]. split; [|split].
  - unfold IsAuthTokenPresent. rewrite verifyRequest_headers.
    rewrite (bool_decide_eq_true_2 (_ ∈ _)); [reflexivity|].
    unfold forwardedHeaders, tokenHeader. in_forwarded.
  - intros e He. rewrite He in Hr. exact Hr.
  - intros resp Hresp. rewrite Hresp in Hr. tauto.
Qed.

Lemma X8_verify_forwards_four_headers_witness :
  exists (req : Request) (s' : Svc),
    @VerifyOnServer Example.std
      [("Cookie", HString "ui-auth-q=1234567890");
       ("Ns-Server-Ui", HString "yes");
       ("X-Forwarded-For", HString "10.0.0.7")]
      (Scenario.fresh "disable")
    = Ret (None, Some ErrNoAuth) s'
    /\ calls s' = [req]
    /\ Header_Get "cookie" (Hdr req) = HString "ui-auth-q=1234567890"
    /\ Header_Get "X-Forwarded-For" (Hdr req) = HString ""
    /\ IsAuthTokenPresent (Hdr req) = true.
Proof.
  destruct (@X8_verify_forwards_four_headers Example.std
              (Scenario.fresh "disable") (Scenario.snapshot "disable")
              [("Cookie", HString "ui-auth-q=1234567890");
               ("Ns-Server-Ui", HString "yes");
               ("X-Forwarded-For", HString "10.0.0.7")]
              eq_refl ltac:(discriminate) ltac:(vm_compute; lia) eq_refl)
    as (req & r & s' & Hrun & Hcalls & Hm & Hu & _ & _ & Hhdr & _ & Htok & _
        & Hst).
  exists req, s'.
  assert (Hans : Transport (httpClient (Scenario.fresh "disable"))
                   (calls (Scenario.fresh "disable")) req
                 = Scenario.respond 401 (BodyJSON "" "")).
  { change (Transport (httpClient (Scenario.fresh "disable"))
              (calls (Scenario.fresh "disable")) req)
      with (Scenario.authority [] req).
    unfold Scenario.authority. rewrite Hm.
    rewrite bool_decide_eq_true_2 by reflexivity.
    rewrite (Hhdr "Authorization"). reflexivity. }
  destruct (Hst _ Hans) as (H401 & _). rewrite (H401 eq_refl) in Hrun.
  split; [exact Hrun|]. split; [exact Hcalls|].
  split; [rewrite Hhdr; reflexivity|].
  split; [rewrite Hhdr; reflexivity|].
  rewrite Htok. reflexivity.
Defined.

(** ** What service credentials can be returned *)

Lemma getMemcachedCreds_answer `{GoStd} (n : Node) (host : string) (port : Z)
  (mu pw : string) :
  getMemcachedCreds n host port = (mu, pw) ->
  mu <> "" ->
  matchHost n host = true /\ In port (Ports n)
  /\ User n = mu /\ Password n = pw.
Proof.
  unfold getMemcachedCreds. intros Hget Hmu.
  destruct (matchHost n host); simpl in Hget;
    [|injection Hget as <- <-; contradiction].
  destruct (in_dec Z.eq_dec port (Ports n)) as [Hin|Hnin].
  - rewrite rangePorts_In in Hget by exact Hin. injection Hget as <- <-.
    repeat split. exact Hin.
  - rewrite rangePorts_not_In in Hget by exact Hnin.
    injection Hget as <- <-. contradiction.
Qed.

Lemma rangeNodes_sound `{GoStd} (d : credsDB) (ns : list Node)
  (host : string) (port : Z) (pw0 mu u pw : string) :
  rangeNodes d ns host port "" pw0 = (mu, u, pw) ->
  (mu <> "" ->
   exists n : Node,
     In n ns /\ matchHost n host = true /\ In port (Ports n)
     /\ User n = mu /\ Password n = pw /\ u = specialUser d)
  /\ (mu = "" -> u = "").
Proof.
  revert pw0. induction ns as [|n ns IH]; intros pw0; simpl.
  - intros Hr. injection Hr as <- <- <-. split; [contradiction|reflexivity].
  - destruct (getMemcachedCreds n host port) as [mu' pw'] eqn:Hget.
    destruct (bool_decide (mu' = "")) eqn:Hmu'; simpl.
    + apply bool_decide_eq_true in Hmu'. subst mu'. intros Hr.
      destruct (IH pw' Hr) as (Hfound & Hnone). split; [|exact Hnone].
      intros Hmu. destruct (Hfound Hmu) as (m & Hin & Hrest).
      exists m. split; [right; exact Hin|exact Hrest].
    + apply bool_decide_eq_false in Hmu'. intros Hr.
      injection Hr as <- <- <-. split; [|contradiction].
      intros _. destruct (getMemcachedCreds_answer n host port _ _ Hget Hmu')
        as (Hm & Hp & Hu & Hpw).
      exists n. repeat split; try assumption. left. reflexivity.
Qed.

(** X9.  Under a current snapshot [GetCreds] never fails, and what it
    returns is sound: a non-empty memcached user is, with the returned
    password, the user and password of a node of the snapshot that
    matches the host and serves the port, and the third result is then
    the special user; an empty memcached user comes with an empty
    special user. *)
Theorem X9_get_creds_sound `{GoStd} (s : Svc) (d : credsDB) (host : string)
  (port : Z) :
  db s = Some d ->
  exists mu u pw : string,
    GetCreds host port s = Ret (mu, u, pw, None) s
    /\ (mu <> "" ->
        exists n : Node,
          In n (nodes d) /\ matchHost n host = true /\ In port (Ports n)
          /\ User n = mu /\ Password n = pw /\ u = specialUser d)
    /\ (mu = "" -> u = "").
Proof.
  intros Hdb.
  destruct (rangeNodes d (nodes d) host port "" "") as [[mu u] pw] eqn:Hr.
  exists mu, u, pw. split.
  - unfold GetCreds. under_snapshot Hdb. rewrite Hr. reflexivity.
  - apply (rangeNodes_sound d (nodes d) host port "" mu u pw Hr).
Qed.

Lemma X9_get_creds_sound_witness :
  exists mu u pw : string,
    @GetCreds Example.std "127.0.0.1" 9001 (Scenario.fresh "disable")
    = Ret (mu, u, pw, None) (Scenario.fresh "disable")
    /\ (mu <> "" ->
        exists n : Node,
          In n (nodes (Scenario.snapshot "disable"))
          /\ @matchHost Example.std n "127.0.0.1" = true
          /\ In 9001 (Ports n)
          /\ User n = mu /\ Password n = pw
          /\ u = specialUser (Scenario.snapshot "disable"))
    /\ (mu = "" -> u = "").
Proof.
  apply (@X9_get_creds_sound Example.std (Scenario.fresh "disable")
           (Scenario.snapshot "disable") "127.0.0.1" 9001).
  reflexivity.
Defined.

(** ** The special password *)

Lemma localPassword_first (pre post : list Node) (n : Node) :
  (forall m, In m pre -> Local m = false) -> Local n = true ->
  localPassword (pre ++ n :: post) = Password n.
Proof.
  intros Hpre Hn. induction pre as [|m pre IH]; simpl.
  - rewrite Hn. reflexivity.
  - rewrite (Hpre m) by (left; reflexivity).
    apply IH. intros k Hk. apply Hpre. right. exact Hk.
Qed.

Lemma verifySpecialCreds_iff (d : credsDB) (user password : string) :
  verifySpecialCreds d user password = true <->
  String.get 0 user = Some "@"%char /\ password = specialPassword d.
Proof.
  unfold verifySpecialCreds. destruct user as [|a rest]; simpl.
  - split; [discriminate|intros [Hat _]; discriminate].
  - rewrite andb_true_iff, !bool_decide_eq_true. split.
    + intros [-> ->]. split; reflexivity.
    + intros [Hat ->]. injection Hat as ->. split; reflexivity.
Qed.

(** X10.  The special password of a pushed configuration is the password
    of the first node flagged local, whatever follows it in the list.
    Credentials are special exactly when the user name begins with '@'
    and the password is that one, and it is the password that
    [checkPermissionOnServer] sends, with the special user, in the call
    it makes to the authority. *)
Theorem X10_special_password_first_local `{GoStd} (c : Cache)
  (pre post : list Node) (n : Node) :
  Nodes c = (pre ++ n :: post)%list ->
  (forall m, In m pre -> Local m = false) ->
  Local n = true ->
  specialPassword (cacheToCredsDB c) = Password n
  /\ (forall user password : string,
        verifySpecialCreds (cacheToCredsDB c) user password = true <->
        String.get 0 user = Some "@"%char /\ password = Password n)
  /\ (forall (s : Svc) (user domain permission : string),
        (semaphore s < semaphoreCap)%nat ->
        http_NewRequest_error "GET" (PermissionCheckURL c) = None ->
        exists (out : Request) (r : bool * option error) (s' : Svc),
          checkPermissionOnServer (cacheToCredsDB c) user domain permission s
          = Ret r s'
          /\ calls s' = (calls s ++ [out])%list
          /\ Header_Get "Authorization" (Hdr out)
             = HBasic (SpecialUser c) (Password n)).
Proof.
  intros Hnodes Hpre Hn.
  assert (Hpw : specialPassword (cacheToCredsDB c) = Password n)
    by (simpl; rewrite Hnodes; apply localPassword_first; assumption).
  split; [exact Hpw|]. split.
  - intros user password. rewrite verifySpecialCreds_iff, Hpw. reflexivity.
  - intros s user domain permission Hfree Hurl.
    destruct (checkPermissionOnServer_run (cacheToCredsDB c) user domain
                permission s Hfree Hurl) as (r & Hrun & _).
    exists (permissionRequest (cacheToCredsDB c) user domain permission), r,
      (called (permissionRequest (cacheToCredsDB c) user domain permission) s).
    split; [exact Hrun|]. split; [reflexivity|].
    change (Header_Get "Authorization"
              (Hdr (permissionRequest (cacheToCredsDB c) user domain
                      permission)))
      with (HBasic (SpecialUser c) (specialPassword (cacheToCredsDB c))).
    rewrite Hpw. reflexivity.
Qed.

Lemma X10_special_password_first_local_witness :
  specialPassword (Scenario.snapshot "disable") = "barfoo"
  /\ verifySpecialCreds (Scenario.snapshot "disable") "@component" "barfoo"
     = true
  /\ exists (out : Request) (r : bool * option error) (s' : Svc),
       @checkPermissionOnServer Example.std (Scenario.snapshot "disable")
         "u" "local" "p" (Scenario.fresh "disable")
       = Ret r s'
       /\ calls s' = [out]
       /\ Header_Get "Authorization" (Hdr out) = HBasic "@component" "barfoo".
Proof.
  destruct (@X10_special_password_first_local Example.std
              (Scenario.cache "v1" "disable") [Scenario.beta] []
              Scenario.chi eq_refl)
    as (Hpw & Hspecial & Hsent).
  - intros m [<-|[]]. reflexivity.
  - reflexivity.
  - split; [exact Hpw|]. split.
    + apply Hspecial. split; reflexivity.
    + apply (Hsent (Scenario.fresh "disable") "u" "local" "p");
        [vm_compute; lia|reflexivity].
Defined.

(** ** Delivery of TLS-change notifications *)

Lemma notifyTLSChange_iter (k : nat) (n : tlsNotifier) :
  callback (Nat.iter k notifyTLSChange n) = callback n
  /\ requests (Nat.iter k notifyTLSChange n) = (requests n + k)%nat
  /\ ch (Nat.iter (S k) notifyTLSChange n) = true.
Proof.
  split; [|split]; [| |reflexivity].
  - induction k as [|k IH]; [reflexivity|]. simpl. exact IH.
  - induction k as [|k IH]; simpl; [lia|]. rewrite IH. lia.
Qed.

(** X11.  Notifications are coalesced: after any number of requests, one
    or more, the delivery loop finds exactly one notification waiting.
    The iteration that takes it runs the registered callback at most
    once and leaves the channel empty, so that no second iteration can be
    woken by a notification until a new request is made.  With no
    callback registered the notification is consumed as a success: no
    run, no retry timer. *)
Theorem X11_notifications_coalesce (n : tlsNotifier) (k : nat)
  (ls : loopState) :
  exists (ls1 : loopState) (n1 : tlsNotifier),
    loop_iteration Notified ls (Nat.iter (S k) notifyTLSChange n)
    = Some (ls1, n1)
    /\ requests (Nat.iter (S k) notifyTLSChange n) = (requests n + S k)%nat
    /\ ch n1 = false
    /\ callback n1 = callback n
    /\ (runs ls1 = runs ls \/ runs ls1 = S (runs ls))
    /\ loop_iteration Notified ls1 n1 = None
    /\ (callback n = None -> ls1 = {| retry := false; runs := runs ls |}).
Proof.
  destruct (notifyTLSChange_iter k n) as (_ & _ & Hch).
  destruct (notifyTLSChange_iter (S k) n) as (Hcb & Hreq & _).
  unfold loop_iteration. rewrite Hch.
  unfold maybeExecuteCallback, getCallback. cbn [callback].
  rewrite Hcb.
  destruct (callback n) as [cb|] eqn:Hcallback.
  - destruct (cb (runs ls)) as [e|]; eexists _, _;
      (split; [reflexivity|]); cbn [ch callback runs retry];
      (split; [exact Hreq|]); (split; [reflexivity|]);
      (split; [first [reflexivity|exact Hcb]|]); (split; [right; reflexivity|]);
      (split; [reflexivity|discriminate]).
  - eexists _, _. split; [reflexivity|]. cbn [ch callback runs retry].
    split; [exact Hreq|]. split; [reflexivity|].
    split; [first [reflexivity|exact Hcb]|].
    split; [left; reflexivity|]. split; reflexivity.
Qed.

Lemma X11_notifications_coalesce_witness :
  exists n1 : tlsNotifier,
    loop_iteration Notified {| retry := false; runs := 0 |}
      (Nat.iter 3 notifyTLSChange newTLSNotifier)
    = Some ({| retry := false; runs := 0 |}, n1)
    /\ ch n1 = false
    /\ loop_iteration Notified {| retry := false; runs := 0 |} n1 = None.
Proof.
  destruct (X11_notifications_coalesce newTLSNotifier 2
              {| retry := false; runs := 0 |})
    as (ls1 & n1 & Hrun & _ & Hch & _ & _ & Hidle & Hnone).
  rewrite (Hnone eq_refl) in Hrun, Hidle.
  exists n1. split; [exact Hrun|]. split; [exact Hch|exact Hidle].
Defined.

Lemma loop_retries (cb : TLSRefreshCallback) (k : nat) :
  forall (w : wakeup) (ls : loopState) (n : tlsNotifier),
    callback n = Some cb ->
    match w with
    | Notified => ch n = true
    | RetryFired => retry ls = true
    end ->
    (forall i : nat, (i < k)%nat -> cb (runs ls + i)%nat <> None) ->
    cb (runs ls + k)%nat = None ->
    exists (ls1 : loopState) (n1 : tlsNotifier) (ls2 : loopState)
           (n2 : tlsNotifier),
      loop_iteration w ls n = Some (ls1, n1)
      /\ retry ls1 = negb (Nat.eqb k 0)
      /\ retryIterations k ls1 n1 = Some (ls2, n2)
      /\ runs ls2 = (runs ls + S k)%nat
      /\ retry ls2 = false
      /\ callback n2 = Some cb
      /\ ch n2 = match w with Notified => false | RetryFired => ch n end.
Proof.
  induction k as [|k IH]; intros w ls n Hcb Hw Hfail Hok.
  - rewrite Nat.add_0_r in Hok.
    unfold loop_iteration, maybeExecuteCallback, getCallback.
    destruct w; rewrite Hw; cbn [callback]; rewrite Hcb, Hok;
      eexists _, _, _, _; (split; [reflexivity|]); cbn;
      (split; [reflexivity|]); (split; [reflexivity|]);
      (split; [cbn; lia|]); (split; [reflexivity|]);
      (split; [first [exact Hcb|reflexivity]|reflexivity]).
  - assert (Hfirst : exists e, cb (runs ls) = Some e).
    { specialize (Hfail 0%nat ltac:(lia)). rewrite Nat.add_0_r in Hfail.
      destruct (cb (runs ls)) as [e|]; [eauto|contradiction]. }
    destruct Hfirst as (e & Hfirst).
    set (ls1 := {| retry := true; runs := S (runs ls) |}).
    set (n1 := match w with
               | Notified => {| ch := false; callback := callback n;
                                requests := requests n |}
               | RetryFired => n
               end).
    assert (Hstep : loop_iteration w ls n = Some (ls1, n1)).
    { subst ls1 n1.
      unfold loop_iteration, maybeExecuteCallback, getCallback.
      destruct w; rewrite Hw; cbn [callback]; rewrite Hcb, Hfirst;
        reflexivity. }
    assert (Hcb1 : callback n1 = Some cb) by (destruct w; exact Hcb).
    destruct (IH RetryFired ls1 n1 Hcb1 eq_refl)
      as (ls1' & n1' & ls2 & n2 & Hstep1 & _ & Hrest & Hruns & Hretry
          & Hcb2 & Hch2).
    + intros i Hi. cbn [runs ls1].
      replace (S (runs ls) + i)%nat with (runs ls + S i)%nat by lia.
      apply Hfail. lia.
    + cbn [runs ls1].
      replace (S (runs ls) + k)%nat with (runs ls + S k)%nat by lia.
      exact Hok.
    + exists ls1, n1, ls2, n2. split; [exact Hstep|].
      split; [reflexivity|]. split.
      * cbn [retryIterations]. rewrite Hstep1. exact Hrest.
      * cbn [runs ls1] in Hruns. split; [lia|]. split; [exact Hretry|].
        split; [exact Hcb2|]. rewrite Hch2. destruct w; reflexivity.
Qed.

(** X12.  A failing callback is retried until it succeeds.  When the
    registered callback fails on its next [k] runs and succeeds on the
    one after, the iteration that takes a waiting notification runs it
    and, if [k] is not zero, arms the retry timer; each of the next [k]
    firings of the timer runs it once more; after the successful run the
    timer is disarmed and the channel empty, so that nothing runs the
    callback again until a new notification arrives. *)
Theorem X12_callback_retried_until_success (cb : TLSRefreshCallback)
  (k : nat) (ls : loopState) (n : tlsNotifier) :
  callback n = Some cb ->
  ch n = true ->
  (forall i : nat, (i < k)%nat -> cb (runs ls + i)%nat <> None) ->
  cb (runs ls + k)%nat = None ->
  exists (ls1 : loopState) (n1 : tlsNotifier) (ls2 : loopState)
         (n2 : tlsNotifier),
    loop_iteration Notified ls n = Some (ls1, n1)
    /\ retry ls1 = negb (Nat.eqb k 0)
    /\ retryIterations k ls1 n1 = Some (ls2, n2)
    /\ runs ls2 = (runs ls + S k)%nat
    /\ retry ls2 = false
    /\ loop_iteration RetryFired ls2 n2 = None
    /\ loop_iteration Notified ls2 n2 = None.
Proof.
  intros Hcb Hch Hfail Hok.
  destruct (loop_retries cb k Notified ls n Hcb Hch Hfail Hok)
    as (ls1 & n1 & ls2 & n2 & Hstep & Harmed & Hrest & Hruns & Hretry
        & _ & Hch2).
  exists ls1, n1, ls2, n2. repeat (split; [assumption|]).
  unfold loop_iteration. rewrite Hretry, Hch2. split; reflexivity.
Qed.

Lemma X12_callback_retried_until_success_witness :
  exists (ls1 : loopState) (n1 : tlsNotifier) (ls2 : loopState)
         (n2 : tlsNotifier),
    loop_iteration Notified {| retry := false; runs := 0 |}
      {| ch := true; callback := Some Scenario.refresh; requests := 1 |}
    = Some (ls1, n1)
    /\ retry ls1 = true
    /\ retryIterations 1 ls1 n1 = Some (ls2, n2)
    /\ runs ls2 = 2%nat
    /\ retry ls2 = false
    /\ loop_iteration RetryFired ls2 n2 = None
    /\ loop_iteration Notified ls2 n2 = None.
Proof.
  apply (X12_callback_retried_until_success Scenario.refresh 1
           {| retry := false; runs := 0 |}
           {| ch := true; callback := Some Scenario.refresh; requests := 1 |}
           eq_refl eq_refl).
  - intros i Hi. assert (i = 0%nat) as -> by lia. discriminate.
  - reflexivity.
Defined.

(** ** Admission control *)

Lemma throttled_full {A : Type} (body : M A) (s : Svc) :
  semaphore s = semaphoreCap -> throttled body s = Block.
Proof.
  intros Hfull. unfold throttled, bind, semaphore_wait. rewrite Hfull.
  reflexivity.
Qed.

Lemma VerifyOnServer_full `{GoStd} (d : credsDB) (reqHeaders : Header)
  (s : Svc) :
  db s = Some d ->
  semaphore s = semaphoreCap ->
  authCheckURL d <> "" ->
  VerifyOnServer reqHeaders s = Block.
Proof.
  intros Hdb Hfull Hurl. unfold VerifyOnServer. under_snapshot Hdb.
  unfold gets. rewrite Hdb.
  rewrite bool_decide_eq_false_2 by exact Hurl.
  apply throttled_full. exact Hfull.
Qed.

(** X13.  While all ten slots of the semaphore are taken, an operation
    that would have to call the authority waits before it builds or
    sends anything: a permission check that misses the cache,
    [VerifyOnServer] with an auth-check URL, a password check that is
    neither special nor cached, and a certificate that misses the
    certificate cache.  What needs no outbound call is still answered: a
    cached verdict, and [ErrNoAuth] when the auth-check URL is empty. *)
Theorem X13_full_semaphore_holds_misses `{GoStd} (s : Svc) (d : credsDB) :
  db s = Some d ->
  semaphore s = semaphoreCap ->
  (forall user domain permission : string,
     upCached (permKey d user domain permission) s = None ->
     checkPermission user domain permission s = Block)
  /\ (forall reqHeaders : Header,
        authCheckURL d <> "" -> VerifyOnServer reqHeaders s = Block)
  /\ (forall user password : string,
        verifySpecialCreds d user password = false ->
        authCached (authKey d user password) s = None ->
        authCheckURL d <> "" ->
        VerifyPassword user password s = Block)
  /\ (forall (req : InRequest) (tls : ConnectionState) (cert : Certificate)
             (rest : list Certificate),
        TLS req = Some tls ->
        PeerCertificates tls = cert :: rest ->
        clientCertAuthState d <> "disable" ->
        clientCertAuthState d <> "" ->
        certCached (certKey d cert) s = None ->
        authCheckURL d <> "" ->
        MaybeGetCredsFromCert req s = Block)
  /\ (forall (user domain permission : string) (a : bool),
        upCached (permKey d user domain permission) s = Some a ->
        exists s' : Svc,
          checkPermission user domain permission s = Ret (a, None) s'
          /\ calls s' = calls s)
  /\ (forall reqHeaders : Header,
        authCheckURL d = "" ->
        VerifyOnServer reqHeaders s = Ret (None, Some ErrNoAuth) s).
Proof.
  intros Hdb Hfull. repeat split.
  - (* permission miss *)
    intros user domain permission Hmiss.
    unfold checkPermission. under_snapshot Hdb.
    unfold upCached in Hmiss. unfold upCacheOnce_Do, upCache_Get.
    change {| up_version := permissionsVersion d; up_user := user;
              up_domain := domain; up_permission := permission |}
      with (permKey d user domain permission).
    destruct (upCache s) as [c|] eqn:Hc; cbv beta iota.
    + rewrite Hc, (LRU_Get_miss _ c Hmiss).
      unfold checkPermissionOnServer. rewrite throttled_full; [reflexivity|].
      exact Hfull.
    + cbn [upCache set_upCache].
      rewrite (LRU_Get_miss _ (NewLRUCache userPermission bool 1024) eq_refl).
      unfold checkPermissionOnServer. rewrite throttled_full; [reflexivity|].
      exact Hfull.
  - (* VerifyOnServer *)
    intros reqHeaders Hurl. exact (VerifyOnServer_full d reqHeaders s Hdb Hfull Hurl).
  - (* password miss *)
    intros user password Hspecial Hmiss Hurl.
    unfold VerifyPassword. under_snapshot Hdb. rewrite Hspecial.
    unfold authCached in Hmiss. unfold authCacheOnce_Do, authCache_Get.
    change {| pw_version := authVersion d; pw_user := user;
              pw_password := password |} with (authKey d user password).
    unfold verifyPasswordOnServer, NewRequest. rewrite http_NewRequest_host.
    destruct (authCache s) as [c|] eqn:Hc; cbv beta iota.
    + rewrite Hc, (LRU_Get_miss _ c Hmiss).
      rewrite (VerifyOnServer_full d); [reflexivity|exact Hdb|exact Hfull|exact Hurl].
    + cbn [authCache set_authCache].
      rewrite (LRU_Get_miss _ (NewLRUCache userPassword userIdentity 256) eq_refl).
      rewrite (VerifyOnServer_full d); [reflexivity|exact Hdb|exact Hfull|exact Hurl].
  - (* certificate miss *)
    intros req tls cert rest Htls Hcerts Hd He Hmiss Hurl.
    destruct (cert_mode_passes _ cert rest Hd He) as (Hm1 & Hm2).
    unfold MaybeGetCredsFromCert. under_snapshot Hdb. rewrite Htls.
    unfold certCached in Hmiss.
    unfold clientCertCacheOnce_Do, clientCertCache_Get.
    assert (Hbody : forall s0 : Svc,
               semaphore s0 = semaphoreCap ->
               getUserIdentityFromCert cert d s0 = Block).
    { intros s0 Hs0. unfold getUserIdentityFromCert.
      rewrite bool_decide_eq_false_2 by exact Hurl.
      apply throttled_full. exact Hs0. }
    destruct (clientCertCache s) as [c|] eqn:Hc; cbv beta iota zeta;
      rewrite Hm1, Hcerts, Hm2;
      change {| cch_hash := md5_Sum (Raw cert);
                cch_version := clientCertAuthVersion d |}
        with (certKey d cert).
    + rewrite Hc, (LRU_Get_miss _ c Hmiss).
      rewrite Hbody; [reflexivity|exact Hfull].
    + cbn [clientCertCache set_clientCertCache].
      rewrite (LRU_Get_miss _ (NewLRUCache clienCertHash userIdentity 256)
                 eq_refl).
      rewrite Hbody; [reflexivity|exact Hfull].
  - (* a cached verdict *)
    intros user domain permission a Hhit.
    destruct (checkPermission_hit s d user domain permission a Hdb Hhit)
      as (s' & Hrun & Hcalls & _).
    exists s'. split; assumption.
  - (* no auth-check URL *)
    intros reqHeaders Hurl. unfold VerifyOnServer. under_snapshot Hdb.
    unfold gets. rewrite Hdb.
    rewrite bool_decide_eq_true_2 by exact Hurl. reflexivity.
Qed.

Lemma X13_full_semaphore_holds_misses_witness :
  @checkPermission Example.std "Administrator" "admin" "cluster.admin!write"
    Cases.busy = Block
  /\ @VerifyPassword Example.std "Administrator" "asdasd" Cases.busy = Block.
Proof.
  destruct (@X13_full_semaphore_holds_misses Example.std Cases.busy
              (Scenario.snapshot "disable") eq_refl eq_refl)
    as (Hperm & _ & Hpw & _).
  split.
  - apply Hperm. reflexivity.
  - apply Hpw; [reflexivity|reflexivity|discriminate].
Defined.

(** ** What a push makes readable *)

Lemma minTLSVersion_cases (str : string) :
  (minTLSVersion str = VersionTLS12 <-> ToLower str = "tlsv1.2")
  /\ (minTLSVersion str = VersionTLS11 <-> ToLower str = "tlsv1.1")
  /\ (minTLSVersion str = VersionTLS10 <->
      ToLower str <> "tlsv1.2" /\ ToLower str <> "tlsv1.1").
Proof.
  unfold minTLSVersion, VersionTLS10, VersionTLS11, VersionTLS12.
  destruct (decide (ToLower str = "tlsv1")) as [H0|H0].
  - rewrite (bool_decide_eq_true_2 _ H0). rewrite H0.
    repeat split; intros; try discriminate; try lia; tauto.
  - rewrite (bool_decide_eq_false_2 _ H0).
    destruct (decide (ToLower str = "tlsv1.1")) as [H1|H1].
    + rewrite (bool_decide_eq_true_2 _ H1). rewrite H1.
      repeat split; intros; try discriminate; try lia; tauto.
    + rewrite (bool_decide_eq_false_2 _ H1).
      destruct (decide (ToLower str = "tlsv1.2")) as [H2|H2].
      * rewrite (bool_decide_eq_true_2 _ H2).
        repeat split; intros; try discriminate; try lia; tauto.
      * rewrite (bool_decide_eq_false_2 _ H2).
        repeat split; intros; try discriminate; try lia; tauto.
Qed.

Lemma getAuthType_cases (state : string) :
  (getAuthType state = VerifyClientCertIfGiven <-> state = "enable")
  /\ (getAuthType state = RequireAndVerifyClientCert <-> state = "mandatory")
  /\ (getAuthType state = NoClientCert <->
      state <> "enable" /\ state <> "mandatory").
Proof.
  unfold getAuthType.
  destruct (decide (state = "enable")) as [H0|H0].
  - rewrite (bool_decide_eq_true_2 _ H0). rewrite H0.
    repeat split; intros; try discriminate; tauto.
  - rewrite (bool_decide_eq_false_2 _ H0).
    destruct (decide (state = "mandatory")) as [H1|H1].
    + rewrite (bool_decide_eq_true_2 _ H1). rewrite H1.
      repeat split; intros; try discriminate; tauto.
    + rewrite (bool_decide_eq_false_2 _ H1).
      repeat split; intros; try discriminate; tauto.
Qed.

(** X14.  Whatever the service held before, a push never fails and
    makes the TLS settings readable at once, without blocking:
    [GetTLSConfig] returns the pushed cipher suites, both lists of cipher
    names and the cipher order as they were pushed, and as minimum
    version TLS 1.2 or TLS 1.1 exactly when the pushed string, in lower
    case, is "tlsv1.2" or "tlsv1.1", and TLS 1.0 for every other string;
    [GetClientCertAuthType] returns verify-if-given for the mode
    "enable", require-and-verify for "mandatory" and no client
    certificate for every other mode. *)
Theorem X14_pushed_tls_settings_readable (c : Cache) (s : Svc) :
  exists (s1 : Svc) (cfg : TLSConfig) (t : ClientAuthType),
    UpdateDB c s = Ret None s1
    /\ GetTLSConfig s1 = Ret (cfg, None) s1
    /\ GetClientCertAuthType s1 = Ret (t, None) s1
    /\ CipherSuites cfg = Ciphers (TLSConfig_ c)
    /\ CipherSuiteNames cfg = CipherNames (TLSConfig_ c)
    /\ CipherSuiteOpenSSLNames cfg = CipherOpenSSLNames (TLSConfig_ c)
    /\ PreferServerCipherSuites cfg = CipherOrder (TLSConfig_ c)
    /\ (MinVersion cfg = VersionTLS12 <->
        ToLower (MinTLSVersion (TLSConfig_ c)) = "tlsv1.2")
    /\ (MinVersion cfg = VersionTLS11 <->
        ToLower (MinTLSVersion (TLSConfig_ c)) = "tlsv1.1")
    /\ (MinVersion cfg = VersionTLS10 <->
        ToLower (MinTLSVersion (TLSConfig_ c)) <> "tlsv1.2"
        /\ ToLower (MinTLSVersion (TLSConfig_ c)) <> "tlsv1.1")
    /\ (t = VerifyClientCertIfGiven <-> ClientCertAuthState c = "enable")
    /\ (t = RequireAndVerifyClientCert <->
        ClientCertAuthState c = "mandatory")
    /\ (t = NoClientCert <->
        ClientCertAuthState c <> "enable"
        /\ ClientCertAuthState c <> "mandatory").
Proof.
  destruct (minTLSVersion_cases (MinTLSVersion (TLSConfig_ c)))
    as (H12 & H11 & H10).
  destruct (getAuthType_cases (ClientCertAuthState c)) as (He & Hm & Hn).
  set (s1 := if needRefreshTLS s (cacheToCredsDB c)
             then set_tlsNotifier
                    (notifyTLSChange
                       (tlsNotifier_ (updateDBLocked (Some (cacheToCredsDB c)) s)))
                    (updateDBLocked (Some (cacheToCredsDB c)) s)
             else updateDBLocked (Some (cacheToCredsDB c)) s).
  assert (Hdb : db s1 = Some (cacheToCredsDB c)).
  { unfold s1. destruct (needRefreshTLS s (cacheToCredsDB c));
      [cbn [db set_tlsNotifier]|]; apply updateDBLocked_db. }
  exists s1, (importTLSConfig (TLSConfig_ c)),
    (getAuthType (ClientCertAuthState c)).
  split; [reflexivity|].
  split; [unfold GetTLSConfig; under_snapshot Hdb; reflexivity|].
  split; [unfold GetClientCertAuthType; under_snapshot Hdb; reflexivity|].
  do 4 (split; [reflexivity|]).
  cbn [MinVersion importTLSConfig]. tauto.
Qed.

Lemma X14_pushed_tls_settings_readable_witness :
  exists s1 : Svc,
    UpdateDB (Scenario.cache "v1" "mandatory") Cases.waiting = Ret None s1
    /\ exists cfg : TLSConfig,
         GetTLSConfig s1 = Ret (cfg, None) s1
         /\ MinVersion cfg = VersionTLS12
         /\ GetClientCertAuthType s1
            = Ret (RequireAndVerifyClientCert, None) s1.
Proof.
  destruct (X14_pushed_tls_settings_readable
              (Scenario.cache "v1" "mandatory") Cases.waiting)
    as (s1 & cfg & t & Hpush & Hcfg & Ht & _ & _ & _ & _ & H12 & _ & _ & _
        & Hm & _).
  exists s1. split; [exact Hpush|]. exists cfg. split; [exact Hcfg|].
  split; [apply H12; reflexivity|].
  rewrite Ht. rewrite (proj2 Hm eq_refl). reflexivity.
Defined.

(** ** What a reset keeps *)

Lemma ResetSvc_frame (e : error) (s : Svc) :
  exists s1 : Svc,
    ResetSvc (Some e) s = Ret tt s1
    /\ isStale e s1
    /\ upCache s1 = upCache s
    /\ authCache s1 = authCache s
    /\ clientCertCache s1 = clientCertCache s
    /\ httpClient s1 = httpClient s
    /\ semaphore s1 = semaphore s
    /\ tlsNotifier_ s1 = tlsNotifier_ s.
Proof.
  eexists. split; [reflexivity|].
  unfold isStale, updateDBLocked. simpl.
  destruct (freshChan s) eqn:Hch; simpl; repeat split;
    assumption || reflexivity.
Qed.

(** X15.  A reset purges nothing: the three caches, the transport with
    its record of calls, the semaphore and the notifier are as they
    were.  So a permission verdict cached before a reset is refused with
    the stale error while no snapshot is held, and is served from the
    cache, with no outbound call, as soon as a push brings the
    permissions version it was stored under. *)
Theorem X15_reset_keeps_caches `{GoStd} (s : Svc) (e : error) (c : Cache)
  (user domain permission : string) (a : bool) :
  upCached (permKey (cacheToCredsDB c) user domain permission) s = Some a ->
  exists s1 s2 s3 : Svc,
    ResetSvc (Some e) s = Ret tt s1
    /\ upCache s1 = upCache s
    /\ authCache s1 = authCache s
    /\ clientCertCache s1 = clientCertCache s
    /\ httpClient s1 = httpClient s
    /\ semaphore s1 = semaphore s
    /\ tlsNotifier_ s1 = tlsNotifier_ s
    /\ checkPermission user domain permission s1 = Ret (false, Some e) s1
    /\ UpdateDB c s1 = Ret None s2
    /\ checkPermission user domain permission s2 = Ret (a, None) s3
    /\ calls s3 = calls s.
Proof.
  intros Hhit.
  destruct (ResetSvc_frame e s)
    as (s1 & Hreset & Hstale & Hup & Hauth & Hcert & Hclient & Hsem & Hn).
  assert (Hpush : exists s2, UpdateDB c s1 = Ret None s2)
    by (eexists; reflexivity).
  destruct Hpush as (s2 & Hpush).
  destruct (UpdateDB_frame c s1 s2 Hpush)
    as (Hdb2 & Hup2 & _ & _ & Hclient2 & _).
  assert (Hhit2 : upCached (permKey (cacheToCredsDB c) user domain permission)
                    s2 = Some a).
  { unfold upCached in *. rewrite Hup2, Hup. exact Hhit. }
  destruct (checkPermission_hit s2 (cacheToCredsDB c) user domain permission
              a Hdb2 Hhit2) as (s3 & Hrun & Hcalls & _).
  exists s1, s2, s3. do 7 (split; [assumption|]).
  split.
  - destruct Hstale as (Hdb1 & Hch1 & Herr1).
    unfold checkPermission, bind, staleError.
    rewrite (fetchDB_stale s1 Hdb1 Hch1), Herr1. reflexivity.
  - split; [exact Hpush|]. split; [exact Hrun|].
    rewrite Hcalls. unfold calls. rewrite Hclient2, Hclient. reflexivity.
Qed.

Lemma X15_reset_keeps_caches_witness :
  exists s1 s2 s3 : Svc,
    ResetSvc (Some Scenario.stale) Cases.checked = Ret tt s1
    /\ @checkPermission Example.std "Administrator" "admin"
         "cluster.admin!write" s1
       = Ret (false, Some Scenario.stale) s1
    /\ UpdateDB (Scenario.cache "v1" "enable") s1 = Ret None s2
    /\ @checkPermission Example.std "Administrator" "admin"
         "cluster.admin!write" s2
       = Ret (true, None) s3
    /\ calls s3 = calls Cases.checked.
Proof.
  destruct (@X15_reset_keeps_caches Example.std Cases.checked Scenario.stale
              (Scenario.cache "v1" "enable") "Administrator" "admin"
              "cluster.admin!write" true ltac:(vm_compute; reflexivity))
    as (s1 & s2 & s3 & Hreset & _ & _ & _ & _ & _ & _ & Hstale & Hpush
        & Hrun & Hcalls).
  exists s1, s2, s3. repeat (split; [assumption|]). exact Hcalls.
Defined.

(** ** Server-side verification is not cached *)



(** ** Credentials and their permissions *)

(** X17.  Credentials accepted as special report their user name as it
    was given and the domain "builtin", yet a permission asked of them
    is checked under the domain they hold, "admin": on a cache miss
    [IsAllowed] makes one outbound call whose query names that user, the
    domain "admin" and the permission. *)
Theorem X17_special_creds_checked_as_admin `{GoStd} (s : Svc) (d : credsDB)
  (user password permission : string) :
  db s = Some d ->
  String.get 0 user = Some "@"%char ->
  password = specialPassword d ->
  upCached (permKey d user "admin" permission) s = None ->
  (semaphore s < semaphoreCap)%nat ->
  http_NewRequest_error "GET" (permissionCheckURL d) = None ->
  exists (creds : CredsImpl) (r : bool * option error) (s' : Svc),
    VerifyPassword user password s = Ret (Some creds, None) s
    /\ Name creds = user
    /\ Domain creds = "builtin"
    /\ IsAllowed creds permission s = Ret r s'
    /\ calls s'
       = (calls s ++ [permissionRequest d user "admin" permission])%list
    /\ RawQuery (permissionRequest d user "admin" permission)
       = [("domain", "admin"); ("permission", permission); ("user", user)].
Proof.
  intros Hdb Hat Hpw Hmiss Hfree Hurl.
  destruct (checkPermission_miss s d user "admin" permission Hdb Hmiss Hfree
              Hurl) as (r & s' & Hrun & Hcalls & _).
  exists {| name := user; domain := "admin"; password := password;
            creds_db := d |}, r, s'.
  split.
  - unfold VerifyPassword. under_snapshot Hdb.
    rewrite (verifySpecialCreds_at d user password Hat Hpw). reflexivity.
  - split; [reflexivity|]. split; [reflexivity|].
    split; [exact Hrun|]. split; [exact Hcalls|reflexivity].
Qed.

Lemma X17_special_creds_checked_as_admin_witness :
  exists (creds : CredsImpl) (s' : Svc),
    @VerifyPassword Example.std "@component" "barfoo"
      (Scenario.fresh "disable")
    = Ret (Some creds, None) (Scenario.fresh "disable")
    /\ Domain creds = "builtin"
    /\ @IsAllowed Example.std creds "cluster.admin!write"
         (Scenario.fresh "disable")
       = Ret (true, None) s'
    /\ List.length (calls s') = 1%nat.
Proof.
  destruct (@X17_special_creds_checked_as_admin Example.std
              (Scenario.fresh "disable") (Scenario.snapshot "disable")
              "@component" "barfoo" "cluster.admin!write"
              eq_refl eq_refl eq_refl eq_refl ltac:(vm_compute; lia) eq_refl)
    as (creds & r & s' & Hverify & _ & Hdomain & Hrun & Hcalls & _).
  exists creds, s'. split; [exact Hverify|]. split; [exact Hdomain|].
  injection Hverify as <-.
  split; [|rewrite Hcalls; reflexivity].
  rewrite Hrun. f_equal.
  assert (Hr : Ret r s'
               = @IsAllowed Example.std
                   {| name := "@component"; domain := "admin";
                      password := "barfoo";
                      creds_db := Scenario.snapshot "disable" |}
                   "cluster.admin!write" (Scenario.fresh "disable"))
    by (symmetry; exact Hrun).
  vm_compute in Hr. injection Hr as -> _. reflexivity.
Defined.
